(** * ComplianceSync API: compliance data model and its consistency rules

    A shallow embedding of the Go sources of the ComplianceSync backend
    (package [models], package [store], package [api]) and the properties
    of the evidence lifecycle, the status derivation, tenant scoping and the
    audit trail that hold of them.

    Conventions of the embedding.
    - Go [string] and the string-typed enumerations ([UserRole],
      [RequirementStatus], [EvidenceSource], ...) are [string]; their
      constants are definitions with the Go names.
    - Go [int] / [int64] values are [Z].  The Go code never does arithmetic
      on [EvidenceCount]; the only arithmetic on it is Firestore's
      server-side [Increment] transform, embedded as addition on [Z].
    - [time.Time] is the wall-clock instant in nanoseconds ([Z]);
      [time.Duration] is a signed 64-bit count of nanoseconds, with the
      saturation of [Time.Sub] written out.
    - A pointer that may be nil ([*time.Time]) is an [option].
    - Firestore is a record of finite maps, one per collection; a document
      of a sub-collection [organizations/{org}/<coll>/{id}] is stored under
      the key [(org, id)].  The store is reliable: the only errors are the
      ones Firestore itself reports for a document that does not exist
      ([Get] and [Update] of a missing document).
    - [time.Now()] and [uuid.New()] read an oracle through a small state
      monad, so successive calls may return different values. *)

From Stdlib Require Import ZArith Lia.
From Stdlib Require Import Floats.SpecFloat.
From stdpp Require Import gmap strings list fin_maps pretty sorting.

#[local] Open Scope string_scope.
#[local] Open Scope Z_scope.

(* ===================================================================== *)
(** * Package [time] (the part the sources use)                          *)
(* ===================================================================== *)

Module time.

Definition Time : Type := Z.
Definition Duration : Type := Z.

Definition Nanosecond : Duration := 1.
Definition Microsecond : Duration := 1000 * Nanosecond.
Definition Millisecond : Duration := 1000 * Microsecond.
Definition Second : Duration := 1000 * Millisecond.
Definition Minute : Duration := 60 * Second.
Definition Hour : Duration := 60 * Minute.

Definition minDuration : Duration := - 2 ^ 63.
Definition maxDuration : Duration := 2 ^ 63 - 1.

(** [t.Sub(u)]: the duration [t - u]; when it does not fit a [Duration]
    the result is [minDuration] or [maxDuration]. *)
Definition Sub (t u : Time) : Duration :=
  if t - u <? minDuration then minDuration
  else if maxDuration <? t - u then maxDuration
  else t - u.

(** [int(d.Hours() / 24)].  [Hours] returns the duration as a number of
    hours and the conversion to [int] truncates toward zero.  The
    quotient is taken here in exact arithmetic. *)
Definition wholeDays (d : Duration) : Z := Z.quot d (24 * Hour).

(** The same computation step by step in IEEE binary64, as the Go
    run time performs it:
    [Hours() = float64(d / Hour) + float64(d % Hour) / (60*60*1e9)],
    then the division by [24] and the truncating conversion. *)
Definition float64 : Type := spec_float.
Definition f64_of_Z (z : Z) : float64 := binary_normalize 53 1024 z 0 false.
Definition f64_add : float64 -> float64 -> float64 := SFadd 53 1024.
Definition f64_div : float64 -> float64 -> float64 := SFdiv 53 1024.

Definition f64_to_int (x : float64) : Z :=
  match x with
  | S754_finite s m e =>
      let a := if 0 <=? e then Z.pos m * 2 ^ e else Z.quot (Z.pos m) (2 ^ (- e)) in
      if s then - a else a
  | _ => 0
  end.

Definition Hours (d : Duration) : float64 :=
  f64_add (f64_of_Z (Z.quot d Hour))
          (f64_div (f64_of_Z (Z.rem d Hour)) (f64_of_Z (60 * 60 * 10 ^ 9))).

Definition wholeDays_f64 (d : Duration) : Z :=
  f64_to_int (f64_div (Hours d) (f64_of_Z 24)).

End time.

(* ===================================================================== *)
(** * Package [models]                                                   *)
(* ===================================================================== *)

(** ** requirement.go *)

Definition RequirementStatus : Type := string.

Definition StatusNotStarted : RequirementStatus := "not_started".
Definition StatusInProgress : RequirementStatus := "in_progress".
Definition StatusCompliant : RequirementStatus := "compliant".
Definition StatusAtRisk : RequirementStatus := "at_risk".
Definition StatusNonCompliant : RequirementStatus := "non_compliant".

Module RequirementTemplate.
Record t : Type := mk {
  ID : string;
  Title : string;
  Description : string;
  Category : string;
  RegulatoryFramework : string;
  Authority : string;
  EvidenceTypes : list string;
  Frequency : string;
  IsActive : bool;
  CreatedAt : time.Time;
  UpdatedAt : time.Time
}.
End RequirementTemplate.

Module Requirement.
Record t : Type := mk {
  ID : string;
  OrganizationID : string;
  TemplateID : string;
  Title : string;
  Description : string;
  Category : string;
  Authority : string;
  EvidenceTypes : list string;
  Frequency : string;
  Status : RequirementStatus;
  NextDueDate : option time.Time;
  LastCompletedDate : option time.Time;
  EvidenceCount : Z;
  Notes : string;
  ActivatedAt : time.Time;
  ActivatedBy : string;
  UpdatedAt : time.Time;
  UpdatedBy : string;
  IsActive : bool
}.

Definition set_Status (v : RequirementStatus) (r : t) : t :=
  mk (ID r) (OrganizationID r) (TemplateID r) (Title r) (Description r)
     (Category r) (Authority r) (EvidenceTypes r) (Frequency r) v
     (NextDueDate r) (LastCompletedDate r) (EvidenceCount r) (Notes r)
     (ActivatedAt r) (ActivatedBy r) (UpdatedAt r) (UpdatedBy r) (IsActive r).

Definition set_EvidenceCount (v : Z) (r : t) : t :=
  mk (ID r) (OrganizationID r) (TemplateID r) (Title r) (Description r)
     (Category r) (Authority r) (EvidenceTypes r) (Frequency r) (Status r)
     (NextDueDate r) (LastCompletedDate r) v (Notes r)
     (ActivatedAt r) (ActivatedBy r) (UpdatedAt r) (UpdatedBy r) (IsActive r).

Definition set_Notes (v : string) (r : t) : t :=
  mk (ID r) (OrganizationID r) (TemplateID r) (Title r) (Description r)
     (Category r) (Authority r) (EvidenceTypes r) (Frequency r) (Status r)
     (NextDueDate r) (LastCompletedDate r) (EvidenceCount r) v
     (ActivatedAt r) (ActivatedBy r) (UpdatedAt r) (UpdatedBy r) (IsActive r).

Definition set_UpdatedAt (v : time.Time) (r : t) : t :=
  mk (ID r) (OrganizationID r) (TemplateID r) (Title r) (Description r)
     (Category r) (Authority r) (EvidenceTypes r) (Frequency r) (Status r)
     (NextDueDate r) (LastCompletedDate r) (EvidenceCount r) (Notes r)
     (ActivatedAt r) (ActivatedBy r) v (UpdatedBy r) (IsActive r).

Definition set_UpdatedBy (v : string) (r : t) : t :=
  mk (ID r) (OrganizationID r) (TemplateID r) (Title r) (Description r)
     (Category r) (Authority r) (EvidenceTypes r) (Frequency r) (Status r)
     (NextDueDate r) (LastCompletedDate r) (EvidenceCount r) (Notes r)
     (ActivatedAt r) (ActivatedBy r) (UpdatedAt r) v (IsActive r).

Definition set_IsActive (v : bool) (r : t) : t :=
  mk (ID r) (OrganizationID r) (TemplateID r) (Title r) (Description r)
     (Category r) (Authority r) (EvidenceTypes r) (Frequency r) (Status r)
     (NextDueDate r) (LastCompletedDate r) (EvidenceCount r) (Notes r)
     (ActivatedAt r) (ActivatedBy r) (UpdatedAt r) (UpdatedBy r) v.

(** [func (r *Requirement) CalculateStatus() RequirementStatus], with the
    reading of [time.Now()] as the argument [now]. *)
Definition CalculateStatus (r : t) (now : time.Time) : RequirementStatus :=
  if EvidenceCount r =? 0 then StatusNotStarted
  else
    match NextDueDate r with
    | None =>
        if 0 <? EvidenceCount r then StatusCompliant else StatusNotStarted
    | Some due =>
        let daysUntilDue := time.wholeDays (time.Sub due now) in
        if daysUntilDue <? 0 then StatusNonCompliant
        else if daysUntilDue <=? 7 then StatusAtRisk
        else if 0 <? EvidenceCount r then StatusCompliant
        else StatusInProgress
    end.

(** The same function on the binary64 day count. *)
Definition CalculateStatus_f64 (r : t) (now : time.Time) : RequirementStatus :=
  if EvidenceCount r =? 0 then StatusNotStarted
  else
    match NextDueDate r with
    | None =>
        if 0 <? EvidenceCount r then StatusCompliant else StatusNotStarted
    | Some due =>
        let daysUntilDue := time.wholeDays_f64 (time.Sub due now) in
        if daysUntilDue <? 0 then StatusNonCompliant
        else if daysUntilDue <=? 7 then StatusAtRisk
        else if 0 <? EvidenceCount r then StatusCompliant
        else StatusInProgress
    end.
End Requirement.

(** ** user.go *)

Definition UserRole : Type := string.

Definition RoleAdmin : UserRole := "admin".
Definition RoleComplianceOfficer : UserRole := "compliance_officer".
Definition RoleViewer : UserRole := "viewer".

Module User.
Record t : Type := mk {
  UID : string;
  Email : string;
  FullName : string;
  OrganizationID : string;
  Role : UserRole;
  Status : string;
  EmailVerified : bool;
  CreatedAt : time.Time;
  UpdatedAt : time.Time;
  LastLoginAt : option time.Time
}.

Definition set_FullName (v : string) (u : t) : t :=
  mk (UID u) (Email u) v (OrganizationID u) (Role u) (Status u)
     (EmailVerified u) (CreatedAt u) (UpdatedAt u) (LastLoginAt u).

Definition set_Role (v : UserRole) (u : t) : t :=
  mk (UID u) (Email u) (FullName u) (OrganizationID u) v (Status u)
     (EmailVerified u) (CreatedAt u) (UpdatedAt u) (LastLoginAt u).

Definition set_Status (v : string) (u : t) : t :=
  mk (UID u) (Email u) (FullName u) (OrganizationID u) (Role u) v
     (EmailVerified u) (CreatedAt u) (UpdatedAt u) (LastLoginAt u).

Definition set_UpdatedAt (v : time.Time) (u : t) : t :=
  mk (UID u) (Email u) (FullName u) (OrganizationID u) (Role u) (Status u)
     (EmailVerified u) (CreatedAt u) v (LastLoginAt u).

(** [func (u *User) HasPermission(action string) bool] *)
Definition HasPermission (u : t) (action : string) : bool :=
  if String.eqb (Role u) RoleAdmin then true
  else if String.eqb (Role u) RoleComplianceOfficer then
    negb (String.eqb action "manage_users")
    && negb (String.eqb action "manage_billing")
    && negb (String.eqb action "manage_integrations")
  else if String.eqb (Role u) RoleViewer then
    String.eqb action "view_dashboard" || String.eqb action "view_requirements"
    || String.eqb action "view_evidence" || String.eqb action "view_audit_log"
    || String.eqb action "generate_reports"
  else false.

(** [func (u *User) CanWrite() bool] *)
Definition CanWrite (u : t) : bool :=
  String.eqb (Role u) RoleAdmin || String.eqb (Role u) RoleComplianceOfficer.

(** [func (u *User) IsAdmin() bool] *)
Definition IsAdmin (u : t) : bool := String.eqb (Role u) RoleAdmin.
End User.

(** ** evidence.go *)

Definition EvidenceSource : Type := string.

Definition SourceManualUpload : EvidenceSource := "manual_upload".
Definition SourceGmail : EvidenceSource := "gmail".
Definition SourceGoogleDrive : EvidenceSource := "google_drive".
Definition SourceGoogleCalendar : EvidenceSource := "google_calendar".
Definition SourceExchange : EvidenceSource := "exchange".
Definition SourceOneDrive : EvidenceSource := "onedrive".
Definition SourceSlack : EvidenceSource := "slack".

Module Evidence.
(** [Metadata] is a [map[string]interface{}]; the handlers modelled here
    never write it, and its values are kept as text. *)
Record t : Type := mk {
  ID : string;
  OrganizationID : string;
  Title : string;
  Description : string;
  Source : EvidenceSource;
  EvidenceDate : time.Time;
  FileURL : string;
  FileName : string;
  FileSize : Z;
  FileType : string;
  ExternalLink : string;
  Metadata : gmap string string;
  RequirementIDs : list string;
  UploadedBy : string;
  CreatedAt : time.Time;
  UpdatedAt : time.Time;
  Status : string
}.

Definition set_ID (v : string) (e : t) : t :=
  mk v (OrganizationID e) (Title e) (Description e) (Source e)
     (EvidenceDate e) (FileURL e) (FileName e) (FileSize e) (FileType e)
     (ExternalLink e) (Metadata e) (RequirementIDs e) (UploadedBy e)
     (CreatedAt e) (UpdatedAt e) (Status e).

Definition set_Title (v : string) (e : t) : t :=
  mk (ID e) (OrganizationID e) v (Description e) (Source e)
     (EvidenceDate e) (FileURL e) (FileName e) (FileSize e) (FileType e)
     (ExternalLink e) (Metadata e) (RequirementIDs e) (UploadedBy e)
     (CreatedAt e) (UpdatedAt e) (Status e).

Definition set_Description (v : string) (e : t) : t :=
  mk (ID e) (OrganizationID e) (Title e) v (Source e)
     (EvidenceDate e) (FileURL e) (FileName e) (FileSize e) (FileType e)
     (ExternalLink e) (Metadata e) (RequirementIDs e) (UploadedBy e)
     (CreatedAt e) (UpdatedAt e) (Status e).

Definition set_Source (v : EvidenceSource) (e : t) : t :=
  mk (ID e) (OrganizationID e) (Title e) (Description e) v
     (EvidenceDate e) (FileURL e) (FileName e) (FileSize e) (FileType e)
     (ExternalLink e) (Metadata e) (RequirementIDs e) (UploadedBy e)
     (CreatedAt e) (UpdatedAt e) (Status e).

Definition set_EvidenceDate (v : time.Time) (e : t) : t :=
  mk (ID e) (OrganizationID e) (Title e) (Description e) (Source e)
     v (FileURL e) (FileName e) (FileSize e) (FileType e)
     (ExternalLink e) (Metadata e) (RequirementIDs e) (UploadedBy e)
     (CreatedAt e) (UpdatedAt e) (Status e).

Definition set_RequirementIDs (v : list string) (e : t) : t :=
  mk (ID e) (OrganizationID e) (Title e) (Description e) (Source e)
     (EvidenceDate e) (FileURL e) (FileName e) (FileSize e) (FileType e)
     (ExternalLink e) (Metadata e) v (UploadedBy e)
     (CreatedAt e) (UpdatedAt e) (Status e).

Definition set_CreatedAt (v : time.Time) (e : t) : t :=
  mk (ID e) (OrganizationID e) (Title e) (Description e) (Source e)
     (EvidenceDate e) (FileURL e) (FileName e) (FileSize e) (FileType e)
     (ExternalLink e) (Metadata e) (RequirementIDs e) (UploadedBy e)
     v (UpdatedAt e) (Status e).

Definition set_UpdatedAt (v : time.Time) (e : t) : t :=
  mk (ID e) (OrganizationID e) (Title e) (Description e) (Source e)
     (EvidenceDate e) (FileURL e) (FileName e) (FileSize e) (FileType e)
     (ExternalLink e) (Metadata e) (RequirementIDs e) (UploadedBy e)
     (CreatedAt e) v (Status e).

Definition set_Status (v : string) (e : t) : t :=
  mk (ID e) (OrganizationID e) (Title e) (Description e) (Source e)
     (EvidenceDate e) (FileURL e) (FileName e) (FileSize e) (FileType e)
     (ExternalLink e) (Metadata e) (RequirementIDs e) (UploadedBy e)
     (CreatedAt e) (UpdatedAt e) v.

(** A field marked [omitempty] is absent from the stored document when
    it holds the zero value. *)
Definition omitempty (v : string) : option string :=
  if String.eqb v EmptyString then None else Some v.

(** The string-valued fields of the stored document, by their
    [firestore:"..."] tag; this is what an equality filter of
    [ListEvidence] compares. *)
Definition field (e : t) (key : string) : option string :=
  if String.eqb key "id" then Some (ID e)
  else if String.eqb key "organization_id" then Some (OrganizationID e)
  else if String.eqb key "title" then Some (Title e)
  else if String.eqb key "description" then omitempty (Description e)
  else if String.eqb key "source" then Some (Source e)
  else if String.eqb key "file_url" then omitempty (FileURL e)
  else if String.eqb key "file_name" then omitempty (FileName e)
  else if String.eqb key "file_type" then omitempty (FileType e)
  else if String.eqb key "external_link" then omitempty (ExternalLink e)
  else if String.eqb key "uploaded_by" then Some (UploadedBy e)
  else if String.eqb key "status" then Some (Status e)
  else None.
End Evidence.

(** ** organization.go *)

Definition SubscriptionTier : Type := string.

Definition TierStarter : SubscriptionTier := "starter".
Definition TierProfessional : SubscriptionTier := "professional".
Definition TierBusiness : SubscriptionTier := "business".

Module Subscription.
Record t : Type := mk {
  Tier : SubscriptionTier;
  Status : string;
  StripeCustomerID : string;
  StripeSubscriptionID : string;
  CurrentPeriodStart : time.Time;
  CurrentPeriodEnd : time.Time;
  CancelAtPeriodEnd : bool;
  MaxUsers : Z;
  MonthlyPrice : time.float64
}.
End Subscription.

Module Organization.
Record t : Type := mk {
  ID : string;
  Name : string;
  Industry : string;
  EmployeeCount : string;
  RegulatoryFramework : string;
  Website : string;
  Address : string;
  Phone : string;
  Subscription : Subscription.t;
  CreatedAt : time.Time;
  UpdatedAt : time.Time;
  UpdatedBy : string;
  ActiveUserCount : Z
}.

Definition set_UpdatedAt (v : time.Time) (o : t) : t :=
  mk (ID o) (Name o) (Industry o) (EmployeeCount o) (RegulatoryFramework o)
     (Website o) (Address o) (Phone o) (Subscription o) (CreatedAt o) v
     (UpdatedBy o) (ActiveUserCount o).
End Organization.

(** [func GetMaxUsers(tier SubscriptionTier) int] *)
Definition GetMaxUsers (tier : SubscriptionTier) : Z :=
  if String.eqb tier TierStarter then 10
  else if String.eqb tier TierProfessional then 25
  else if String.eqb tier TierBusiness then 50
  else 10.

(** [func GetMonthlyPrice(tier SubscriptionTier) float64]; the prices are
    whole numbers, exact in binary64. *)
Definition GetMonthlyPrice (tier : SubscriptionTier) : time.float64 :=
  if String.eqb tier TierStarter then time.f64_of_Z 149
  else if String.eqb tier TierProfessional then time.f64_of_Z 349
  else if String.eqb tier TierBusiness then time.f64_of_Z 699
  else time.f64_of_Z 149.

(** ** audit.go and report.go *)

(** [type AuditAction string] and its constants. *)
Definition AuditAction : Type := string.

Definition ActionLogin : AuditAction := "login".
Definition ActionLogout : AuditAction := "logout".
Definition ActionUserCreated : AuditAction := "user_created".
Definition ActionUserUpdated : AuditAction := "user_updated".
Definition ActionUserDeleted : AuditAction := "user_deleted".
Definition ActionOrgCreated : AuditAction := "organization_created".
Definition ActionOrgUpdated : AuditAction := "organization_updated".
Definition ActionRequirementActivated : AuditAction := "requirement_activated".
Definition ActionRequirementUpdated : AuditAction := "requirement_updated".
Definition ActionRequirementDeactivated : AuditAction := "requirement_deactivated".
Definition ActionEvidenceCreated : AuditAction := "evidence_created".
Definition ActionEvidenceUpdated : AuditAction := "evidence_updated".
Definition ActionEvidenceDeleted : AuditAction := "evidence_deleted".
Definition ActionEvidenceViewed : AuditAction := "evidence_viewed".
Definition ActionEvidenceDownloaded : AuditAction := "evidence_downloaded".
Definition ActionReportGenerated : AuditAction := "report_generated".
Definition ActionIntegrationConnected : AuditAction := "integration_connected".
Definition ActionIntegrationDisconnected : AuditAction := "integration_disconnected".
Definition ActionSubscriptionUpdated : AuditAction := "subscription_updated".
Definition ActionPaymentMethodUpdated : AuditAction := "payment_method_updated".

Module AuditLog.
(** [Changes] and [Metadata] are [map[string]interface{}].  The only
    values the handlers put there are, under a key, the [from] and [to]
    lists of requirement ids of an update ([Changes]) and the list of
    requirement ids of a deleted item ([Metadata]). *)
Record t : Type := mk {
  ID : string;
  OrganizationID : string;
  Timestamp : time.Time;
  UserID : string;
  UserEmail : string;
  Action : AuditAction;
  ResourceType : string;
  ResourceID : string;
  Description : string;
  Changes : list (string * (list string * list string));
  IPAddress : string;
  UserAgent : string;
  Metadata : list (string * list string)
}.

Definition set_ID (v : string) (l : t) : t :=
  mk v (OrganizationID l) (Timestamp l) (UserID l) (UserEmail l) (Action l)
     (ResourceType l) (ResourceID l) (Description l) (Changes l)
     (IPAddress l) (UserAgent l) (Metadata l).

Definition set_Timestamp (v : time.Time) (l : t) : t :=
  mk (ID l) (OrganizationID l) v (UserID l) (UserEmail l) (Action l)
     (ResourceType l) (ResourceID l) (Description l) (Changes l)
     (IPAddress l) (UserAgent l) (Metadata l).
End AuditLog.

Module Report.
Record t : Type := mk {
  ID : string;
  OrganizationID : string;
  Title : string;
  Description : string;
  Type_ : string;
  RequirementIDs : list string;
  Status : string;
  FileURL : string;
  GeneratedBy : string;
  CreatedAt : time.Time;
  CompletedAt : option time.Time;
  ErrorMessage : string
}.

Definition set_ID (v : string) (r : t) : t :=
  mk v (OrganizationID r) (Title r) (Description r) (Type_ r)
     (RequirementIDs r) (Status r) (FileURL r) (GeneratedBy r)
     (CreatedAt r) (CompletedAt r) (ErrorMessage r).

Definition set_CreatedAt (v : time.Time) (r : t) : t :=
  mk (ID r) (OrganizationID r) (Title r) (Description r) (Type_ r)
     (RequirementIDs r) (Status r) (FileURL r) (GeneratedBy r)
     v (CompletedAt r) (ErrorMessage r).
End Report.

(* ===================================================================== *)
(** * Package [auth]: the claims of a verified token                     *)
(* ===================================================================== *)

Module UserClaims.
Record t : Type := mk {
  UID : string;
  Email : string;
  EmailVerified : bool;
  OrganizationID : string;
  Role : string
}.
End UserClaims.

(* ===================================================================== *)
(** * Package [store]: the Firestore-backed store                        *)
(* ===================================================================== *)

Module store.

(** Go errors.  [errNotFound] is the error of the Firestore client for a
    document that does not exist; [Errorf] is [fmt.Errorf("...: %w", err)]. *)
Inductive goerror : Type :=
  | errNotFound
  | errorString (msg : string)
  | Errorf (msg : string) (wrapped : goerror).

(** A Go [error] value: [None] is [nil]. *)
Definition error : Type := option goerror.

(** The result of a Go function that returns a pointer and an [error]. *)
Inductive result (A : Type) : Type :=
  | Ok (a : A)
  | Err (e : goerror).
Arguments Ok {A} a.
Arguments Err {A} e.

(** The database: one finite map per collection. *)
Record FirestoreStore : Type := mkStore {
  organizations : gmap string Organization.t;
  users : gmap string User.t;
  requirements : gmap (string * string) Requirement.t;
  evidence : gmap (string * string) Evidence.t;
  audit_logs : gmap (string * string) AuditLog.t;
  reports : gmap (string * string) Report.t;
  requirement_templates : gmap string RequirementTemplate.t
}.

Definition set_organizations (v : gmap string Organization.t)
    (s : FirestoreStore) : FirestoreStore :=
  mkStore v (users s) (requirements s) (evidence s) (audit_logs s)
          (reports s) (requirement_templates s).

Definition set_users (v : gmap string User.t)
    (s : FirestoreStore) : FirestoreStore :=
  mkStore (organizations s) v (requirements s) (evidence s) (audit_logs s)
          (reports s) (requirement_templates s).

Definition set_requirements (v : gmap (string * string) Requirement.t)
    (s : FirestoreStore) : FirestoreStore :=
  mkStore (organizations s) (users s) v (evidence s) (audit_logs s)
          (reports s) (requirement_templates s).

Definition set_evidence (v : gmap (string * string) Evidence.t)
    (s : FirestoreStore) : FirestoreStore :=
  mkStore (organizations s) (users s) (requirements s) v (audit_logs s)
          (reports s) (requirement_templates s).

Definition set_audit_logs (v : gmap (string * string) AuditLog.t)
    (s : FirestoreStore) : FirestoreStore :=
  mkStore (organizations s) (users s) (requirements s) (evidence s) v
          (reports s) (requirement_templates s).

Definition set_reports (v : gmap (string * string) Report.t)
    (s : FirestoreStore) : FirestoreStore :=
  mkStore (organizations s) (users s) (requirements s) (evidence s)
          (audit_logs s) v (requirement_templates s).

(** The world a request runs in: the database, and the oracles read by
    [time.Now()] and [uuid.New().String()] (the values the successive
    calls will return). *)
Record World : Type := mkWorld {
  db : FirestoreStore;
  clock : nat -> time.Time;
  uuids : nat -> string
}.

Definition M (A : Type) : Type := World -> A * World.

Definition ret {A} (a : A) : M A := fun w => (a, w).

Definition bind {A B} (m : M A) (k : A -> M B) : M B :=
  fun w => k (fst (m w)) (snd (m w)).

Notation "x <- m ;; k" := (bind m (fun x => k))
  (at level 100, m at next level, right associativity).

Definition get_db : M FirestoreStore := fun w => (db w, w).

Definition with_db (f : FirestoreStore -> FirestoreStore) (w : World) : World :=
  mkWorld (f (db w)) (clock w) (uuids w).

Definition advance_clock (w : World) : World :=
  mkWorld (db w) (fun n => clock w (S n)) (uuids w).

Definition advance_uuids (w : World) : World :=
  mkWorld (db w) (clock w) (fun n => uuids w (S n)).

Definition modify_db (f : FirestoreStore -> FirestoreStore) : M unit :=
  fun w => (tt, with_db f w).

(** [time.Now()] *)
Definition time_Now : M time.Time :=
  fun w => (clock w 0%nat, advance_clock w).

(** [uuid.New().String()] *)
Definition uuid_New : M string :=
  fun w => (uuids w 0%nat, advance_uuids w).

(** [for _, x := range l { f(x) }] *)
Fixpoint forEach {A} (l : list A) (f : A -> M unit) : M unit :=
  match l with
  | [] => ret tt
  | x :: l' => _ <- f x ;; forEach l' f
  end.

(** ** Organization methods *)

Definition GetOrganization (orgID : string) : M (result Organization.t) :=
  s <- get_db ;;
  match organizations s !! orgID with
  | None => ret (Err (Errorf "failed to get organization" errNotFound))
  | Some org => ret (Ok org)
  end.

(** The functions that assign through their pointer argument return the
    record as the caller sees it afterwards. *)
Definition UpdateOrganization (org : Organization.t)
    : M (Organization.t * error) :=
  now <- time_Now ;;
  let org := Organization.set_UpdatedAt now org in
  _ <- modify_db (fun s =>
         set_organizations (<[Organization.ID org := org]> (organizations s)) s) ;;
  ret (org, None).

(** ** User methods *)

Definition GetUser (uid : string) : M (result User.t) :=
  s <- get_db ;;
  match users s !! uid with
  | None => ret (Err (Errorf "failed to get user" errNotFound))
  | Some u => ret (Ok u)
  end.

Definition UpdateUser (user : User.t) : M (User.t * error) :=
  now <- time_Now ;;
  let user := User.set_UpdatedAt now user in
  _ <- modify_db (fun s =>
         set_users (<[User.UID user := user]> (users s)) s) ;;
  ret (user, None).

(** [Where("organization_id", "==", orgID)] over the [users] collection:
    no condition on the user's status. *)
Definition ListUsersByOrganization (orgID : string) : M (result (list User.t)) :=
  s <- get_db ;;
  ret (Ok (List.filter (fun u => String.eqb (User.OrganizationID u) orgID)
                       (snd <$> map_to_list (users s)))).

(** ** Requirement methods *)

Definition CreateRequirement (req : Requirement.t)
    : M (Requirement.t * error) :=
  id <- uuid_New ;;
  activated <- time_Now ;;
  updated <- time_Now ;;
  let req :=
    Requirement.mk id (Requirement.OrganizationID req)
      (Requirement.TemplateID req) (Requirement.Title req)
      (Requirement.Description req) (Requirement.Category req)
      (Requirement.Authority req) (Requirement.EvidenceTypes req)
      (Requirement.Frequency req) StatusNotStarted
      (Requirement.NextDueDate req) (Requirement.LastCompletedDate req)
      0 (Requirement.Notes req) activated (Requirement.ActivatedBy req)
      updated (Requirement.UpdatedBy req) true in
  _ <- modify_db (fun s =>
         set_requirements
           (<[(Requirement.OrganizationID req, Requirement.ID req) := req]>
              (requirements s)) s) ;;
  ret (req, None).

Definition GetRequirement (orgID reqID : string) : M (result Requirement.t) :=
  s <- get_db ;;
  match requirements s !! (orgID, reqID) with
  | None => ret (Err (Errorf "failed to get requirement" errNotFound))
  | Some r => ret (Ok r)
  end.

(** [Where("is_active", "==", true)] over the organization's requirements. *)
Definition ListRequirements (orgID : string) : M (result (list Requirement.t)) :=
  s <- get_db ;;
  ret (Ok (List.filter Requirement.IsActive
             (snd <$> List.filter (fun kv => String.eqb (fst (fst kv)) orgID)
                        (map_to_list (requirements s))))).

Definition UpdateRequirement (req : Requirement.t)
    : M (Requirement.t * error) :=
  now <- time_Now ;;
  let req := Requirement.set_UpdatedAt now req in
  _ <- modify_db (fun s =>
         set_requirements
           (<[(Requirement.OrganizationID req, Requirement.ID req) := req]>
              (requirements s)) s) ;;
  ret (req, None).

(** ** Helper methods *)

(** [Update] with [firestore.Increment(n)] on [evidence_count] and a new
    [updated_at]; Firestore's [Update] fails on a document that does not
    exist and writes nothing. *)
Definition addRequirementEvidenceCount (n : Z) (orgID reqID : string)
    : M error :=
  now <- time_Now ;;
  s <- get_db ;;
  match requirements s !! (orgID, reqID) with
  | None => ret (Some errNotFound)
  | Some r =>
      let r := Requirement.set_UpdatedAt now
                 (Requirement.set_EvidenceCount (Requirement.EvidenceCount r + n) r) in
      _ <- modify_db (set_requirements (<[(orgID, reqID) := r]> (requirements s))) ;;
      ret None
  end.

Definition incrementRequirementEvidenceCount (orgID reqID : string) : M error :=
  addRequirementEvidenceCount 1 orgID reqID.

Definition decrementRequirementEvidenceCount (orgID reqID : string) : M error :=
  addRequirementEvidenceCount (-1) orgID reqID.

(** ** Evidence methods *)

Definition CreateEvidence (ev : Evidence.t) : M (Evidence.t * error) :=
  id <- uuid_New ;;
  created <- time_Now ;;
  updated <- time_Now ;;
  let ev := Evidence.set_UpdatedAt updated
              (Evidence.set_CreatedAt created (Evidence.set_ID id ev)) in
  _ <- modify_db (fun s =>
         set_evidence
           (<[(Evidence.OrganizationID ev, Evidence.ID ev) := ev]> (evidence s)) s) ;;
  (* Update evidence count for associated requirements; an error is
     printed and does not fail the operation. *)
  _ <- forEach (Evidence.RequirementIDs ev) (fun reqID =>
         _ <- incrementRequirementEvidenceCount (Evidence.OrganizationID ev) reqID ;;
         ret tt) ;;
  ret (ev, None).

Definition GetEvidence (orgID evidenceID : string) : M (result Evidence.t) :=
  s <- get_db ;;
  match evidence s !! (orgID, evidenceID) with
  | None => ret (Err (Errorf "failed to get evidence" errNotFound))
  | Some e => ret (Ok e)
  end.

(** [Where("status", "==", "active")] and one [Where(key, "==", value)]
    per filter, over the organization's evidence. *)
Definition ListEvidence (orgID : string) (filters : list (string * string))
    : M (result (list Evidence.t)) :=
  s <- get_db ;;
  ret (Ok (List.filter
             (fun e =>
                String.eqb (Evidence.Status e) "active"
                && forallb (fun kv =>
                     match Evidence.field e (fst kv) with
                     | Some v => String.eqb v (snd kv)
                     | None => false
                     end) filters)
             (snd <$> List.filter (fun kv => String.eqb (fst (fst kv)) orgID)
                        (map_to_list (evidence s))))).

Definition UpdateEvidence (ev : Evidence.t) : M (Evidence.t * error) :=
  now <- time_Now ;;
  let ev := Evidence.set_UpdatedAt now ev in
  _ <- modify_db (fun s =>
         set_evidence
           (<[(Evidence.OrganizationID ev, Evidence.ID ev) := ev]> (evidence s)) s) ;;
  ret (ev, None).

(** [DeleteEvidence] soft deletes an evidence item. *)
Definition DeleteEvidence (orgID evidenceID : string) : M error :=
  (* Get the evidence first to update requirement counts *)
  got <- GetEvidence orgID evidenceID ;;
  match got with
  | Err e => ret (Some e)
  | Ok ev =>
      (* Update status to deleted *)
      now <- time_Now ;;
      s <- get_db ;;
      match evidence s !! (orgID, evidenceID) with
      | None => ret (Some (Errorf "failed to delete evidence" errNotFound))
      | Some doc =>
          let doc := Evidence.set_UpdatedAt now (Evidence.set_Status "deleted" doc) in
          _ <- modify_db (set_evidence (<[(orgID, evidenceID) := doc]> (evidence s))) ;;
          (* Decrement evidence count for associated requirements *)
          _ <- forEach (Evidence.RequirementIDs ev) (fun reqID =>
                 _ <- decrementRequirementEvidenceCount orgID reqID ;;
                 ret tt) ;;
          ret None
      end
  end.

(** ** Audit log methods *)

Definition CreateAuditLog (log : AuditLog.t) : M error :=
  id <- uuid_New ;;
  now <- time_Now ;;
  let log := AuditLog.set_Timestamp now (AuditLog.set_ID id log) in
  _ <- modify_db (fun s =>
         set_audit_logs
           (<[(AuditLog.OrganizationID log, AuditLog.ID log) := log]> (audit_logs s)) s) ;;
  ret None.

(** ** Report methods *)

Definition CreateReport (report : Report.t) : M (Report.t * error) :=
  id <- uuid_New ;;
  now <- time_Now ;;
  let report := Report.set_CreatedAt now (Report.set_ID id report) in
  _ <- modify_db (fun s =>
         set_reports
           (<[(Report.OrganizationID report, Report.ID report) := report]> (reports s)) s) ;;
  ret (report, None).

Definition GetReport (orgID reportID : string) : M (result Report.t) :=
  s <- get_db ;;
  match reports s !! (orgID, reportID) with
  | None => ret (Err (Errorf "failed to get report" errNotFound))
  | Some r => ret (Ok r)
  end.

Definition GetRequirementTemplate (templateID : string)
    : M (result RequirementTemplate.t) :=
  s <- get_db ;;
  match requirement_templates s !! templateID with
  | None => ret (Err (Errorf "failed to get requirement template" errNotFound))
  | Some t => ret (Ok t)
  end.

(** ** The remaining methods of the store *)

(** [CreateOrganization] creates a new organization. *)
Definition CreateOrganization (org : Organization.t) : M (Organization.t * error) :=
  id <- uuid_New ;;
  created <- time_Now ;;
  updated <- time_Now ;;
  let org :=
    Organization.mk id (Organization.Name org) (Organization.Industry org)
      (Organization.EmployeeCount org) (Organization.RegulatoryFramework org)
      (Organization.Website org) (Organization.Address org) (Organization.Phone org)
      (Organization.Subscription org) created updated (Organization.UpdatedBy org)
      1 (* Creator is the first user *) in
  _ <- modify_db (fun s =>
         set_organizations (<[Organization.ID org := org]> (organizations s)) s) ;;
  ret (org, None).

(** [CreateUser] creates a new user. *)
Definition CreateUser (user : User.t) : M (User.t * error) :=
  created <- time_Now ;;
  updated <- time_Now ;;
  let user :=
    User.mk (User.UID user) (User.Email user) (User.FullName user)
      (User.OrganizationID user) (User.Role user) "active"
      (User.EmailVerified user) created updated (User.LastLoginAt user) in
  _ <- modify_db (fun s => set_users (<[User.UID user := user]> (users s)) s) ;;
  ret (user, None).

(** [GetUserByEmail]: [Where("email", "==", email).Limit(1)].  Which of
    several users with the same email is returned is the store's choice;
    here it is the first in the order of [map_to_list]. *)
Definition GetUserByEmail (email : string) : M (result User.t) :=
  s <- get_db ;;
  match List.filter (fun u => String.eqb (User.Email u) email)
          (snd <$> map_to_list (users s)) with
  | [] => ret (Err (errorString "user not found"))
  | u :: _ => ret (Ok u)
  end.

(** [UpdateLastLogin]: [Update] of [last_login_at] and [updated_at], which
    fails on a user document that does not exist. *)
Definition UpdateLastLogin (uid : string) : M error :=
  now <- time_Now ;;
  s <- get_db ;;
  match users s !! uid with
  | None => ret (Some (Errorf "failed to update last login" errNotFound))
  | Some u =>
      let u :=
        User.mk (User.UID u) (User.Email u) (User.FullName u)
          (User.OrganizationID u) (User.Role u) (User.Status u)
          (User.EmailVerified u) (User.CreatedAt u) now (Some now) in
      _ <- modify_db (set_users (<[uid := u]> (users s))) ;;
      ret None
  end.

(** [UpdateReport] updates a report. *)
Definition UpdateReport (report : Report.t) : M error :=
  _ <- modify_db (fun s =>
         set_reports
           (<[(Report.OrganizationID report, Report.ID report) := report]> (reports s)) s) ;;
  ret None.

(** [ListRequirementTemplates]: the active templates of a framework. *)
Definition ListRequirementTemplates (framework : string)
    : M (result (list RequirementTemplate.t)) :=
  s <- get_db ;;
  ret (Ok (List.filter
             (fun t => String.eqb (RequirementTemplate.RegulatoryFramework t) framework
                       && RequirementTemplate.IsActive t)
             (snd <$> map_to_list (requirement_templates s)))).

(** The fields of an audit entry that the handlers filter on, by the key
    they use. *)
Definition auditField (l : AuditLog.t) (key : string) : option string :=
  if String.eqb key "user_id" then Some (AuditLog.UserID l)
  else if String.eqb key "action" then Some (AuditLog.Action l)
  else if String.eqb key "resource_type" then Some (AuditLog.ResourceType l)
  else None.

Definition auditMatches (filters : list (string * string)) (l : AuditLog.t) : bool :=
  forallb (fun kv =>
             match auditField l (fst kv) with
             | Some v => String.eqb v (snd kv)
             | None => false
             end) filters.

(** [OrderBy("timestamp", firestore.Desc)]: newest first. *)
Definition newerFirst (a b : AuditLog.t) : Prop :=
  AuditLog.Timestamp b <= AuditLog.Timestamp a.

#[global] Instance newerFirst_dec (a b : AuditLog.t) : Decision (newerFirst a b) :=
  Z_le_dec (AuditLog.Timestamp b) (AuditLog.Timestamp a).

(** [ListAuditLogs] lists the audit logs of an organization: the entries
    that pass every filter, newest first, the first [limit] of them when
    [limit > 0]. *)
Definition ListAuditLogs (orgID : string) (filters : list (string * string))
    (limit : Z) : M (result (list AuditLog.t)) :=
  s <- get_db ;;
  let matching :=
    List.filter (auditMatches filters)
      (snd <$> List.filter (fun kv => String.eqb (fst (fst kv)) orgID)
                 (map_to_list (audit_logs s))) in
  let ordered := merge_sort newerFirst matching in
  ret (Ok (if 0 <? limit then take (Z.to_nat limit) ordered else ordered)).

End store.

(* ===================================================================== *)
(** * Package [api]: the HTTP handlers                                   *)
(* ===================================================================== *)

Module http.
Definition StatusOK : Z := 200.
Definition StatusCreated : Z := 201.
Definition StatusAccepted : Z := 202.
Definition StatusBadRequest : Z := 400.
Definition StatusUnauthorized : Z := 401.
Definition StatusForbidden : Z := 403.
Definition StatusNotFound : Z := 404.
Definition StatusInternalServerError : Z := 500.
End http.

Module api.
Import store.

(** What a handler reads of the [*http.Request]: the claims the
    authentication middleware left in the context ([None] when
    [auth.GetUserClaims] fails), the chi URL parameters, the query
    string, the remote address and the user agent.  The decoded JSON body
    is a separate argument of each handler, [None] when decoding fails. *)
Record Request : Type := mkRequest {
  Claims : option UserClaims.t;
  URLParam : string -> string;
  Query : string -> string;
  RemoteAddr : string;
  UserAgent : string
}.

(** The value handed to [respondJSON]. *)
Inductive JSON : Type :=
  | jsonError (msg : string)
  | jsonMessage (msg : string)
  | jsonEvidence (e : Evidence.t)
  | jsonEvidenceList (l : list Evidence.t)
  | jsonRequirement (r : Requirement.t)
  | jsonRequirementList (l : list Requirement.t)
  | jsonUser (u : User.t)
  | jsonOrganization (o : Organization.t)
  | jsonReport (r : Report.t)
  | jsonUploadURL (url evidenceID : string) (expiresAt : time.Time)
  | jsonDownloadURL (url : string) (expiresAt : time.Time).

Record Response : Type := mkResponse {
  StatusCode : Z;
  Body : JSON
}.

Definition respondJSON (status : Z) (data : JSON) : M Response :=
  ret (mkResponse status data).

(** [respondJSON(w, status, map[string]string{"error": message})] *)
Definition respondError (status : Z) (message : string) : M Response :=
  respondJSON status (jsonError message).

(** ** Middleware helpers (server.go) *)

Definition requireAdmin (r : Request) (next : M Response) : M Response :=
  match Claims r with
  | None => respondError http.StatusUnauthorized "authentication required"
  | Some claims =>
      if negb (String.eqb (UserClaims.Role claims) "admin")
      then respondError http.StatusForbidden "admin role required"
      else next
  end.

Definition requireWrite (r : Request) (next : M Response) : M Response :=
  match Claims r with
  | None => respondError http.StatusUnauthorized "authentication required"
  | Some claims =>
      if negb (String.eqb (UserClaims.Role claims) "admin")
         && negb (String.eqb (UserClaims.Role claims) "compliance_officer")
      then respondError http.StatusForbidden "write permission required"
      else next
  end.

(** The audit entry a handler builds before [CreateAuditLog] assigns its
    id and timestamp. *)
Definition newAuditLog (r : Request) (claims : UserClaims.t)
    (orgID : string) (action : AuditAction)
    (resourceType resourceID description : string)
    (changes : list (string * (list string * list string)))
    (metadata : list (string * list string)) : AuditLog.t :=
  AuditLog.mk EmptyString orgID 0 (UserClaims.UID claims) (UserClaims.Email claims)
    action resourceType resourceID description changes
    (RemoteAddr r) (UserAgent r) metadata.

(** ** Request bodies *)

Module UploadURLRequest.
Record t : Type := mk { FileName : string; FileType : string; FileSize : Z }.
End UploadURLRequest.

Module CreateEvidenceRequest.
Record t : Type := mk {
  EvidenceID : string;
  Title : string;
  Description : string;
  EvidenceDate : string;
  RequirementIDs : list string
}.
End CreateEvidenceRequest.

Module UpdateEvidenceRequest.
Record t : Type := mk {
  Title : string;
  Description : string;
  RequirementIDs : list string
}.
End UpdateEvidenceRequest.

Module CreateRequirementRequest.
Record t : Type := mk { TemplateID : string; Notes : string }.
End CreateRequirementRequest.

Module UpdateRequirementRequest.
Record t : Type := mk {
  Notes : string;
  NextDueDate : option string;
  Status : RequirementStatus
}.
End UpdateRequirementRequest.

Module UpdateOrganizationRequest.
Record t : Type := mk {
  Name : string;
  Industry : string;
  EmployeeCount : string;
  RegulatoryFramework : string;
  Website : string;
  Address : string;
  Phone : string
}.
End UpdateOrganizationRequest.

Module UpdateProfileRequest.
Record t : Type := mk { FullName : string }.
End UpdateProfileRequest.

Module InviteUserRequest.
Record t : Type := mk { Email : string; Role : UserRole; Message : string }.
End InviteUserRequest.

Module UpdateUserRoleRequest.
Record t : Type := mk { Role : UserRole }.
End UpdateUserRoleRequest.

Module GenerateReportRequest.
Record t : Type := mk {
  Type_ : string;
  RequirementIDs : list string;
  Title : string;
  Description : string
}.
End GenerateReportRequest.

(** ** Request bodies and responses of the remaining handlers *)

Module RegisterRequest.
Record t : Type := mk {
  Email : string;
  FullName : string;
  OrganizationName : string;
  Password : string;
  Industry : string;
  EmployeeCount : string;
  RegulatoryFramework : string
}.
End RegisterRequest.

Module PasswordResetRequest.
Record t : Type := mk { Email : string }.
End PasswordResetRequest.

Module CreateSubscriptionRequest.
Record t : Type := mk { Tier : SubscriptionTier; PaymentMethodID : string }.
End CreateSubscriptionRequest.

Module UpdateSubscriptionRequest.
Record t : Type := mk { Tier : SubscriptionTier }.
End UpdateSubscriptionRequest.

Module CancelSubscriptionRequest.
Record t : Type := mk { ConfirmOrganizationName : string }.
End CancelSubscriptionRequest.

Module ConnectGoogleRequest.
Record t : Type := mk { AuthorizationCode : string }.
End ConnectGoogleRequest.

Module DashboardMetrics.
Record t : Type := mk {
  TotalRequirements : Z;
  CompliantRequirements : Z;
  AtRiskRequirements : Z;
  NonCompliantRequirements : Z;
  TotalEvidence : Z;
  UpcomingDeadlines : list Requirement.t
}.
End DashboardMetrics.

(** What the remaining handlers write: a value of [JSON], or one of the
    values only they produce.  [payloadNone] is a response without a body
    and [payloadCSV] the attachment of the audit log export, as its file
    name and its rows. *)
Inductive Payload : Type :=
  | payloadJSON (j : JSON)
  | payloadRegistered (message userID organizationID : string)
  | payloadSubscription (s : Subscription.t)
  | payloadUsers (l : list User.t)
  | payloadTemplates (l : list RequirementTemplate.t)
  | payloadAuditLogs (l : list AuditLog.t)
  | payloadDashboard (m : DashboardMetrics.t)
  | payloadEmptyList
  | payloadFields (fields : list (string * string))
  | payloadReceived (received : bool)
  | payloadCSV (fileName : string) (rows : list (list string))
  | payloadNone.

Record Reply : Type := mkReply {
  ReplyStatus : Z;
  ReplyBody : Payload
}.

Definition replyJSON (status : Z) (data : Payload) : M Reply :=
  ret (mkReply status data).

Definition replyError (status : Z) (message : string) : M Reply :=
  replyJSON status (payloadJSON (jsonError message)).

(** A handler of the first group as a handler of the server. *)
Definition reply (m : M Response) : M Reply :=
  p <- m ;; ret (mkReply (StatusCode p) (payloadJSON (Body p))).

(** What the server reads of an incoming request before authentication. *)
Record HTTPRequest : Type := mkHTTPRequest {
  Authorization : string;
  Params : string -> string;
  QueryString : string -> string;
  Remote : string;
  Agent : string
}.

(** The request as a handler sees it, with the claims in its context. *)
Definition withClaims (claims : option UserClaims.t) (h : HTTPRequest) : Request :=
  mkRequest claims (Params h) (QueryString h) (Remote h) (Agent h).

(** A verified ID token: its subject and the claims the middleware reads. *)
Module Token.
Record t : Type := mk {
  UID : string;
  email : option string;
  email_verified : option bool;
  organizationId : option string;
  role : option string
}.
End Token.

(** [strings.Split(s, " ")] *)
Fixpoint splitSpace (s : string) : list string :=
  match s with
  | EmptyString => [EmptyString]
  | String c s' =>
      if Ascii.eqb c (Ascii.ascii_of_nat 32) then EmptyString :: splitSpace s'
      else match splitSpace s' with
           | [] => [String c EmptyString]
           | p :: ps => String c p :: ps
           end
  end.

Section handlers.

(** External collaborators of the server: the bucket of its
    configuration, the URL signer of the blob store
    ([storage.SignedURL] with bucket, object path, method, expiry and
    content type), the RFC 3339 parser of package [time], and the
    deletion of an account at the identity provider. *)
Variable StorageBucket : string.
Variable SignedURL : string -> string -> string -> time.Time -> string -> result string.
Variable ParseRFC3339 : string -> option time.Time.
Variable authDeleteUser : string -> error.

(** ** evidence_handlers.go *)

Definition allowedTypes (fileType : string) : bool :=
  String.eqb fileType "application/pdf"
  || String.eqb fileType "application/msword"
  || String.eqb fileType "application/vnd.openxmlformats-officedocument.wordprocessingml.document"
  || String.eqb fileType "application/vnd.ms-excel"
  || String.eqb fileType "application/vnd.openxmlformats-officedocument.spreadsheetml.sheet"
  || String.eqb fileType "image/png"
  || String.eqb fileType "image/jpeg".

Definition handleGenerateUploadURL (r : Request)
    (body : option UploadURLRequest.t) : M Response :=
  match Claims r with
  | None => respondError http.StatusUnauthorized "authentication required"
  | Some claims =>
  match body with
  | None => respondError http.StatusBadRequest "invalid request body"
  | Some req =>
  if 25 * 1024 * 1024 <? UploadURLRequest.FileSize req
  then respondError http.StatusBadRequest "file size exceeds maximum of 25MB"
  else if negb (allowedTypes (UploadURLRequest.FileType req))
  then respondError http.StatusBadRequest "unsupported file type"
  else
    evidenceID <- uuid_New ;;
    let filePath :=
      UserClaims.OrganizationID claims +:+ "/evidence/" +:+ evidenceID
        +:+ "-" +:+ UploadURLRequest.FileName req in
    now <- time_Now ;;
    let expiresAt := now + 15 * time.Minute in
    match SignedURL StorageBucket filePath "PUT" expiresAt
            (UploadURLRequest.FileType req) with
    | Err _ => respondError http.StatusInternalServerError "failed to generate upload URL"
    | Ok url =>
        let evidence :=
          Evidence.mk evidenceID (UserClaims.OrganizationID claims) EmptyString EmptyString EmptyString
            0 filePath (UploadURLRequest.FileName req)
            (UploadURLRequest.FileSize req) (UploadURLRequest.FileType req)
            EmptyString ∅ [] (UserClaims.UID claims) 0 0 "uploading" in
        p <- CreateEvidence evidence ;; let '(_, err) := p in
        match err with
        | Some _ => respondError http.StatusInternalServerError "failed to create evidence"
        | None => respondJSON http.StatusOK (jsonUploadURL url evidenceID expiresAt)
        end
    end
  end end.

Definition handleCreateEvidence (r : Request)
    (body : option CreateEvidenceRequest.t) : M Response :=
  match Claims r with
  | None => respondError http.StatusUnauthorized "authentication required"
  | Some claims =>
  match body with
  | None => respondError http.StatusBadRequest "invalid request body"
  | Some req =>
  (* Parse evidence date *)
  match ParseRFC3339 (CreateEvidenceRequest.EvidenceDate req) with
  | None => respondError http.StatusBadRequest "invalid evidence date format"
  | Some evidenceDate =>
  (* Get existing evidence record *)
  got <- GetEvidence (UserClaims.OrganizationID claims)
                     (CreateEvidenceRequest.EvidenceID req) ;;
  match got with
  | Err _ => respondError http.StatusNotFound "evidence not found"
  | Ok evidence =>
      (* Update evidence record *)
      let evidence := Evidence.set_Title (CreateEvidenceRequest.Title req) evidence in
      let evidence := Evidence.set_Description (CreateEvidenceRequest.Description req) evidence in
      let evidence := Evidence.set_EvidenceDate evidenceDate evidence in
      let evidence := Evidence.set_RequirementIDs (CreateEvidenceRequest.RequirementIDs req) evidence in
      let evidence := Evidence.set_Source SourceManualUpload evidence in
      let evidence := Evidence.set_Status "active" evidence in
      p <- UpdateEvidence evidence ;; let '(evidence, err) := p in
      match err with
      | Some _ => respondError http.StatusInternalServerError "failed to complete evidence upload"
      | None =>
          (* Create audit log *)
          _ <- CreateAuditLog
                 (newAuditLog r claims (UserClaims.OrganizationID claims)
                    ActionEvidenceCreated "evidence" (Evidence.ID evidence)
                    ("Uploaded evidence: " +:+ Evidence.Title evidence) [] []) ;;
          respondJSON http.StatusCreated (jsonEvidence evidence)
      end
  end end end end.

Definition handleListEvidence (r : Request) : M Response :=
  match Claims r with
  | None => respondError http.StatusUnauthorized "authentication required"
  | Some claims =>
      let filters :=
        if negb (String.eqb (Query r "source") EmptyString)
        then [("source", Query r "source")] else [] in
      got <- ListEvidence (UserClaims.OrganizationID claims) filters ;;
      match got with
      | Err _ => respondError http.StatusInternalServerError "failed to get evidence"
      | Ok evidence => respondJSON http.StatusOK (jsonEvidenceList evidence)
      end
  end.

Definition handleGetEvidence (r : Request) : M Response :=
  match Claims r with
  | None => respondError http.StatusUnauthorized "authentication required"
  | Some claims =>
      let evidenceID := URLParam r "evidenceID" in
      got <- GetEvidence (UserClaims.OrganizationID claims) evidenceID ;;
      match got with
      | Err _ => respondError http.StatusNotFound "evidence not found"
      | Ok evidence =>
          (* Create audit log for viewing evidence *)
          _ <- CreateAuditLog
                 (newAuditLog r claims (UserClaims.OrganizationID claims)
                    ActionEvidenceViewed "evidence" (Evidence.ID evidence)
                    ("Viewed evidence: " +:+ Evidence.Title evidence) [] []) ;;
          respondJSON http.StatusOK (jsonEvidence evidence)
      end
  end.

Definition handleUpdateEvidence (r : Request)
    (body : option UpdateEvidenceRequest.t) : M Response :=
  match Claims r with
  | None => respondError http.StatusUnauthorized "authentication required"
  | Some claims =>
  let evidenceID := URLParam r "evidenceID" in
  match body with
  | None => respondError http.StatusBadRequest "invalid request body"
  | Some req =>
  got <- GetEvidence (UserClaims.OrganizationID claims) evidenceID ;;
  match got with
  | Err _ => respondError http.StatusNotFound "evidence not found"
  | Ok evidence =>
      (* Update fields *)
      let oldRequirements := Evidence.RequirementIDs evidence in
      let evidence := Evidence.set_Title (UpdateEvidenceRequest.Title req) evidence in
      let evidence := Evidence.set_Description (UpdateEvidenceRequest.Description req) evidence in
      let evidence := Evidence.set_RequirementIDs (UpdateEvidenceRequest.RequirementIDs req) evidence in
      p <- UpdateEvidence evidence ;; let '(evidence, err) := p in
      match err with
      | Some _ => respondError http.StatusInternalServerError "failed to update evidence"
      | None =>
          (* Create audit log *)
          _ <- CreateAuditLog
                 (newAuditLog r claims (UserClaims.OrganizationID claims)
                    ActionEvidenceUpdated "evidence" (Evidence.ID evidence)
                    ("Updated evidence: " +:+ Evidence.Title evidence)
                    [("requirement_ids",
                      (oldRequirements, UpdateEvidenceRequest.RequirementIDs req))]
                    []) ;;
          respondJSON http.StatusOK (jsonEvidence evidence)
      end
  end end end.

Definition handleDeleteEvidence (r : Request) : M Response :=
  match Claims r with
  | None => respondError http.StatusUnauthorized "authentication required"
  | Some claims =>
      let evidenceID := URLParam r "evidenceID" in
      got <- GetEvidence (UserClaims.OrganizationID claims) evidenceID ;;
      match got with
      | Err _ => respondError http.StatusNotFound "evidence not found"
      | Ok evidence =>
          (* Soft delete *)
          err <- DeleteEvidence (UserClaims.OrganizationID claims) evidenceID ;;
          match err with
          | Some _ => respondError http.StatusInternalServerError "failed to delete evidence"
          | None =>
              (* Create audit log *)
              _ <- CreateAuditLog
                     (newAuditLog r claims (UserClaims.OrganizationID claims)
                        ActionEvidenceDeleted "evidence" (Evidence.ID evidence)
                        ("Deleted evidence: " +:+ Evidence.Title evidence) []
                        [("requirement_ids", Evidence.RequirementIDs evidence)]) ;;
              respondJSON http.StatusOK (jsonMessage "evidence deleted successfully")
          end
      end
  end.

Definition handleGenerateDownloadURL (r : Request) : M Response :=
  match Claims r with
  | None => respondError http.StatusUnauthorized "authentication required"
  | Some claims =>
      let evidenceID := URLParam r "evidenceID" in
      got <- GetEvidence (UserClaims.OrganizationID claims) evidenceID ;;
      match got with
      | Err _ => respondError http.StatusNotFound "evidence not found"
      | Ok evidence =>
          now <- time_Now ;;
          let expiresAt := now + 1 * time.Hour in
          match SignedURL StorageBucket (Evidence.FileURL evidence) "GET" expiresAt EmptyString with
          | Err _ => respondError http.StatusInternalServerError "failed to generate download URL"
          | Ok url =>
              (* Create audit log for downloading evidence *)
              _ <- CreateAuditLog
                     (newAuditLog r claims (UserClaims.OrganizationID claims)
                        ActionEvidenceDownloaded "evidence" (Evidence.ID evidence)
                        ("Downloaded evidence: " +:+ Evidence.Title evidence) [] []) ;;
              respondJSON http.StatusOK (jsonDownloadURL url expiresAt)
          end
      end
  end.

(** ** requirement_handlers.go *)

(** [r.CalculateStatus()] inside a request: the clock is read only on
    the path that compares the due date. *)
Definition CalculateStatus (r : Requirement.t) : M RequirementStatus :=
  if Requirement.EvidenceCount r =? 0 then ret StatusNotStarted
  else
    match Requirement.NextDueDate r with
    | None => ret (Requirement.CalculateStatus r 0)
    | Some _ => now <- time_Now ;; ret (Requirement.CalculateStatus r now)
    end.

Fixpoint calculateAll (l : list Requirement.t) : M (list Requirement.t) :=
  match l with
  | [] => ret []
  | req :: l' =>
      st <- CalculateStatus req ;;
      rest <- calculateAll l' ;;
      ret (Requirement.set_Status st req :: rest)
  end.

Definition handleCreateRequirement (r : Request)
    (body : option CreateRequirementRequest.t) : M Response :=
  match Claims r with
  | None => respondError http.StatusUnauthorized "authentication required"
  | Some claims =>
  match body with
  | None => respondError http.StatusBadRequest "invalid request body"
  | Some req =>
  (* Get the template *)
  got <- GetRequirementTemplate (CreateRequirementRequest.TemplateID req) ;;
  match got with
  | Err _ => respondError http.StatusNotFound "requirement template not found"
  | Ok template =>
      (* Create requirement from template *)
      let requirement :=
        Requirement.mk EmptyString (UserClaims.OrganizationID claims)
          (RequirementTemplate.ID template) (RequirementTemplate.Title template)
          (RequirementTemplate.Description template)
          (RequirementTemplate.Category template)
          (RequirementTemplate.Authority template)
          (RequirementTemplate.EvidenceTypes template)
          (RequirementTemplate.Frequency template) EmptyString None None 0
          (CreateRequirementRequest.Notes req) 0 (UserClaims.UID claims) 0 EmptyString
          false in
      p <- CreateRequirement requirement ;; let '(requirement, err) := p in
      match err with
      | Some _ => respondError http.StatusInternalServerError "failed to activate requirement"
      | None =>
          (* Create audit log *)
          _ <- CreateAuditLog
                 (newAuditLog r claims (UserClaims.OrganizationID claims)
                    ActionRequirementActivated "requirement"
                    (Requirement.ID requirement)
                    ("Activated requirement: " +:+ Requirement.Title requirement)
                    [] []) ;;
          respondJSON http.StatusCreated (jsonRequirement requirement)
      end
  end end end.

Definition handleListRequirements (r : Request) : M Response :=
  match Claims r with
  | None => respondError http.StatusUnauthorized "authentication required"
  | Some claims =>
      got <- ListRequirements (UserClaims.OrganizationID claims) ;;
      match got with
      | Err _ => respondError http.StatusInternalServerError "failed to get requirements"
      | Ok requirements =>
          (* Update status for each requirement *)
          requirements <- calculateAll requirements ;;
          respondJSON http.StatusOK (jsonRequirementList requirements)
      end
  end.

Definition handleGetRequirement (r : Request) : M Response :=
  match Claims r with
  | None => respondError http.StatusUnauthorized "authentication required"
  | Some claims =>
      let requirementID := URLParam r "requirementID" in
      got <- GetRequirement (UserClaims.OrganizationID claims) requirementID ;;
      match got with
      | Err _ => respondError http.StatusNotFound "requirement not found"
      | Ok requirement =>
          (* Update status *)
          st <- CalculateStatus requirement ;;
          respondJSON http.StatusOK
            (jsonRequirement (Requirement.set_Status st requirement))
      end
  end.

(** The request type declares [notes], [next_due_date] and [status];
    the handler reads [Notes] only. *)
Definition handleUpdateRequirement (r : Request)
    (body : option UpdateRequirementRequest.t) : M Response :=
  match Claims r with
  | None => respondError http.StatusUnauthorized "authentication required"
  | Some claims =>
  let requirementID := URLParam r "requirementID" in
  match body with
  | None => respondError http.StatusBadRequest "invalid request body"
  | Some req =>
  got <- GetRequirement (UserClaims.OrganizationID claims) requirementID ;;
  match got with
  | Err _ => respondError http.StatusNotFound "requirement not found"
  | Ok requirement =>
      (* Update fields *)
      let requirement := Requirement.set_Notes (UpdateRequirementRequest.Notes req) requirement in
      let requirement := Requirement.set_UpdatedBy (UserClaims.UID claims) requirement in
      p <- UpdateRequirement requirement ;; let '(requirement, err) := p in
      match err with
      | Some _ => respondError http.StatusInternalServerError "failed to update requirement"
      | None =>
          (* Create audit log *)
          _ <- CreateAuditLog
                 (newAuditLog r claims (UserClaims.OrganizationID claims)
                    ActionRequirementUpdated "requirement"
                    (Requirement.ID requirement)
                    ("Updated requirement: " +:+ Requirement.Title requirement)
                    [] []) ;;
          respondJSON http.StatusOK (jsonRequirement requirement)
      end
  end end end.

Definition handleDeactivateRequirement (r : Request) : M Response :=
  match Claims r with
  | None => respondError http.StatusUnauthorized "authentication required"
  | Some claims =>
      let requirementID := URLParam r "requirementID" in
      got <- GetRequirement (UserClaims.OrganizationID claims) requirementID ;;
      match got with
      | Err _ => respondError http.StatusNotFound "requirement not found"
      | Ok requirement =>
          let requirement := Requirement.set_IsActive false requirement in
          let requirement := Requirement.set_UpdatedBy (UserClaims.UID claims) requirement in
          p <- UpdateRequirement requirement ;; let '(requirement, err) := p in
          match err with
          | Some _ => respondError http.StatusInternalServerError "failed to deactivate requirement"
          | None =>
              (* Create audit log *)
              _ <- CreateAuditLog
                     (newAuditLog r claims (UserClaims.OrganizationID claims)
                        ActionRequirementDeactivated "requirement"
                        (Requirement.ID requirement)
                        ("Deactivated requirement: " +:+ Requirement.Title requirement)
                        [] []) ;;
              respondJSON http.StatusOK (jsonMessage "requirement deactivated successfully")
          end
      end
  end.

(** ** handlers.go: profile, organization and user management *)

Definition handleUpdateProfile (r : Request)
    (body : option UpdateProfileRequest.t) : M Response :=
  match Claims r with
  | None => respondError http.StatusUnauthorized "authentication required"
  | Some claims =>
  match body with
  | None => respondError http.StatusBadRequest "invalid request body"
  | Some req =>
  got <- GetUser (UserClaims.UID claims) ;;
  match got with
  | Err _ => respondError http.StatusNotFound "user not found"
  | Ok user =>
      let user := User.set_FullName (UpdateProfileRequest.FullName req) user in
      p <- UpdateUser user ;; let '(user, err) := p in
      match err with
      | Some _ => respondError http.StatusInternalServerError "failed to update profile"
      | None => respondJSON http.StatusOK (jsonUser user)
      end
  end end end.

Definition handleUpdateOrganization (r : Request)
    (body : option UpdateOrganizationRequest.t) : M Response :=
  match Claims r with
  | None => respondError http.StatusUnauthorized "authentication required"
  | Some claims =>
  match body with
  | None => respondError http.StatusBadRequest "invalid request body"
  | Some req =>
  got <- GetOrganization (UserClaims.OrganizationID claims) ;;
  match got with
  | Err _ => respondError http.StatusNotFound "organization not found"
  | Ok org =>
      (* Update fields *)
      let org :=
        Organization.mk (Organization.ID org)
          (UpdateOrganizationRequest.Name req)
          (UpdateOrganizationRequest.Industry req)
          (UpdateOrganizationRequest.EmployeeCount req)
          (UpdateOrganizationRequest.RegulatoryFramework req)
          (UpdateOrganizationRequest.Website req)
          (UpdateOrganizationRequest.Address req)
          (UpdateOrganizationRequest.Phone req)
          (Organization.Subscription org) (Organization.CreatedAt org)
          (Organization.UpdatedAt org) (UserClaims.UID claims)
          (Organization.ActiveUserCount org) in
      p <- UpdateOrganization org ;; let '(org, err) := p in
      match err with
      | Some _ => respondError http.StatusInternalServerError "failed to update organization"
      | None =>
          (* Create audit log *)
          _ <- CreateAuditLog
                 (newAuditLog r claims (Organization.ID org)
                    ActionOrgUpdated "organization" (Organization.ID org)
                    "Organization profile updated" [] []) ;;
          respondJSON http.StatusOK (jsonOrganization org)
      end
  end end end.

Definition handleInviteUser (r : Request)
    (body : option InviteUserRequest.t) : M Response :=
  match Claims r with
  | None => respondError http.StatusUnauthorized "authentication required"
  | Some claims =>
  match body with
  | None => respondError http.StatusBadRequest "invalid request body"
  | Some req =>
  (* Get organization to check user limits *)
  got <- GetOrganization (UserClaims.OrganizationID claims) ;;
  match got with
  | Err _ => respondError http.StatusInternalServerError "failed to get organization"
  | Ok org =>
  (* Check user limit *)
  got <- ListUsersByOrganization (UserClaims.OrganizationID claims) ;;
  match got with
  | Err _ => respondError http.StatusInternalServerError "failed to check user limit"
  | Ok users =>
      let MaxUsers := Subscription.MaxUsers (Organization.Subscription org) in
      if MaxUsers <=? Z.of_nat (length users)
      then respondError http.StatusForbidden
             ("user limit reached. Please upgrade to add more users (current limit: "
                +:+ pretty MaxUsers +:+ ")")
      else
        (* In production, would create invitation and send email *)
        respondJSON http.StatusOK
          (jsonMessage ("Invitation sent to " +:+ InviteUserRequest.Email req))
  end end end end.

(** The call to [SetCustomClaims] after the update writes to the
    identity provider only and its error is dropped. *)
Definition handleUpdateUserRole (r : Request)
    (body : option UpdateUserRoleRequest.t) : M Response :=
  match Claims r with
  | None => respondError http.StatusUnauthorized "authentication required"
  | Some claims =>
  let userID := URLParam r "userID" in
  match body with
  | None => respondError http.StatusBadRequest "invalid request body"
  | Some req =>
  got <- GetUser userID ;;
  match got with
  | Err _ => respondError http.StatusNotFound "user not found"
  | Ok user =>
      (* Verify user belongs to same organization *)
      if negb (String.eqb (User.OrganizationID user) (UserClaims.OrganizationID claims))
      then respondError http.StatusForbidden "user not in your organization"
      else
        let user := User.set_Role (UpdateUserRoleRequest.Role req) user in
        p <- UpdateUser user ;; let '(user, err) := p in
        match err with
        | Some _ => respondError http.StatusInternalServerError "failed to update user role"
        | None => respondJSON http.StatusOK (jsonUser user)
        end
  end end end.

Definition handleDeleteUser (r : Request) : M Response :=
  match Claims r with
  | None => respondError http.StatusUnauthorized "authentication required"
  | Some claims =>
      let userID := URLParam r "userID" in
      (* Prevent self-deletion *)
      if String.eqb userID (UserClaims.UID claims)
      then respondError http.StatusBadRequest "cannot delete your own account"
      else
        got <- GetUser userID ;;
        match got with
        | Err _ => respondError http.StatusNotFound "user not found"
        | Ok user =>
            (* Verify user belongs to same organization *)
            if negb (String.eqb (User.OrganizationID user) (UserClaims.OrganizationID claims))
            then respondError http.StatusForbidden "user not in your organization"
            else
              (* Delete from Firebase Auth *)
              match authDeleteUser userID with
              | Some _ => respondError http.StatusInternalServerError "failed to delete user"
              | None =>
                  (* Update user status in Firestore (soft delete) *)
                  let user := User.set_Status "inactive" user in
                  _ <- UpdateUser user ;;
                  respondJSON http.StatusOK (jsonMessage "user deleted successfully")
              end
        end
  end.

(** ** report_handlers.go *)

Definition handleGenerateReport (r : Request)
    (body : option GenerateReportRequest.t) : M Response :=
  match Claims r with
  | None => respondError http.StatusUnauthorized "authentication required"
  | Some claims =>
  match body with
  | None => respondError http.StatusBadRequest "invalid request body"
  | Some req =>
  (* Validate report type *)
  if negb (String.eqb (GenerateReportRequest.Type_ req) "requirement_detail")
     && negb (String.eqb (GenerateReportRequest.Type_ req) "comprehensive")
  then respondError http.StatusBadRequest "invalid report type"
  else
    (* Create report record *)
    let report :=
      Report.mk EmptyString (UserClaims.OrganizationID claims)
        (GenerateReportRequest.Title req) (GenerateReportRequest.Description req)
        (GenerateReportRequest.Type_ req) (GenerateReportRequest.RequirementIDs req)
        "pending" EmptyString (UserClaims.UID claims) 0 None EmptyString in
    p <- CreateReport report ;; let '(report, err) := p in
    match err with
    | Some _ => respondError http.StatusInternalServerError "failed to create report"
    | None =>
        (* Create audit log *)
        _ <- CreateAuditLog
               (newAuditLog r claims (UserClaims.OrganizationID claims)
                  ActionReportGenerated "report" (Report.ID report)
                  ("Generated " +:+ GenerateReportRequest.Type_ req +:+ " report: "
                     +:+ GenerateReportRequest.Title req) [] []) ;;
        respondJSON http.StatusAccepted (jsonReport report)
    end
  end end.

Definition handleGetReport (r : Request) : M Response :=
  match Claims r with
  | None => respondError http.StatusUnauthorized "authentication required"
  | Some claims =>
      let reportID := URLParam r "reportID" in
      got <- GetReport (UserClaims.OrganizationID claims) reportID ;;
      match got with
      | Err _ => respondError http.StatusNotFound "report not found"
      | Ok report => respondJSON http.StatusOK (jsonReport report)
      end
  end.

Definition handleGetReportDownloadURL (r : Request) : M Response :=
  match Claims r with
  | None => respondError http.StatusUnauthorized "authentication required"
  | Some claims =>
      let reportID := URLParam r "reportID" in
      got <- GetReport (UserClaims.OrganizationID claims) reportID ;;
      match got with
      | Err _ => respondError http.StatusNotFound "report not found"
      | Ok report =>
          if negb (String.eqb (Report.Status report) "completed")
          then respondError http.StatusBadRequest "report is not ready for download"
          else
            now <- time_Now ;;
            let expiresAt := now + 1 * time.Hour in
            match SignedURL StorageBucket (Report.FileURL report) "GET" expiresAt EmptyString with
            | Err _ => respondError http.StatusInternalServerError "failed to generate download URL"
            | Ok url => respondJSON http.StatusOK (jsonDownloadURL url expiresAt)
            end
      end
  end.

(** ** The remaining handlers *)

(** Further collaborators: the token verifier and the account creation of
    the identity provider, [Time.AddDate], [strconv.Atoi], and
    [Time.Format] with the RFC 3339 layout and with the layout
    [2006-01-02]. *)
Variable VerifyIDToken : string -> result Token.t.
Variable authCreateUser : string -> string -> string -> result string.
Variable AddDate : time.Time -> Z -> Z -> Z -> time.Time.
Variable Atoi : string -> option Z.
Variable FormatRFC3339 : time.Time -> string.
Variable FormatDate : time.Time -> string.

(** *** handlers.go: helper functions *)

(** The code point of a byte.  [isValidPassword] ranges over the runes of
    the password; a byte of a multi-byte or invalid sequence and the rune
    it belongs to both fall in no ASCII class, so ranging over the bytes
    sets the same three flags. *)
Definition rune (c : Ascii.ascii) : Z := Z.of_N (Ascii.N_of_ascii c).

Definition isUpper (n : Z) : bool := (65 <=? n) && (n <=? 90).
Definition isLower (n : Z) : bool := (97 <=? n) && (n <=? 122).
Definition isDigit (n : Z) : bool := (48 <=? n) && (n <=? 57).

Fixpoint scanPassword (s : string) (hasUpper hasNumber hasSpecial : bool)
    : bool * bool * bool :=
  match s with
  | EmptyString => (hasUpper, hasNumber, hasSpecial)
  | String c s' =>
      let char := rune c in
      if isUpper char then scanPassword s' true hasNumber hasSpecial
      else if isDigit char then scanPassword s' hasUpper true hasSpecial
      else if negb (isLower char) && negb (isUpper char) && negb (isDigit char)
      then scanPassword s' hasUpper hasNumber true
      else scanPassword s' hasUpper hasNumber hasSpecial
  end.

(** [func isValidPassword(password string) bool] *)
Definition isValidPassword (password : string) : bool :=
  if Z.of_nat (String.length password) <? 8 then false
  else
    let '(hasUpper, hasNumber, hasSpecial) :=
      scanPassword password false false false in
    hasUpper && hasNumber && hasSpecial.

(** *** handlers.go: authentication handlers *)

(** The calls to [SetCustomClaims] and [SendEmailVerification] reach the
    identity provider only; their errors are logged and dropped. *)
Definition handleRegister (r : Request) (body : option RegisterRequest.t) : M Reply :=
  match body with
  | None => replyError http.StatusBadRequest "invalid request body"
  | Some req =>
  (* Validate password requirements (8+ chars, 1 uppercase, 1 number, 1 special) *)
  if negb (isValidPassword (RegisterRequest.Password req))
  then replyError http.StatusBadRequest
         "password must be at least 8 characters with 1 uppercase, 1 number, and 1 special character"
  else
  (* Check if email already exists *)
  existingUser <- GetUserByEmail (RegisterRequest.Email req) ;;
  match existingUser with
  | Ok _ => replyError 409 "email already registered"
  | Err _ =>
  (* Create user in Firebase Auth *)
  match authCreateUser (RegisterRequest.Email req) (RegisterRequest.Password req)
          (RegisterRequest.FullName req) with
  | Err _ => replyError http.StatusInternalServerError "failed to create user account"
  | Ok uid =>
  (* Create organization *)
  let org :=
    Organization.mk EmptyString (RegisterRequest.OrganizationName req)
      (RegisterRequest.Industry req) (RegisterRequest.EmployeeCount req)
      (RegisterRequest.RegulatoryFramework req) EmptyString EmptyString EmptyString
      (Subscription.mk TierStarter "trial" EmptyString EmptyString 0 0 false
         (GetMaxUsers TierStarter) (GetMonthlyPrice TierStarter))
      0 0 EmptyString 0 in
  p <- CreateOrganization org ;; let '(org, err) := p in
  match err with
  | Some _ => replyError http.StatusInternalServerError "failed to create organization"
  | None =>
  (* Create user in Firestore *)
  let user :=
    User.mk uid (RegisterRequest.Email req) (RegisterRequest.FullName req)
      (Organization.ID org) RoleAdmin (* First user is admin *) EmptyString
      false 0 0 None in
  p <- CreateUser user ;; let '(_, err) := p in
  match err with
  | Some _ => replyError http.StatusInternalServerError "failed to create user"
  | None =>
      (* Create audit log *)
      _ <- CreateAuditLog
             (AuditLog.mk EmptyString (Organization.ID org) 0 uid
                (RegisterRequest.Email req) ActionOrgCreated "organization"
                (Organization.ID org)
                ("Organization '" +:+ Organization.Name org +:+ "' created by "
                   +:+ RegisterRequest.FullName req)
                [] (RemoteAddr r) (UserAgent r) []) ;;
      replyJSON http.StatusCreated
        (payloadRegistered
           "Registration successful. Please check your email to verify your account."
           uid (Organization.ID org))
  end end end end end.

(** The password reset email is sent by the identity provider; its error
    is logged and dropped. *)
Definition handlePasswordReset (r : Request) (body : option PasswordResetRequest.t)
    : M Reply :=
  match body with
  | None => replyError http.StatusBadRequest "invalid request body"
  | Some _ =>
      (* Always return success message for security (don't reveal if email exists) *)
      replyJSON http.StatusOK
        (payloadJSON
           (jsonMessage
              "If an account exists with this email, you will receive password reset instructions."))
  end.

(** *** handlers.go: profile and organization handlers *)

Definition handleGetProfile (r : Request) : M Reply :=
  match Claims r with
  | None => replyError http.StatusUnauthorized "authentication required"
  | Some claims =>
      got <- GetUser (UserClaims.UID claims) ;;
      match got with
      | Err _ => replyError http.StatusNotFound "user not found"
      | Ok user =>
          (* Update last login *)
          _ <- UpdateLastLogin (UserClaims.UID claims) ;;
          replyJSON http.StatusOK (payloadJSON (jsonUser user))
      end
  end.

Definition handleGetOrganization (r : Request) : M Reply :=
  match Claims r with
  | None => replyError http.StatusUnauthorized "authentication required"
  | Some claims =>
      got <- GetOrganization (UserClaims.OrganizationID claims) ;;
      match got with
      | Err _ => replyError http.StatusNotFound "organization not found"
      | Ok org => replyJSON http.StatusOK (payloadJSON (jsonOrganization org))
      end
  end.

(** The loop of [handleGetDashboard] over the requirements. *)
Fixpoint dashboardLoop (now thirtyDaysFromNow : time.Time)
    (requirements : list Requirement.t) (metrics : DashboardMetrics.t)
    : M DashboardMetrics.t :=
  match requirements with
  | [] => ret metrics
  | req :: rest =>
      (* Update status based on evidence and due dates *)
      st <- CalculateStatus req ;;
      let req := Requirement.set_Status st req in
      let bump (which : RequirementStatus) (n : Z) : Z :=
        if String.eqb st which then n + 1 else n in
      let upcoming :=
        match Requirement.NextDueDate req with
        | Some due =>
            if (now <? due) && (due <? thirtyDaysFromNow)
            then (DashboardMetrics.UpcomingDeadlines metrics ++ [req])%list
            else DashboardMetrics.UpcomingDeadlines metrics
        | None => DashboardMetrics.UpcomingDeadlines metrics
        end in
      dashboardLoop now thirtyDaysFromNow rest
        (DashboardMetrics.mk
           (DashboardMetrics.TotalRequirements metrics)
           (bump StatusCompliant (DashboardMetrics.CompliantRequirements metrics))
           (bump StatusAtRisk (DashboardMetrics.AtRiskRequirements metrics))
           (bump StatusNonCompliant (DashboardMetrics.NonCompliantRequirements metrics))
           (DashboardMetrics.TotalEvidence metrics)
           upcoming)
  end.

Definition handleGetDashboard (r : Request) : M Reply :=
  match Claims r with
  | None => replyError http.StatusUnauthorized "authentication required"
  | Some claims =>
      (* Get all requirements *)
      got <- ListRequirements (UserClaims.OrganizationID claims) ;;
      match got with
      | Err _ => replyError http.StatusInternalServerError "failed to get dashboard data"
      | Ok requirements =>
          (* Calculate metrics *)
          now <- time_Now ;;
          let thirtyDaysFromNow := AddDate now 0 0 30 in
          metrics <- dashboardLoop now thirtyDaysFromNow requirements
                       (DashboardMetrics.mk (Z.of_nat (length requirements)) 0 0 0 0 []) ;;
          (* Get total evidence count *)
          got <- ListEvidence (UserClaims.OrganizationID claims) [] ;;
          let metrics :=
            match got with
            | Ok evidence =>
                DashboardMetrics.mk
                  (DashboardMetrics.TotalRequirements metrics)
                  (DashboardMetrics.CompliantRequirements metrics)
                  (DashboardMetrics.AtRiskRequirements metrics)
                  (DashboardMetrics.NonCompliantRequirements metrics)
                  (Z.of_nat (length evidence))
                  (DashboardMetrics.UpcomingDeadlines metrics)
            | Err _ => metrics
            end in
          replyJSON http.StatusOK (payloadDashboard metrics)
      end
  end.

(** *** handlers.go: user management *)

Definition handleListUsers (r : Request) : M Reply :=
  match Claims r with
  | None => replyError http.StatusUnauthorized "authentication required"
  | Some claims =>
      got <- ListUsersByOrganization (UserClaims.OrganizationID claims) ;;
      match got with
      | Err _ => replyError http.StatusInternalServerError "failed to list users"
      | Ok users => replyJSON http.StatusOK (payloadUsers users)
      end
  end.

(** *** requirement_handlers.go *)

Definition handleListRequirementTemplates (r : Request) : M Reply :=
  match Claims r with
  | None => replyError http.StatusUnauthorized "authentication required"
  | Some claims =>
      (* Get organization to determine regulatory framework *)
      got <- GetOrganization (UserClaims.OrganizationID claims) ;;
      match got with
      | Err _ => replyError http.StatusInternalServerError "failed to get organization"
      | Ok org =>
          (* Get templates for the organization's regulatory framework *)
          got <- ListRequirementTemplates (Organization.RegulatoryFramework org) ;;
          match got with
          | Err _ => replyError http.StatusInternalServerError
                       "failed to get requirement templates"
          | Ok templates => replyJSON http.StatusOK (payloadTemplates templates)
          end
      end
  end.

(** *** report_handlers.go: audit logs and reports *)

(** The filter a query parameter adds when it is not empty. *)
Definition queryFilter (r : Request) (key : string) : list (string * string) :=
  if negb (String.eqb (Query r key) EmptyString) then [(key, Query r key)] else [].

Definition handleListAuditLogs (r : Request) : M Reply :=
  match Claims r with
  | None => replyError http.StatusUnauthorized "authentication required"
  | Some claims =>
      (* Parse query parameters for filtering *)
      let filters :=
        (queryFilter r "user_id" ++ queryFilter r "action"
           ++ queryFilter r "resource_type")%list in
      (* Parse limit *)
      let limit :=
        if negb (String.eqb (Query r "limit") EmptyString)
        then match Atoi (Query r "limit") with
             | Some parsedLimit => if 0 <? parsedLimit then parsedLimit else 100
             | None => 100
             end
        else 100 in
      got <- ListAuditLogs (UserClaims.OrganizationID claims) filters limit ;;
      match got with
      | Err _ => replyError http.StatusInternalServerError "failed to get audit logs"
      | Ok logs => replyJSON http.StatusOK (payloadAuditLogs logs)
      end
  end.

(** One row of the export. *)
Definition exportRow (log : AuditLog.t) : list string :=
  [FormatRFC3339 (AuditLog.Timestamp log); AuditLog.UserEmail log;
   AuditLog.UserID log; AuditLog.Action log;
   AuditLog.ResourceType log; AuditLog.ResourceID log;
   AuditLog.Description log; AuditLog.IPAddress log].

Definition exportHeader : list string :=
  ["Timestamp"; "User Email"; "User Name"; "Action"; "Resource Type";
   "Resource ID"; "Description"; "IP Address"].

Definition handleExportAuditLogs (r : Request) : M Reply :=
  match Claims r with
  | None => replyError http.StatusUnauthorized "authentication required"
  | Some claims =>
      (* Parse query parameters for filtering *)
      let filters := (queryFilter r "user_id" ++ queryFilter r "action")%list in
      (* Max 10,000 entries for export *)
      got <- ListAuditLogs (UserClaims.OrganizationID claims) filters 10000 ;;
      match got with
      | Err _ => replyError http.StatusInternalServerError "failed to export audit logs"
      | Ok logs =>
          if 10000 <=? Z.of_nat (length logs)
          then replyError http.StatusBadRequest
                 "too many results. Please narrow your date range (max 10,000 entries)"
          else
            (* Create CSV *)
            now <- time_Now ;;
            replyJSON http.StatusOK
              (payloadCSV ("audit_log_" +:+ FormatDate now +:+ ".csv")
                 (exportHeader :: map exportRow logs))
      end
  end.

Definition handleListReports (r : Request) : M Reply :=
  match Claims r with
  | None => replyError http.StatusUnauthorized "authentication required"
  | Some _ => replyJSON http.StatusOK payloadEmptyList
  end.

(** *** subscription_handlers.go *)

Definition handleGetSubscription (r : Request) : M Reply :=
  match Claims r with
  | None => replyError http.StatusUnauthorized "authentication required"
  | Some claims =>
      got <- GetOrganization (UserClaims.OrganizationID claims) ;;
      match got with
      | Err _ => replyError http.StatusNotFound "organization not found"
      | Ok org => replyJSON http.StatusOK (payloadSubscription (Organization.Subscription org))
      end
  end.

(** An organization with another subscription. *)
Definition withSubscription (sub : Subscription.t) (org : Organization.t)
    : Organization.t :=
  Organization.mk (Organization.ID org) (Organization.Name org)
    (Organization.Industry org) (Organization.EmployeeCount org)
    (Organization.RegulatoryFramework org) (Organization.Website org)
    (Organization.Address org) (Organization.Phone org) sub
    (Organization.CreatedAt org) (Organization.UpdatedAt org)
    (Organization.UpdatedBy org) (Organization.ActiveUserCount org).

Definition handleCreateSubscription (r : Request)
    (body : option CreateSubscriptionRequest.t) : M Reply :=
  match Claims r with
  | None => replyError http.StatusUnauthorized "authentication required"
  | Some claims =>
  match body with
  | None => replyError http.StatusBadRequest "invalid request body"
  | Some req =>
  got <- GetOrganization (UserClaims.OrganizationID claims) ;;
  match got with
  | Err _ => replyError http.StatusNotFound "organization not found"
  | Ok org =>
      let old := Organization.Subscription org in
      let tier := CreateSubscriptionRequest.Tier req in
      let org :=
        withSubscription
          (Subscription.mk tier "active" (Subscription.StripeCustomerID old)
             (Subscription.StripeSubscriptionID old)
             (Subscription.CurrentPeriodStart old) (Subscription.CurrentPeriodEnd old)
             (Subscription.CancelAtPeriodEnd old) (GetMaxUsers tier)
             (GetMonthlyPrice tier)) org in
      p <- UpdateOrganization org ;; let '(org, err) := p in
      match err with
      | Some _ => replyError http.StatusInternalServerError "failed to create subscription"
      | None =>
          (* Create audit log *)
          _ <- CreateAuditLog
                 (newAuditLog r claims (UserClaims.OrganizationID claims)
                    ActionSubscriptionUpdated "subscription" (Organization.ID org)
                    ("Subscription created: " +:+ tier +:+ " tier") [] []) ;;
          replyJSON http.StatusCreated
            (payloadSubscription (Organization.Subscription org))
      end
  end end end.

Definition handleUpdateSubscription (r : Request)
    (body : option UpdateSubscriptionRequest.t) : M Reply :=
  match Claims r with
  | None => replyError http.StatusUnauthorized "authentication required"
  | Some claims =>
  match body with
  | None => replyError http.StatusBadRequest "invalid request body"
  | Some req =>
  got <- GetOrganization (UserClaims.OrganizationID claims) ;;
  match got with
  | Err _ => replyError http.StatusNotFound "organization not found"
  | Ok org =>
      (* Update subscription tier *)
      let old := Organization.Subscription org in
      let oldTier := Subscription.Tier old in
      let tier := UpdateSubscriptionRequest.Tier req in
      let org :=
        withSubscription
          (Subscription.mk tier (Subscription.Status old)
             (Subscription.StripeCustomerID old)
             (Subscription.StripeSubscriptionID old)
             (Subscription.CurrentPeriodStart old) (Subscription.CurrentPeriodEnd old)
             (Subscription.CancelAtPeriodEnd old) (GetMaxUsers tier)
             (GetMonthlyPrice tier)) org in
      p <- UpdateOrganization org ;; let '(org, err) := p in
      match err with
      | Some _ => replyError http.StatusInternalServerError "failed to update subscription"
      | None =>
          (* Create audit log *)
          _ <- CreateAuditLog
                 (newAuditLog r claims (UserClaims.OrganizationID claims)
                    ActionSubscriptionUpdated "subscription" (Organization.ID org)
                    ("Subscription updated from " +:+ oldTier +:+ " to " +:+ tier)
                    [] []) ;;
          replyJSON http.StatusOK (payloadSubscription (Organization.Subscription org))
      end
  end end end.

Definition handleCancelSubscription (r : Request)
    (body : option CancelSubscriptionRequest.t) : M Reply :=
  match Claims r with
  | None => replyError http.StatusUnauthorized "authentication required"
  | Some claims =>
  match body with
  | None => replyError http.StatusBadRequest "invalid request body"
  | Some req =>
  got <- GetOrganization (UserClaims.OrganizationID claims) ;;
  match got with
  | Err _ => replyError http.StatusNotFound "organization not found"
  | Ok org =>
      (* Verify organization name confirmation *)
      if negb (String.eqb (CancelSubscriptionRequest.ConfirmOrganizationName req)
                 (Organization.Name org))
      then replyError http.StatusBadRequest
             "organization name confirmation does not match"
      else
        (* Mark subscription for cancellation at period end *)
        let old := Organization.Subscription org in
        let org :=
          withSubscription
            (Subscription.mk (Subscription.Tier old) (Subscription.Status old)
               (Subscription.StripeCustomerID old)
               (Subscription.StripeSubscriptionID old)
               (Subscription.CurrentPeriodStart old)
               (Subscription.CurrentPeriodEnd old) true
               (Subscription.MaxUsers old) (Subscription.MonthlyPrice old)) org in
        p <- UpdateOrganization org ;; let '(_, err) := p in
        match err with
        | Some _ => replyError http.StatusInternalServerError "failed to cancel subscription"
        | None =>
            replyJSON http.StatusOK
              (payloadJSON
                 (jsonMessage
                    "Subscription will be canceled at the end of the current billing period"))
        end
  end end end.

(** *** subscription_handlers.go: integrations, webhooks and workers *)

Definition handleListIntegrations (r : Request) : M Reply :=
  match Claims r with
  | None => replyError http.StatusUnauthorized "authentication required"
  | Some _ => replyJSON http.StatusOK payloadEmptyList
  end.

Definition handleConnectGoogle (r : Request) (body : option ConnectGoogleRequest.t)
    : M Reply :=
  match Claims r with
  | None => replyError http.StatusUnauthorized "authentication required"
  | Some claims =>
  match body with
  | None => replyError http.StatusBadRequest "invalid request body"
  | Some _ =>
      (* Create audit log *)
      _ <- CreateAuditLog
             (newAuditLog r claims (UserClaims.OrganizationID claims)
                ActionIntegrationConnected "integration" "google_workspace"
                "Connected Google Workspace integration" [] []) ;;
      replyJSON http.StatusOK
        (payloadFields [("message", "Google Workspace connected successfully");
                        ("status", "connected")])
  end end.

Definition handleDisconnectGoogle (r : Request) : M Reply :=
  match Claims r with
  | None => replyError http.StatusUnauthorized "authentication required"
  | Some claims =>
      (* Create audit log *)
      _ <- CreateAuditLog
             (newAuditLog r claims (UserClaims.OrganizationID claims)
                ActionIntegrationDisconnected "integration" "google_workspace"
                "Disconnected Google Workspace integration" [] []) ;;
      replyJSON http.StatusOK
        (payloadFields [("message", "Google Workspace disconnected successfully")])
  end.

Definition handleStripeWebhook (r : Request) : M Reply :=
  replyJSON http.StatusOK (payloadReceived true).

Definition handleGmailPoll (r : Request) : M Reply :=
  replyJSON http.StatusOK (payloadFields [("status", "processed")]).

Definition handlePDFGenerate (r : Request) : M Reply :=
  replyJSON http.StatusOK (payloadFields [("status", "processed")]).

(** *** server.go and middleware.go: the middleware and the routes *)

Definition handleHealth (r : Request) : M Reply :=
  replyJSON http.StatusOK
    (payloadFields [("status", "healthy"); ("service", "compliancesync-api")]).

(** [Authenticate] verifies the bearer token and puts the claims in the
    request context.  The type assertions on the [email] and
    [email_verified] claims panic when a claim is absent; chi's
    [Recoverer] turns the panic into a 500 without a body. *)
Definition Authenticate (h : HTTPRequest) (next : Request -> M Reply) : M Reply :=
  (* Extract token from Authorization header *)
  if String.eqb (Authorization h) EmptyString
  then replyError http.StatusUnauthorized "missing authorization header"
  else
    (* Check Bearer prefix *)
    match splitSpace (Authorization h) with
    | [bearer; token] =>
        if negb (String.eqb bearer "Bearer")
        then replyError http.StatusUnauthorized "invalid authorization header format"
        else
          (* Verify the token *)
          match VerifyIDToken token with
          | Err _ => replyError http.StatusUnauthorized "invalid or expired token"
          | Ok decodedToken =>
              (* Extract claims *)
              match Token.email decodedToken, Token.email_verified decodedToken with
              | Some email, Some verified =>
                  let claims :=
                    UserClaims.mk (Token.UID decodedToken) email verified
                      (default EmptyString (Token.organizationId decodedToken))
                      (default EmptyString (Token.role decodedToken)) in
                  next (withClaims (Some claims) h)
              | _, _ => replyJSON http.StatusInternalServerError payloadNone
              end
          end
    | _ => replyError http.StatusUnauthorized "invalid authorization header format"
    end.

(** [RequireOrganization] ensures the user belongs to an organization. *)
Definition RequireOrganization (r : Request) (next : M Reply) : M Reply :=
  match Claims r with
  | None => replyError http.StatusUnauthorized "authentication required"
  | Some claims =>
      if String.eqb (UserClaims.OrganizationID claims) EmptyString
      then replyError http.StatusForbidden "organization membership required"
      else next
  end.

(** [requireAdmin] and [requireWrite] around a handler of the second
    group. *)
Definition requireAdminReply (r : Request) (next : M Reply) : M Reply :=
  match Claims r with
  | None => replyError http.StatusUnauthorized "authentication required"
  | Some claims =>
      if negb (String.eqb (UserClaims.Role claims) "admin")
      then replyError http.StatusForbidden "admin role required"
      else next
  end.

Definition requireWriteReply (r : Request) (next : M Reply) : M Reply :=
  match Claims r with
  | None => replyError http.StatusUnauthorized "authentication required"
  | Some claims =>
      if negb (String.eqb (UserClaims.Role claims) "admin")
         && negb (String.eqb (UserClaims.Role claims) "compliance_officer")
      then replyError http.StatusForbidden "write permission required"
      else next
  end.

(** The routes of [setupRoutes], each with its decoded body where the
    handler reads one. *)
Inductive Route : Type :=
  | GET_health
  | POST_auth_register (body : option RegisterRequest.t)
  | POST_auth_password_reset (body : option PasswordResetRequest.t)
  | GET_profile
  | PUT_profile (body : option UpdateProfileRequest.t)
  | GET_organization
  | PUT_organization (body : option UpdateOrganizationRequest.t)
  | GET_organization_dashboard
  | GET_users
  | POST_users_invite (body : option InviteUserRequest.t)
  | PUT_users_role (body : option UpdateUserRoleRequest.t)
  | DELETE_users
  | GET_requirements
  | POST_requirements (body : option CreateRequirementRequest.t)
  | GET_requirements_templates
  | GET_requirement
  | PUT_requirement (body : option UpdateRequirementRequest.t)
  | DELETE_requirement
  | GET_evidence_list
  | POST_evidence_upload_url (body : option UploadURLRequest.t)
  | POST_evidence (body : option CreateEvidenceRequest.t)
  | GET_evidence
  | PUT_evidence (body : option UpdateEvidenceRequest.t)
  | DELETE_evidence
  | GET_evidence_download_url
  | GET_audit_logs
  | GET_audit_logs_export
  | GET_reports
  | POST_reports (body : option GenerateReportRequest.t)
  | GET_report
  | GET_report_download_url
  | GET_integrations
  | POST_integrations_google_connect (body : option ConnectGoogleRequest.t)
  | DELETE_integrations_google_disconnect
  | GET_subscription
  | POST_subscription (body : option CreateSubscriptionRequest.t)
  | PUT_subscription (body : option UpdateSubscriptionRequest.t)
  | POST_subscription_cancel (body : option CancelSubscriptionRequest.t)
  | POST_webhooks_stripe
  | POST_workers_gmail_poll
  | POST_workers_pdf_generate.

(** The handler of a route of the organization group, behind
    [Authenticate] and [RequireOrganization]. *)
Definition organizationRoute (route : Route) (r : Request) : M Reply :=
  match route with
  | GET_organization => handleGetOrganization r
  | PUT_organization body => reply (requireAdmin r (handleUpdateOrganization r body))
  | GET_organization_dashboard => handleGetDashboard r
  | GET_users => handleListUsers r
  | POST_users_invite body => reply (requireAdmin r (handleInviteUser r body))
  | PUT_users_role body => reply (requireAdmin r (handleUpdateUserRole r body))
  | DELETE_users => reply (requireAdmin r (handleDeleteUser r))
  | GET_requirements => reply (handleListRequirements r)
  | POST_requirements body => reply (requireWrite r (handleCreateRequirement r body))
  | GET_requirements_templates => handleListRequirementTemplates r
  | GET_requirement => reply (handleGetRequirement r)
  | PUT_requirement body => reply (requireWrite r (handleUpdateRequirement r body))
  | DELETE_requirement => reply (requireWrite r (handleDeactivateRequirement r))
  | GET_evidence_list => reply (handleListEvidence r)
  | POST_evidence_upload_url body => reply (requireWrite r (handleGenerateUploadURL r body))
  | POST_evidence body => reply (requireWrite r (handleCreateEvidence r body))
  | GET_evidence => reply (handleGetEvidence r)
  | PUT_evidence body => reply (requireWrite r (handleUpdateEvidence r body))
  | DELETE_evidence => reply (requireWrite r (handleDeleteEvidence r))
  | GET_evidence_download_url => reply (handleGenerateDownloadURL r)
  | GET_audit_logs => handleListAuditLogs r
  | GET_audit_logs_export => handleExportAuditLogs r
  | GET_reports => handleListReports r
  | POST_reports body => reply (handleGenerateReport r body)
  | GET_report => reply (handleGetReport r)
  | GET_report_download_url => reply (handleGetReportDownloadURL r)
  | GET_integrations => handleListIntegrations r
  | POST_integrations_google_connect body =>
      requireAdminReply r (handleConnectGoogle r body)
  | DELETE_integrations_google_disconnect =>
      requireAdminReply r (handleDisconnectGoogle r)
  | GET_subscription => handleGetSubscription r
  | POST_subscription body => requireAdminReply r (handleCreateSubscription r body)
  | PUT_subscription body => requireAdminReply r (handleUpdateSubscription r body)
  | POST_subscription_cancel body =>
      requireAdminReply r (handleCancelSubscription r body)
  | _ => replyJSON http.StatusNotFound payloadNone
  end.

(** [setupRoutes]: the handler the router runs for a route. *)
Definition serve (route : Route) (h : HTTPRequest) : M Reply :=
  match route with
  | GET_health => handleHealth (withClaims None h)
  | POST_auth_register body => handleRegister (withClaims None h) body
  | POST_auth_password_reset body => handlePasswordReset (withClaims None h) body
  | POST_webhooks_stripe => handleStripeWebhook (withClaims None h)
  | POST_workers_gmail_poll => handleGmailPoll (withClaims None h)
  | POST_workers_pdf_generate => handlePDFGenerate (withClaims None h)
  | GET_profile => Authenticate h (fun r => handleGetProfile r)
  | PUT_profile body => Authenticate h (fun r => reply (handleUpdateProfile r body))
  | _ =>
      Authenticate h (fun r => RequireOrganization r (organizationRoute route r))
  end.

End handlers.

End api.

(* ===================================================================== *)
(** * Auxiliary definitions of the statements                            *)
(* ===================================================================== *)

(** Twenty-four hours. *)
Definition day : time.Duration := 24 * time.Hour.

(** Sample data of the examples. *)
Module Sample.

(** A requirement of tenant [org-a] with the given counter and due date. *)
Definition requirement (id : string) (count : Z) (due : option time.Time)
    : Requirement.t :=
  Requirement.mk id "org-a" "sec-ria-001" "Code of Ethics" EmptyString "policy_management"
    "SEC Rule 204A-1" [] "annual" StatusNotStarted due None count EmptyString 0 "u-admin"
    0 EmptyString true.

(** An instant used as the present: 2024-01-01T00:00:00Z. *)
Definition t0 : time.Time := 1704067200 * time.Second.

Definition claimsA : UserClaims.t :=
  UserClaims.mk "u-admin" "admin@acme.example" true "org-a" "admin".

Definition claimsB : UserClaims.t :=
  UserClaims.mk "u-boss" "boss@other.example" true "org-b" "admin".

(** A request with the given claims whose URL parameter is [param]. *)
Definition request (claims : UserClaims.t) (param : string) : api.Request :=
  api.mkRequest (Some claims) (fun _ => param) (fun _ => EmptyString)
    "203.0.113.7:4711" "curl/8.5".

(** An evidence item of tenant [org-a], document [e1]. *)
Definition evidence1 (status : string) (ids : list string) : Evidence.t :=
  Evidence.mk "e1" "org-a" "Code of Ethics Ack 2025" EmptyString SourceManualUpload t0
    "org-a/evidence/e1-ack.pdf" "ack.pdf" 1024 "application/pdf" EmptyString ∅ ids
    "u-admin" t0 t0 status.

(** A database with one requirement and one evidence item of [org-a]. *)
Definition db1 (count : Z) (status : string) (ids : list string)
    : store.FirestoreStore :=
  store.mkStore ∅ ∅ {[ ("org-a", "r1") := requirement "r1" count None ]}
    {[ ("org-a", "e1") := evidence1 status ids ]} ∅ ∅ ∅.

(** A world over a database: the clock ticks from [t0] and the uuids are
    numbered. *)
Definition world (s : store.FirestoreStore) : store.World :=
  store.mkWorld s (fun n => t0 + Z.of_nat n) (fun n => "uuid-" +:+ pretty n).

(** An RFC 3339 parser that knows one date. *)
Definition parse (text : string) : option time.Time :=
  if String.eqb text "2024-01-01T00:00:00Z" then Some t0 else None.

(** The body that completes the upload of [e1] and names [r1]. *)
Definition completeUpload : api.CreateEvidenceRequest.t :=
  api.CreateEvidenceRequest.mk "e1" "Code of Ethics Ack 2025" EmptyString
    "2024-01-01T00:00:00Z" ["r1"].

(** A database with the requirement [r1] of [org-a], due date unset, and
    nothing else. *)
Definition db2 : store.FirestoreStore :=
  store.mkStore ∅ ∅ {[ ("org-a", "r1") := requirement "r1" 0 None ]} ∅ ∅ ∅ ∅.

(** An update of a requirement that supplies notes and a due date. *)
Definition updateWithDueDate : api.UpdateRequirementRequest.t :=
  api.UpdateRequirementRequest.mk "reviewed" (Some "2024-01-01T00:00:00Z") EmptyString.

(** A user record. *)
Definition user (uid org : string) (role : UserRole) (status : string) : User.t :=
  User.mk uid (uid +:+ "@example.com") "A. Person" org role status true t0 t0 None.

(** An organization whose subscription allows [max] users. *)
Definition organization (id : string) (max : Z) : Organization.t :=
  Organization.mk id "Acme RIA" "financial_services" "1-10" "sec_ria" EmptyString EmptyString EmptyString
    (Subscription.mk TierStarter "active" "cus_1" EmptyString t0 t0 false max (S754_zero false))
    t0 t0 EmptyString 1.

(** Tenant [org-a] with a limit of two users, one active administrator and
    one removed (inactive) user; tenant [org-b] with its administrator. *)
Definition db3 : store.FirestoreStore :=
  store.mkStore
    {[ "org-a" := organization "org-a" 2; "org-b" := organization "org-b" 10 ]}
    {[ "u-admin" := user "u-admin" "org-a" RoleAdmin "active";
       "u-old" := user "u-old" "org-a" RoleViewer "inactive";
       "u-boss" := user "u-boss" "org-b" RoleAdmin "active" ]}
    ∅ ∅ ∅ ∅ ∅.

Definition invite : api.InviteUserRequest.t :=
  api.InviteUserRequest.mk "new@acme.example" RoleViewer "welcome".

(** The identity provider deletes every account it is asked to. *)
Definition authDeleteUser (uid : string) : store.error := None.

(** Tenant [org-a] holds requirement [r1], evidence [e1] and report [p1];
    tenant [org-b] holds nothing under these ids.  The users are those of
    [db3]. *)
Definition db4 : store.FirestoreStore :=
  store.mkStore (store.organizations db3) (store.users db3)
    {[ ("org-a", "r1") := requirement "r1" 1 None ]}
    {[ ("org-a", "e1") := evidence1 "active" ["r1"] ]}
    ∅
    {[ ("org-a", "p1") :=
         Report.mk "p1" "org-a" "Q1" EmptyString "comprehensive" [] "completed"
           "org-a/reports/p1.pdf" "u-admin" t0 (Some t0) EmptyString ]}
    ∅.

End Sample.

(** The error responses of the handlers that look an entity up. *)
Definition evidenceNotFound : api.Response :=
  api.mkResponse http.StatusNotFound (api.jsonError "evidence not found").

Definition requirementNotFound : api.Response :=
  api.mkResponse http.StatusNotFound (api.jsonError "requirement not found").

Definition reportNotFound : api.Response :=
  api.mkResponse http.StatusNotFound (api.jsonError "report not found").

Definition userNotFound : api.Response :=
  api.mkResponse http.StatusNotFound (api.jsonError "user not found").

Definition userForbidden : api.Response :=
  api.mkResponse http.StatusForbidden (api.jsonError "user not in your organization").

(** The number of times [x] occurs in [l]. *)
Definition occurrences (x : string) (l : list string) : Z :=
  Z.of_nat (count_occ String.string_dec l x).

(** A requirement without its counter and its modification time: what an
    adjustment of the counter leaves alone. *)
Definition without_counter (r : Requirement.t) : Requirement.t :=
  Requirement.set_UpdatedAt 0 (Requirement.set_EvidenceCount 0 r).

(** Two databases that differ at most in the [requirements] collection. *)
Definition same_but_requirements (s s' : store.FirestoreStore) : Prop :=
  store.organizations s' = store.organizations s
  /\ store.users s' = store.users s
  /\ store.evidence s' = store.evidence s
  /\ store.audit_logs s' = store.audit_logs s
  /\ store.reports s' = store.reports s
  /\ store.requirement_templates s' = store.requirement_templates s.

(** The loop of [CreateEvidence] and [DeleteEvidence] over the requirement
    ids, with [n] the increment. *)
Definition adjustCounts (n : Z) (orgID : string) (ids : list string) : store.M unit :=
  store.forEach ids (fun reqID =>
    store.bind (store.addRequirementEvidenceCount n orgID reqID) (fun _ => store.ret tt)).

(** ** Invariants of the database *)

(** Every document of a collection is stored under the key its own fields
    give. *)
Definition keyed {K V} `{Countable K} (key : V -> K) (m : gmap K V) : Prop :=
  forall k v, m !! k = Some v -> k = key v.

Definition well_keyed (s : store.FirestoreStore) : Prop :=
  keyed Organization.ID (store.organizations s)
  /\ keyed User.UID (store.users s)
  /\ keyed (fun q => (Requirement.OrganizationID q, Requirement.ID q))
       (store.requirements s)
  /\ keyed (fun e => (Evidence.OrganizationID e, Evidence.ID e)) (store.evidence s)
  /\ keyed (fun l => (AuditLog.OrganizationID l, AuditLog.ID l)) (store.audit_logs s)
  /\ keyed (fun p => (Report.OrganizationID p, Report.ID p)) (store.reports s).

(** Two sub-collections that agree on the documents of every organization
    but [B]. *)
Definition same_off {V} (B : string) (m m' : gmap (string * string) V) : Prop :=
  forall A id, A <> B -> m' !! (A, id) = m !! (A, id).

(** Nothing of another organization than [B] differs between [s] and [s']:
    its organization document, its requirements, evidence, audit entries
    and reports; the templates are the same. *)
Definition others_untouched (B : string) (s s' : store.FirestoreStore) : Prop :=
  (forall A, A <> B -> store.organizations s' !! A = store.organizations s !! A)
  /\ same_off B (store.requirements s) (store.requirements s')
  /\ same_off B (store.evidence s) (store.evidence s')
  /\ same_off B (store.audit_logs s) (store.audit_logs s')
  /\ same_off B (store.reports s) (store.reports s')
  /\ store.requirement_templates s' = store.requirement_templates s.

(** What a request that may only read, report and log leaves alone: the
    organizations, requirements, evidence and templates, and every user
    document but the one of [uid]. *)
Definition records_untouched (uid : string) (s s' : store.FirestoreStore) : Prop :=
  store.organizations s' = store.organizations s
  /\ store.requirements s' = store.requirements s
  /\ store.evidence s' = store.evidence s
  /\ store.requirement_templates s' = store.requirement_templates s
  /\ (forall k, k <> uid -> store.users s' !! k = store.users s !! k).

(** A computation keeps the relation [I] between the world a request
    started in and the current world, and returns a value with [Q]. *)
Definition keeps {A} (I : store.World -> store.World -> Prop) (m : store.M A)
    (Q : A -> Prop) : Prop :=
  forall w0 w, I w0 w -> I w0 (snd (m w)) /\ Q (fst (m w)).

(** The relation of a request of organization [B]. *)
Definition tenant_inv (B : string) (w0 w : store.World) : Prop :=
  well_keyed (store.db w) /\ others_untouched B (store.db w0) (store.db w).

(** The relation of a request of user [uid] without write permission. *)
Definition reader_inv (uid : string) (w0 w : store.World) : Prop :=
  well_keyed (store.db w) /\ records_untouched uid (store.db w0) (store.db w).

(** The relation of any request: the keys only. *)
Definition keys_inv (w0 w : store.World) : Prop := well_keyed (store.db w).

(** The routes that [setupRoutes] mounts outside the authenticated group,
    and the two routes of the authenticated group that are outside the
    organization group. *)
Definition publicRoute (route : api.Route) : bool :=
  match route with
  | api.GET_health | api.POST_auth_register _ | api.POST_auth_password_reset _
  | api.POST_webhooks_stripe | api.POST_workers_gmail_poll
  | api.POST_workers_pdf_generate => true
  | _ => false
  end.

Definition profileRoute (route : api.Route) : bool :=
  match route with
  | api.GET_profile | api.PUT_profile _ => true
  | _ => false
  end.

(** The keys of a finite collection, checked by evaluation. *)
Definition keyedb {K V} `{Countable K} (key : V -> K) (m : gmap K V) : bool :=
  forallb (fun kv => bool_decide (fst kv = key (snd kv))) (map_to_list m).

Definition well_keyedb (s : store.FirestoreStore) : bool :=
  keyedb Organization.ID (store.organizations s)
  && keyedb User.UID (store.users s)
  && keyedb (fun q => (Requirement.OrganizationID q, Requirement.ID q))
       (store.requirements s)
  && keyedb (fun e => (Evidence.OrganizationID e, Evidence.ID e)) (store.evidence s)
  && keyedb (fun l => (AuditLog.OrganizationID l, AuditLog.ID l)) (store.audit_logs s)
  && keyedb (fun p => (Report.OrganizationID p, Report.ID p)) (store.reports s).

(** Collaborators and requests of the examples. *)
Module Fixture.

Definition StorageBucket : string := "compliancesync-evidence".

(** A signer that signs every path. *)
Definition SignedURL (bucket path method : string) (expires : time.Time)
    (contentType : string) : store.result string :=
  store.Ok ("https://storage.example/" +:+ bucket +:+ "/" +:+ path).

(** A verifier that knows four tokens: the administrator of [org-b], a
    viewer of [org-a], the administrator of [org-a], and an account
    without custom claims. *)
Definition VerifyIDToken (token : string) : store.result api.Token.t :=
  if String.eqb token "token-b"
  then store.Ok (api.Token.mk "u-boss" (Some "boss@other.example") (Some true)
                   (Some "org-b") (Some "admin"))
  else if String.eqb token "token-v"
  then store.Ok (api.Token.mk "u-view" (Some "view@acme.example") (Some true)
                   (Some "org-a") (Some "viewer"))
  else if String.eqb token "token-a"
  then store.Ok (api.Token.mk "u-admin" (Some "admin@acme.example") (Some true)
                   (Some "org-a") (Some "admin"))
  else if String.eqb token "token-n"
  then store.Ok (api.Token.mk "u-new" (Some "new@acme.example") (Some false) None None)
  else store.Err (store.errorString "invalid token").

(** An identity provider that creates every account it is asked to. *)
Definition authCreateUser (email password fullName : string) : store.result string :=
  store.Ok ("uid-" +:+ email).

(** [AddDate] on days only, which is how the handlers call it. *)
Definition AddDate (t : time.Time) (years months days : Z) : time.Time :=
  t + days * day.

Definition Atoi (text : string) : option Z :=
  if String.eqb text "5" then Some 5 else None.

Definition Format (t : time.Time) : string := pretty t.

(** A request with a bearer token whose URL parameters are all [param]. *)
Definition request (token param : string) : api.HTTPRequest :=
  api.mkHTTPRequest ("Bearer " +:+ token) (fun _ => param) (fun _ => EmptyString)
    "203.0.113.7:4711" "curl/8.5".

(** Tenant [org-a] with a limit of two users and two active users. *)
Definition seats : store.FirestoreStore :=
  store.mkStore
    {[ "org-a" := Sample.organization "org-a" 2 ]}
    {[ "u-admin" := Sample.user "u-admin" "org-a" RoleAdmin "active";
       "u-old" := Sample.user "u-old" "org-a" RoleViewer "active" ]}
    ∅ ∅ ∅ ∅ ∅.

(** A template of the [sec_ria] framework, and a database that holds it
    beside the documents of [Sample.db4]. *)
Definition template : RequirementTemplate.t :=
  RequirementTemplate.mk "sec-ria-001" "Code of Ethics" "Annual acknowledgement"
    "policy_management" "sec_ria" "SEC Rule 204A-1" ["policy"; "acknowledgement"]
    "annual" true Sample.t0 Sample.t0.

Definition templates : store.FirestoreStore :=
  store.mkStore (store.organizations Sample.db4) (store.users Sample.db4)
    (store.requirements Sample.db4) (store.evidence Sample.db4)
    (store.audit_logs Sample.db4) (store.reports Sample.db4)
    {[ "sec-ria-001" := template ]}.

(** The server over these collaborators. *)
Definition serve : api.Route -> api.HTTPRequest -> store.M api.Reply :=
  api.serve StorageBucket SignedURL Sample.parse Sample.authDeleteUser VerifyIDToken
    authCreateUser AddDate Atoi Format Format.

End Fixture.

(* ===================================================================== *)
(** * Status derivation                                                  *)
(* ===================================================================== *)

Section StatusDerivation.

Import Requirement.

Lemma day_value : day = 86400000000000.
Proof. reflexivity. Qed.

Lemma duration_bounds :
  time.minDuration = -9223372036854775808
  /\ time.maxDuration = 9223372036854775807.
Proof. split; reflexivity. Qed.

(** [Sub] is the difference clamped to the range of a [Duration]. *)
Lemma Sub_clamp t u :
  time.Sub t u = Z.max time.minDuration (Z.min time.maxDuration (t - u)).
Proof.
  unfold time.Sub. destruct duration_bounds as [-> ->].
  destruct (Z.ltb_spec (t - u) (-9223372036854775808));
    destruct (Z.ltb_spec 9223372036854775807 (t - u)); lia.
Qed.

(** Truncated division rounds toward zero. *)
Lemma quot_trunc d b :
  0 < b ->
  (0 <= d -> b * Z.quot d b <= d < b * Z.quot d b + b)
  /\ (d <= 0 -> b * Z.quot d b - b < d <= b * Z.quot d b).
Proof.
  intros Hb. split; intros Hd.
  - pose proof (Z.quot_rem d b ltac:(lia)).
    pose proof (Z.rem_bound_pos d b Hd Hb). lia.
  - pose proof (Z.quot_rem (- d) b ltac:(lia)) as Hq.
    pose proof (Z.rem_bound_pos (- d) b ltac:(lia) Hb).
    assert (Ho : Z.quot d b = - Z.quot (- d) b).
    { rewrite <- Z.quot_opp_l by lia. f_equal; lia. }
    rewrite Ho, Z.mul_opp_r. lia.
Qed.

(** The whole-day count is negative exactly from 24 hours in the past. *)
Lemma wholeDays_neg t u :
  time.wholeDays (time.Sub t u) < 0 <-> t - u <= - day.
Proof.
  rewrite Sub_clamp. unfold time.wholeDays. fold day. rewrite day_value.
  destruct duration_bounds as [-> ->].
  set (d := Z.max _ _).
  assert (Hd : d <= -86400000000000 <-> t - u <= -86400000000000) by (subst d; lia).
  rewrite <- Hd. clearbody d. clear Hd.
  destruct (quot_trunc d 86400000000000 ltac:(lia)) as [Hp Hn].
  destruct (Z_le_gt_dec 0 d); split; intros; lia.
Qed.

(** The whole-day count is at most 7 exactly up to (not including) 8 days
    ahead. *)
Lemma wholeDays_le_7 t u :
  time.wholeDays (time.Sub t u) <= 7 <-> t - u < 8 * day.
Proof.
  rewrite Sub_clamp. unfold time.wholeDays. fold day. rewrite day_value.
  destruct duration_bounds as [-> ->].
  set (d := Z.max _ _).
  assert (Hd : d < 8 * 86400000000000 <-> t - u < 8 * 86400000000000) by (subst d; lia).
  rewrite <- Hd. clearbody d. clear Hd.
  destruct (quot_trunc d 86400000000000 ltac:(lia)) as [Hp Hn].
  destruct (Z_le_gt_dec 0 d); split; intros; lia.
Qed.

(** C2 (as amended). The status is a function of the evidence count, the
    due date and the present instant: a count of 0 gives NotStarted for
    any due date; a positive count with no due date gives Compliant; a
    positive count with a due date at least 24 hours in the past gives
    NonCompliant; a positive count with a due date from the present up
    to, but not including, 8 days ahead gives AtRisk; a positive count
    with a due date 8 or more days ahead gives Compliant. *)
Theorem CalculateStatus_table (r : Requirement.t) (now : time.Time) :
  (EvidenceCount r = 0 -> CalculateStatus r now = StatusNotStarted)
  /\ (0 < EvidenceCount r -> NextDueDate r = None ->
      CalculateStatus r now = StatusCompliant)
  /\ (forall due, 0 < EvidenceCount r -> NextDueDate r = Some due ->
        (due - now <= - day -> CalculateStatus r now = StatusNonCompliant)
        /\ (0 <= due - now < 8 * day -> CalculateStatus r now = StatusAtRisk)
        /\ (8 * day <= due - now -> CalculateStatus r now = StatusCompliant)).
Proof.
  unfold CalculateStatus. split; [|split].
  - intros ->. reflexivity.
  - intros Hc ->.
    destruct (Z.eqb_spec (EvidenceCount r) 0); [lia|].
    destruct (Z.ltb_spec 0 (EvidenceCount r)); [reflexivity|lia].
  - intros due Hc ->. cbv zeta.
    destruct (Z.eqb_spec (EvidenceCount r) 0); [lia|].
    pose proof (wholeDays_neg due now) as Hneg.
    pose proof (wholeDays_le_7 due now) as Hle.
    pose proof day_value as Hday.
    destruct (Z.ltb_spec (time.wholeDays (time.Sub due now)) 0);
      destruct (Z.leb_spec (time.wholeDays (time.Sub due now)) 7);
      destruct (Z.ltb_spec 0 (EvidenceCount r));
      repeat split; intros; try reflexivity; lia.
Qed.

Lemma CalculateStatus_table_witness :
  CalculateStatus (Sample.requirement "r1" 0 (Some Sample.t0)) Sample.t0
    = StatusNotStarted
  /\ CalculateStatus (Sample.requirement "r1" 1 None) Sample.t0 = StatusCompliant
  /\ CalculateStatus (Sample.requirement "r1" 1 (Some (Sample.t0 - day))) Sample.t0
     = StatusNonCompliant
  /\ CalculateStatus (Sample.requirement "r1" 1 (Some (Sample.t0 + 3 * day))) Sample.t0
     = StatusAtRisk
  /\ CalculateStatus (Sample.requirement "r1" 1 (Some (Sample.t0 + 30 * day))) Sample.t0
     = StatusCompliant.
Proof.
  split; [|split; [|split; [|split]]].
  - apply (proj1 (CalculateStatus_table _ _)). reflexivity.
  - apply (proj1 (proj2 (CalculateStatus_table _ _))); reflexivity.
  - apply (proj2 (proj2 (CalculateStatus_table _ Sample.t0)) (Sample.t0 - day));
      [reflexivity | reflexivity | vm_compute; discriminate].
  - apply (proj2 (proj2 (CalculateStatus_table _ Sample.t0)) (Sample.t0 + 3 * day));
      [reflexivity | reflexivity | vm_compute; split; [discriminate | reflexivity]].
  - apply (proj2 (proj2 (CalculateStatus_table _ Sample.t0)) (Sample.t0 + 30 * day));
      [reflexivity | reflexivity | vm_compute; discriminate].
Defined.

(** C2 (as stated) fails: with a positive count, a due date one hour in
    the past gives AtRisk and not NonCompliant, and a due date seven and
    a half days ahead gives AtRisk and not Compliant. *)
Lemma CalculateStatus_table_counterexample :
  (Sample.t0 - time.Hour < Sample.t0
   /\ CalculateStatus (Sample.requirement "r1" 1 (Some (Sample.t0 - time.Hour)))
        Sample.t0 = StatusAtRisk
   /\ StatusAtRisk <> StatusNonCompliant)
  /\ (Sample.t0 + 7 * day < Sample.t0 + 7 * day + 12 * time.Hour
      /\ CalculateStatus
           (Sample.requirement "r1" 1 (Some (Sample.t0 + 7 * day + 12 * time.Hour)))
           Sample.t0 = StatusAtRisk
      /\ StatusAtRisk <> StatusCompliant).
Proof.
  repeat split; try reflexivity; discriminate.
Qed.

(** The binary64 computation of the day count gives the same statuses at
    the inputs of the two lemmas above ... *)
Example CalculateStatus_f64_samples :
  map (fun due => CalculateStatus_f64 (Sample.requirement "r1" 1 (Some due)) Sample.t0)
      [Sample.t0 - day; Sample.t0 - time.Hour; Sample.t0 + 3 * day;
       Sample.t0 + 7 * day + 12 * time.Hour; Sample.t0 + 30 * day]
  = [StatusNonCompliant; StatusAtRisk; StatusAtRisk; StatusAtRisk; StatusCompliant].
Proof. vm_compute. reflexivity. Qed.

(** ... and the same day count as the exact quotient on both sides of
    the two thresholds of [CalculateStatus]. *)
Example wholeDays_f64_thresholds :
  map time.wholeDays_f64 [- day - 1; - day; - day + 1; -1; 0; 1;
                          8 * day - 1; 8 * day; 8 * day + 1]
  = map time.wholeDays [- day - 1; - day; - day + 1; -1; 0; 1;
                        8 * day - 1; 8 * day; 8 * day + 1].
Proof. vm_compute. reflexivity. Qed.

(** C10. For a requirement whose evidence count is not negative the
    status is one of not_started, compliant, at_risk and non_compliant,
    never in_progress; a status of in_progress implies a negative
    evidence count. *)
Theorem CalculateStatus_in_progress (r : Requirement.t) (now : time.Time) :
  (0 <= EvidenceCount r ->
     CalculateStatus r now <> StatusInProgress
     /\ (CalculateStatus r now = StatusNotStarted
         \/ CalculateStatus r now = StatusCompliant
         \/ CalculateStatus r now = StatusAtRisk
         \/ CalculateStatus r now = StatusNonCompliant))
  /\ (CalculateStatus r now = StatusInProgress -> EvidenceCount r < 0).
Proof.
  unfold CalculateStatus.
  destruct (Z.eqb_spec (EvidenceCount r) 0) as [Hz|Hz];
    [split; [intros _; split; [discriminate | auto] | discriminate]|].
  destruct (NextDueDate r) as [due|]; cbv zeta.
  - destruct (time.wholeDays (time.Sub due now) <? 0);
      [split; [intros _; split; [discriminate | auto] | discriminate]|].
    destruct (time.wholeDays (time.Sub due now) <=? 7);
      [split; [intros _; split; [discriminate | auto] | discriminate]|].
    destruct (Z.ltb_spec 0 (EvidenceCount r)).
    + split; [intros _; split; [discriminate | auto] | discriminate].
    + split; [lia | intros _; lia].
  - destruct (Z.ltb_spec 0 (EvidenceCount r));
      (split; [intros _; split; [discriminate | auto] | discriminate]).
Qed.

Lemma CalculateStatus_in_progress_witness :
  CalculateStatus (Sample.requirement "r1" 2 (Some (Sample.t0 + 30 * day))) Sample.t0
    <> StatusInProgress
  /\ EvidenceCount (Sample.requirement "r1" (-1) (Some (Sample.t0 + 30 * day))) < 0.
Proof.
  split.
  - apply (proj1 (CalculateStatus_in_progress _ _)). vm_compute. discriminate.
  - apply (proj2 (CalculateStatus_in_progress _ Sample.t0)). reflexivity.
Defined.

(** The in_progress branch is reached with a negative count and a due
    date more than 7 whole days ahead. *)
Example CalculateStatus_in_progress_reached :
  CalculateStatus (Sample.requirement "r1" (-1) (Some (Sample.t0 + 30 * day))) Sample.t0
  = StatusInProgress.
Proof. reflexivity. Qed.

(** The same on the binary64 day count: its value plays no part. *)
Lemma CalculateStatus_f64_in_progress (r : Requirement.t) (now : time.Time) :
  (0 <= EvidenceCount r -> CalculateStatus_f64 r now <> StatusInProgress)
  /\ (CalculateStatus_f64 r now = StatusInProgress -> EvidenceCount r < 0).
Proof.
  unfold CalculateStatus_f64.
  destruct (Z.eqb_spec (EvidenceCount r) 0) as [Hz|Hz];
    [split; [intros _; discriminate | discriminate]|].
  destruct (NextDueDate r) as [due|]; cbv zeta.
  - destruct (time.wholeDays_f64 (time.Sub due now) <? 0);
      [split; [intros _; discriminate | discriminate]|].
    destruct (time.wholeDays_f64 (time.Sub due now) <=? 7);
      [split; [intros _; discriminate | discriminate]|].
    destruct (Z.ltb_spec 0 (EvidenceCount r)).
    + split; [intros _; discriminate | discriminate].
    + split; [lia | intros _; lia].
  - destruct (Z.ltb_spec 0 (EvidenceCount r));
      (split; [intros _; discriminate | discriminate]).
Qed.

End StatusDerivation.

(* ===================================================================== *)
(** * The evidence counters                                              *)
(* ===================================================================== *)

Section Counters.

Import store.

Lemma occurrences_cons x y l :
  occurrences x (y :: l) = (if decide (y = x) then 1 else 0) + occurrences x l.
Proof.
  unfold occurrences. simpl.
  destruct (String.string_dec y x); destruct (decide (y = x)); try contradiction; lia.
Qed.

Lemma occurrences_not_in x l : x ∉ l -> occurrences x l = 0.
Proof.
  induction l as [|y l IH]; [reflexivity|].
  intros Hn. rewrite occurrences_cons.
  apply not_elem_of_cons in Hn as [Hne Hn].
  destruct (decide (y = x)); [congruence|]. rewrite IH; auto.
Qed.

Lemma occurrences_NoDup x l : NoDup l -> x ∈ l -> occurrences x l = 1.
Proof.
  induction 1 as [|y l Hy Hnd IH]; intros Hin.
  - inversion Hin.
  - rewrite occurrences_cons. apply elem_of_cons in Hin as [->|Hin].
    + destruct (decide (y = y)); [|congruence].
      rewrite occurrences_not_in; auto.
    + destruct (decide (y = x)) as [->|]; [contradiction|]. rewrite IH; auto.
Qed.

Lemma addRequirementEvidenceCount_run n org reqID w :
  addRequirementEvidenceCount n org reqID w =
  match requirements (db w) !! (org, reqID) with
  | None => (Some errNotFound, advance_clock w)
  | Some r =>
      (None,
       with_db (set_requirements
                  (<[(org, reqID) :=
                       Requirement.set_UpdatedAt (clock w 0%nat)
                         (Requirement.set_EvidenceCount
                            (Requirement.EvidenceCount r + n) r)]>
                     (requirements (db w))))
               (advance_clock w))
  end.
Proof.
  unfold addRequirementEvidenceCount, bind, time_Now, get_db. cbn.
  destruct (requirements (db w) !! (org, reqID)); reflexivity.
Qed.

Lemma adjustCounts_cons n org x ids w :
  adjustCounts n org (x :: ids) w =
  adjustCounts n org ids (snd (addRequirementEvidenceCount n org x w)).
Proof. reflexivity. Qed.

(** The loop touches the [requirements] collection only, and reads no
    uuid. *)
Lemma adjustCounts_frame n org ids w :
  same_but_requirements (db w) (db (snd (adjustCounts n org ids w)))
  /\ uuids (snd (adjustCounts n org ids w)) = uuids w.
Proof.
  revert w. induction ids as [|x ids IH]; intros w.
  - repeat split.
  - rewrite adjustCounts_cons.
    destruct (IH (snd (addRequirementEvidenceCount n org x w)))
      as [(H1 & H2 & H3 & H4 & H5 & H6) H7].
    rewrite addRequirementEvidenceCount_run in *.
    destruct (requirements (db w) !! (org, x)); cbn in *;
      unfold same_but_requirements; repeat split; assumption.
Qed.

(** Requirements of other tenants are not touched. *)
Lemma adjustCounts_other_org n org ids w o rid :
  o <> org ->
  requirements (db (snd (adjustCounts n org ids w))) !! (o, rid)
  = requirements (db w) !! (o, rid).
Proof.
  intros Hne. revert w. induction ids as [|x ids IH]; intros w; [reflexivity|].
  rewrite adjustCounts_cons, IH, addRequirementEvidenceCount_run.
  destruct (requirements (db w) !! (org, x)); cbn; [|reflexivity].
  apply lookup_insert_ne. congruence.
Qed.

(** Each requirement of the tenant has its counter moved by [n] times the
    number of occurrences of its id; a requirement that does not exist is
    not created. *)
Lemma adjustCounts_count n org ids w rid :
  Requirement.EvidenceCount
    <$> requirements (db (snd (adjustCounts n org ids w))) !! (org, rid)
  = (fun c => c + n * occurrences rid ids)
    <$> (Requirement.EvidenceCount <$> requirements (db w) !! (org, rid)).
Proof.
  revert w. induction ids as [|x ids IH]; intros w.
  - cbn. destruct (requirements (db w) !! (org, rid)); cbn; [|reflexivity].
    f_equal. unfold occurrences. cbn. lia.
  - rewrite adjustCounts_cons, IH, addRequirementEvidenceCount_run, occurrences_cons.
    destruct (requirements (db w) !! (org, x)) as [r|] eqn:Hx; cbn.
    + destruct (decide (x = rid)) as [->|Hne].
      * rewrite lookup_insert_eq, Hx. cbn. f_equal; lia.
      * rewrite lookup_insert_ne by congruence.
        destruct (requirements (db w) !! (org, rid)); cbn; [|reflexivity].
        f_equal; lia.
    + destruct (decide (x = rid)) as [->|Hne].
      * now rewrite Hx.
      * destruct (requirements (db w) !! (org, rid)); cbn; [|reflexivity].
        f_equal; lia.
Qed.

(** Nothing but the counter and the modification time changes. *)
Lemma adjustCounts_fields n org ids w key :
  without_counter <$> requirements (db (snd (adjustCounts n org ids w))) !! key
  = without_counter <$> requirements (db w) !! key.
Proof.
  revert w. induction ids as [|x ids IH]; intros w; [reflexivity|].
  rewrite adjustCounts_cons, IH, addRequirementEvidenceCount_run.
  destruct (requirements (db w) !! (org, x)) as [r|] eqn:Hx; cbn; [|reflexivity].
  destruct (decide ((org, x) = key)) as [<-|Hne].
  - rewrite lookup_insert_eq, Hx. reflexivity.
  - rewrite lookup_insert_ne by assumption. reflexivity.
Qed.

End Counters.

(* ===================================================================== *)
(** * The evidence lifecycle                                             *)
(* ===================================================================== *)

Section EvidenceLifecycle.

Import store api.

Lemma GetEvidence_run org id w :
  GetEvidence org id w =
  (match evidence (db w) !! (org, id) with
   | Some e => Ok e
   | None => Err (Errorf "failed to get evidence" errNotFound)
   end, w).
Proof.
  unfold GetEvidence, bind, get_db. cbn.
  destruct (evidence (db w) !! (org, id)); reflexivity.
Qed.

Lemma DeleteEvidence_run org id e w :
  evidence (db w) !! (org, id) = Some e ->
  DeleteEvidence org id w =
  (None,
   snd (adjustCounts (-1) org (Evidence.RequirementIDs e)
          (with_db (set_evidence
                      (<[(org, id) :=
                           Evidence.set_UpdatedAt (clock w 0%nat)
                             (Evidence.set_Status "deleted" e)]>
                         (evidence (db w))))
                   (advance_clock w)))).
Proof.
  intros He. unfold DeleteEvidence. unfold bind at 1.
  rewrite GetEvidence_run, He. cbn [fst snd].
  unfold bind at 1. unfold bind at 1. cbn [time_Now get_db fst snd advance_clock db].
  rewrite He. reflexivity.
Qed.

Lemma CreateAuditLog_run log w :
  CreateAuditLog log w =
  (None,
   with_db (fun s =>
              set_audit_logs
                (<[(AuditLog.OrganizationID log, uuids w 0%nat) :=
                     AuditLog.set_Timestamp (clock w 0%nat)
                       (AuditLog.set_ID (uuids w 0%nat) log)]>
                   (audit_logs s)) s)
           (advance_clock (advance_uuids w))).
Proof. reflexivity. Qed.

(** Writing an audit entry leaves every other collection alone. *)
Lemma CreateAuditLog_frame log w :
  organizations (db (snd (CreateAuditLog log w))) = organizations (db w)
  /\ users (db (snd (CreateAuditLog log w))) = users (db w)
  /\ requirements (db (snd (CreateAuditLog log w))) = requirements (db w)
  /\ evidence (db (snd (CreateAuditLog log w))) = evidence (db w)
  /\ reports (db (snd (CreateAuditLog log w))) = reports (db w).
Proof. repeat split. Qed.

Lemma handleDeleteEvidence_run r claims e w :
  Claims r = Some claims ->
  evidence (db w) !! (UserClaims.OrganizationID claims, URLParam r "evidenceID")
    = Some e ->
  handleDeleteEvidence r w =
  (mkResponse http.StatusOK (jsonMessage "evidence deleted successfully"),
   snd (CreateAuditLog
          (newAuditLog r claims (UserClaims.OrganizationID claims)
             ActionEvidenceDeleted "evidence" (Evidence.ID e)
             ("Deleted evidence: " +:+ Evidence.Title e) []
             [("requirement_ids", Evidence.RequirementIDs e)])
          (snd (adjustCounts (-1) (UserClaims.OrganizationID claims)
                  (Evidence.RequirementIDs e)
                  (with_db
                     (set_evidence
                        (<[(UserClaims.OrganizationID claims, URLParam r "evidenceID") :=
                             Evidence.set_UpdatedAt (clock w 0%nat)
                               (Evidence.set_Status "deleted" e)]>
                           (evidence (db w))))
                     (advance_clock w)))))).
Proof.
  intros Hc He. unfold handleDeleteEvidence. rewrite Hc.
  unfold bind at 1. rewrite GetEvidence_run, He. cbn [fst snd].
  unfold bind at 1. rewrite (DeleteEvidence_run _ _ e) by assumption.
  reflexivity.
Qed.

(** What [handleDeleteEvidence] does to the database, for an item of any
    status: the item is kept with status [deleted]; each requirement of
    the tenant keeps its fields and has its counter lowered by the number
    of occurrences of its id in the item's list. *)
Lemma handleDeleteEvidence_effect r claims e w :
  Claims r = Some claims ->
  evidence (db w) !! (UserClaims.OrganizationID claims, URLParam r "evidenceID")
    = Some e ->
  let org := UserClaims.OrganizationID claims in
  let w' := snd (handleDeleteEvidence r w) in
  StatusCode (fst (handleDeleteEvidence r w)) = http.StatusOK
  /\ evidence (db w')
     = <[(org, URLParam r "evidenceID") :=
           Evidence.set_UpdatedAt (clock w 0%nat) (Evidence.set_Status "deleted" e)]>
         (evidence (db w))
  /\ (forall rid,
        Requirement.EvidenceCount <$> requirements (db w') !! (org, rid)
        = (fun c => c + (-1) * occurrences rid (Evidence.RequirementIDs e))
          <$> (Requirement.EvidenceCount <$> requirements (db w) !! (org, rid)))
  /\ (forall key,
        without_counter <$> requirements (db w') !! key
        = without_counter <$> requirements (db w) !! key).
Proof.
  intros Hc He org w'. subst w'.
  rewrite (handleDeleteEvidence_run r claims e w Hc He). cbn [fst snd].
  set (w1 := with_db _ (advance_clock w)).
  destruct (CreateAuditLog_frame
              (newAuditLog r claims org ActionEvidenceDeleted "evidence"
                 (Evidence.ID e) ("Deleted evidence: " +:+ Evidence.Title e) []
                 [("requirement_ids", Evidence.RequirementIDs e)])
              (snd (adjustCounts (-1) org (Evidence.RequirementIDs e) w1)))
    as (_ & _ & Hr & Hev & _).
  fold org. rewrite Hr, Hev.
  destruct (adjustCounts_frame (-1) org (Evidence.RequirementIDs e) w1)
    as [(_ & _ & Hev1 & _) _].
  split; [reflexivity|]. split; [rewrite Hev1; reflexivity|]. split.
  - intros rid. rewrite adjustCounts_count. reflexivity.
  - intros key. rewrite adjustCounts_fields. reflexivity.
Qed.

(** The documents [ListEvidence] returns: the active ones of the
    organization that pass the filters. *)
Lemma ListEvidence_elem org filters w l x :
  fst (ListEvidence org filters w) = Ok l ->
  x ∈ l ->
  exists id, evidence (db w) !! (org, id) = Some x /\ Evidence.Status x = "active".
Proof.
  unfold ListEvidence, bind, get_db, ret. cbn. intros [= <-] Hx.
  apply list_elem_of_In, filter_In in Hx as [Hx Hp].
  apply andb_prop in Hp as [Hact _].
  apply list_elem_of_In, list_elem_of_fmap in Hx as ([[o id] y] & -> & Hy).
  apply list_elem_of_In, filter_In in Hy as [Hy Ho]. cbn in Ho.
  apply String.eqb_eq in Ho as ->. apply String.eqb_eq in Hact.
  apply list_elem_of_In, elem_of_map_to_list in Hy.
  exists id. split; assumption.
Qed.

Lemma ListEvidence_ok org filters w : exists l, fst (ListEvidence org filters w) = Ok l.
Proof. eexists. reflexivity. Qed.

(** C5 (as amended). Deleting an evidence item (of any status, an active
    one in particular) is a soft delete: the request succeeds; the record
    stays in the store with status [deleted] and every other field but the
    modification time as before, the file reference included; each
    requirement of the tenant has its [evidence_count] lowered by the
    number of times its id occurs in the item's list of requirement ids
    (by 1 for an id listed once, by 0 for an id that is not listed), no
    other field of a requirement but its modification time changing; and
    every item a later [ListEvidence] returns is another document of the
    tenant. *)
Theorem handleDeleteEvidence_soft_delete r claims e w :
  Claims r = Some claims ->
  evidence (db w) !! (UserClaims.OrganizationID claims, URLParam r "evidenceID")
    = Some e ->
  let org := UserClaims.OrganizationID claims in
  let id := URLParam r "evidenceID" in
  let w' := snd (handleDeleteEvidence r w) in
  StatusCode (fst (handleDeleteEvidence r w)) = http.StatusOK
  /\ (exists e',
        evidence (db w') !! (org, id) = Some e'
        /\ Evidence.Status e' = "deleted"
        /\ Evidence.FileURL e' = Evidence.FileURL e
        /\ Evidence.set_UpdatedAt 0 (Evidence.set_Status EmptyString e')
           = Evidence.set_UpdatedAt 0 (Evidence.set_Status EmptyString e))
  /\ (forall rid q,
        requirements (db w) !! (org, rid) = Some q ->
        exists q',
          requirements (db w') !! (org, rid) = Some q'
          /\ without_counter q' = without_counter q
          /\ Requirement.EvidenceCount q'
             = Requirement.EvidenceCount q
               - occurrences rid (Evidence.RequirementIDs e)
          /\ (occurrences rid (Evidence.RequirementIDs e) = 1 ->
              Requirement.EvidenceCount q' = Requirement.EvidenceCount q - 1)
          /\ (rid ∉ Evidence.RequirementIDs e ->
              Requirement.EvidenceCount q' = Requirement.EvidenceCount q))
  /\ (forall filters l x,
        fst (ListEvidence org filters w') = Ok l ->
        x ∈ l ->
        exists id', id' <> id /\ evidence (db w) !! (org, id') = Some x).
Proof.
  intros Hc He org id w'.
  destruct (handleDeleteEvidence_effect r claims e w Hc He)
    as (Hst & Hev & Hcount & Hfields).
  fold org id w' in Hev, Hcount, Hfields.
  split; [exact Hst|]. split; [|split].
  - eexists. rewrite Hev, lookup_insert_eq. repeat split.
  - intros rid q Hq.
    specialize (Hcount rid). specialize (Hfields (org, rid)).
    rewrite Hq in Hcount, Hfields. cbn in Hcount, Hfields.
    destruct (requirements (db w') !! (org, rid)) as [q'|]; [|discriminate].
    cbn in Hcount, Hfields. exists q'. split; [reflexivity|].
    split; [congruence|]. injection Hcount as ->.
    split; [lia|]. split.
    + intros ->. lia.
    + intros Hin. rewrite occurrences_not_in by assumption. lia.
  - intros filters l x Hl Hx.
    destruct (ListEvidence_elem org filters w' l x Hl Hx) as (id' & Hx' & Hact).
    rewrite Hev in Hx'. exists id'.
    destruct (decide (id' = id)) as [->|Hne].
    + rewrite lookup_insert_eq in Hx'. injection Hx' as <-. discriminate Hact.
    + rewrite lookup_insert_ne in Hx' by congruence. split; assumption.
Qed.

Lemma handleDeleteEvidence_soft_delete_witness :
  let w' := snd (handleDeleteEvidence (Sample.request Sample.claimsA "e1")
                   (Sample.world (Sample.db1 1 "active" ["r1"]))) in
  (exists e', evidence (db w') !! ("org-a", "e1") = Some e'
              /\ Evidence.Status e' = "deleted")
  /\ (exists q', requirements (db w') !! ("org-a", "r1") = Some q'
                 /\ Requirement.EvidenceCount q' = 0).
Proof.
  destruct (handleDeleteEvidence_soft_delete
              (Sample.request Sample.claimsA "e1") Sample.claimsA
              (Sample.evidence1 "active" ["r1"])
              (Sample.world (Sample.db1 1 "active" ["r1"]))
              eq_refl eq_refl)
    as (_ & (e' & He' & Hst & _) & Hreq & _).
  split.
  - exists e'. split; assumption.
  - destruct (Hreq "r1" (Sample.requirement "r1" 1 None) eq_refl)
      as (q' & Hq' & _ & Hcnt & _).
    exists q'. split; [exact Hq' | exact Hcnt].
Defined.

(** C5 (as stated) fails: [handleUpdateEvidence] stores a list that names
    requirement [r1] twice as it is sent; deleting the active item then
    answers 200 and takes the [evidence_count] of [r1] from 5 to 3, not
    to 4. *)
Lemma handleDeleteEvidence_soft_delete_counterexample :
  let r := Sample.request Sample.claimsA "e1" in
  let w :=
    snd (handleUpdateEvidence r
           (Some (UpdateEvidenceRequest.mk "Code of Ethics Ack 2025" EmptyString
                    ["r1"; "r1"]))
           (Sample.world (Sample.db1 5 "active" ["r1"]))) in
  let w' := snd (handleDeleteEvidence r w) in
  (Evidence.Status <$> evidence (db w) !! ("org-a", "e1") = Some "active"
   /\ Evidence.RequirementIDs <$> evidence (db w) !! ("org-a", "e1")
      = Some ["r1"; "r1"]
   /\ Requirement.EvidenceCount <$> requirements (db w) !! ("org-a", "r1") = Some 5)
  /\ StatusCode (fst (handleDeleteEvidence r w)) = http.StatusOK
  /\ Evidence.Status <$> evidence (db w') !! ("org-a", "e1") = Some "deleted"
  /\ Requirement.EvidenceCount <$> requirements (db w') !! ("org-a", "r1") = Some 3
  /\ 3 <> 5 - 1.
Proof.
  vm_compute. repeat split; discriminate.
Qed.

(** C9. Deleting is not idempotent on the counters.  For an item of any
    status the request succeeds and lowers the counter of every named
    requirement of the tenant; a second request for the same item, now of
    status [deleted], succeeds again and lowers the same counters again,
    so that a counter that was at most 1 ends negative. *)
Theorem handleDeleteEvidence_twice r claims e w :
  Claims r = Some claims ->
  evidence (db w) !! (UserClaims.OrganizationID claims, URLParam r "evidenceID")
    = Some e ->
  let org := UserClaims.OrganizationID claims in
  let id := URLParam r "evidenceID" in
  let w1 := snd (handleDeleteEvidence r w) in
  let w2 := snd (handleDeleteEvidence r w1) in
  StatusCode (fst (handleDeleteEvidence r w)) = http.StatusOK
  /\ (exists e1, evidence (db w1) !! (org, id) = Some e1
                 /\ Evidence.Status e1 = "deleted")
  /\ StatusCode (fst (handleDeleteEvidence r w1)) = http.StatusOK
  /\ (forall rid q,
        requirements (db w) !! (org, rid) = Some q ->
        rid ∈ Evidence.RequirementIDs e ->
        exists q1 q2,
          requirements (db w1) !! (org, rid) = Some q1
          /\ requirements (db w2) !! (org, rid) = Some q2
          /\ Requirement.EvidenceCount q1 < Requirement.EvidenceCount q
          /\ Requirement.EvidenceCount q2 < Requirement.EvidenceCount q1
          /\ Requirement.EvidenceCount q2
             = Requirement.EvidenceCount q
               - 2 * occurrences rid (Evidence.RequirementIDs e)
          /\ (Requirement.EvidenceCount q <= 1 -> Requirement.EvidenceCount q2 < 0)).
Proof.
  intros Hc He org id w1 w2.
  destruct (handleDeleteEvidence_effect r claims e w Hc He)
    as (Hst & Hev & Hcount & _).
  fold org id w1 in Hev, Hcount.
  assert (He1 : evidence (db w1) !! (org, id)
                = Some (Evidence.set_UpdatedAt (clock w 0%nat)
                          (Evidence.set_Status "deleted" e)))
    by (rewrite Hev; apply lookup_insert_eq).
  destruct (handleDeleteEvidence_effect r claims _ w1 Hc He1)
    as (Hst2 & _ & Hcount2 & _).
  fold org id w2 in Hcount2. cbn [Evidence.RequirementIDs Evidence.set_UpdatedAt
                                  Evidence.set_Status] in Hcount2.
  split; [exact Hst|]. split; [eexists; split; [exact He1 | reflexivity]|].
  split; [exact Hst2|].
  intros rid q Hq Hin.
  specialize (Hcount rid). specialize (Hcount2 rid).
  rewrite Hq in Hcount. cbn in Hcount.
  destruct (requirements (db w1) !! (org, rid)) as [q1|]; [|discriminate].
  cbn in Hcount, Hcount2.
  destruct (requirements (db w2) !! (org, rid)) as [q2|]; [|discriminate].
  cbn in Hcount2. injection Hcount as Hq1. injection Hcount2 as Hq2.
  assert (Hocc : 1 <= occurrences rid (Evidence.RequirementIDs e)).
  { unfold occurrences.
    apply list_elem_of_In, (count_occ_In String.string_dec) in Hin. lia. }
  exists q1, q2. repeat split; lia.
Qed.

Lemma handleDeleteEvidence_twice_witness :
  let r := Sample.request Sample.claimsA "e1" in
  let w2 := snd (handleDeleteEvidence r
                   (snd (handleDeleteEvidence r
                           (Sample.world (Sample.db1 1 "active" ["r1"]))))) in
  exists q2, requirements (db w2) !! ("org-a", "r1") = Some q2
             /\ Requirement.EvidenceCount q2 < 0.
Proof.
  destruct (handleDeleteEvidence_twice
              (Sample.request Sample.claimsA "e1") Sample.claimsA
              (Sample.evidence1 "active" ["r1"])
              (Sample.world (Sample.db1 1 "active" ["r1"]))
              eq_refl eq_refl)
    as (_ & _ & _ & Hreq).
  destruct (Hreq "r1" (Sample.requirement "r1" 1 None) eq_refl
              (list_elem_of_here "r1" []))
    as (q1 & q2 & _ & Hq2 & _ & _ & _ & Hneg).
  exists q2. split; [exact Hq2 | apply Hneg; cbn; lia].
Defined.

(** The run of the witness: two deletions take the counter from 1 to -1. *)
Example handleDeleteEvidence_twice_run :
  let r := Sample.request Sample.claimsA "e1" in
  let w1 := snd (handleDeleteEvidence r (Sample.world (Sample.db1 1 "active" ["r1"]))) in
  let w2 := snd (handleDeleteEvidence r w1) in
  Requirement.EvidenceCount <$> requirements (db w1) !! ("org-a", "r1") = Some 0
  /\ Requirement.EvidenceCount <$> requirements (db w2) !! ("org-a", "r1") = Some (-1)
  /\ Evidence.Status <$> evidence (db w2) !! ("org-a", "e1") = Some "deleted".
Proof. vm_compute. repeat split. Qed.

Lemma UpdateEvidence_run ev w :
  UpdateEvidence ev w =
  ((Evidence.set_UpdatedAt (clock w 0%nat) ev, None),
   with_db (fun s =>
              set_evidence
                (<[(Evidence.OrganizationID ev, Evidence.ID ev) :=
                     Evidence.set_UpdatedAt (clock w 0%nat) ev]> (evidence s)) s)
           (advance_clock w)).
Proof. reflexivity. Qed.

Lemma UpdateEvidence_db ev w :
  evidence (db (snd (UpdateEvidence ev w)))
  = <[(Evidence.OrganizationID ev, Evidence.ID ev) :=
        Evidence.set_UpdatedAt (clock w 0%nat) ev]> (evidence (db w))
  /\ requirements (db (snd (UpdateEvidence ev w))) = requirements (db w)
  /\ audit_logs (db (snd (UpdateEvidence ev w))) = audit_logs (db w)
  /\ uuids (snd (UpdateEvidence ev w)) = uuids w.
Proof. repeat split. Qed.

Lemma handleUpdateEvidence_run r claims req e w :
  Claims r = Some claims ->
  evidence (db w) !! (UserClaims.OrganizationID claims, URLParam r "evidenceID")
    = Some e ->
  let ev := Evidence.set_RequirementIDs (UpdateEvidenceRequest.RequirementIDs req)
              (Evidence.set_Description (UpdateEvidenceRequest.Description req)
                 (Evidence.set_Title (UpdateEvidenceRequest.Title req) e)) in
  handleUpdateEvidence r (Some req) w =
  (mkResponse http.StatusOK (jsonEvidence (Evidence.set_UpdatedAt (clock w 0%nat) ev)),
   snd (CreateAuditLog
          (newAuditLog r claims (UserClaims.OrganizationID claims)
             ActionEvidenceUpdated "evidence" (Evidence.ID e)
             ("Updated evidence: " +:+ UpdateEvidenceRequest.Title req)
             [("requirement_ids",
               (Evidence.RequirementIDs e, UpdateEvidenceRequest.RequirementIDs req))]
             [])
          (snd (UpdateEvidence ev w)))).
Proof.
  intros Hc He ev. unfold handleUpdateEvidence. rewrite Hc.
  unfold bind at 1. rewrite GetEvidence_run, He. reflexivity.
Qed.

(** C8. Updating an evidence item stores the supplied title, description
    and requirement ids in place of the old ones and leaves the
    [requirements] collection as it was: no counter of any requirement,
    added to or removed from the association, is incremented or
    decremented. *)
Theorem handleUpdateEvidence_keeps_counts r claims req e w :
  Claims r = Some claims ->
  evidence (db w) !! (UserClaims.OrganizationID claims, URLParam r "evidenceID")
    = Some e ->
  Evidence.OrganizationID e = UserClaims.OrganizationID claims ->
  Evidence.ID e = URLParam r "evidenceID" ->
  let w' := snd (handleUpdateEvidence r (Some req) w) in
  StatusCode (fst (handleUpdateEvidence r (Some req) w)) = http.StatusOK
  /\ (exists e',
        evidence (db w')
          !! (UserClaims.OrganizationID claims, URLParam r "evidenceID") = Some e'
        /\ Evidence.RequirementIDs e' = UpdateEvidenceRequest.RequirementIDs req
        /\ Evidence.Title e' = UpdateEvidenceRequest.Title req
        /\ Evidence.Description e' = UpdateEvidenceRequest.Description req
        /\ Evidence.Status e' = Evidence.Status e)
  /\ requirements (db w') = requirements (db w)
  /\ (forall key,
        Requirement.EvidenceCount <$> requirements (db w') !! key
        = Requirement.EvidenceCount <$> requirements (db w) !! key).
Proof.
  intros Hc He Horg Hid w'. subst w'.
  rewrite (handleUpdateEvidence_run r claims req e w Hc He). cbn [fst snd].
  set (ev := Evidence.set_RequirementIDs _ _).
  set (log := newAuditLog _ _ _ _ _ _ _ _ _).
  destruct (CreateAuditLog_frame log (snd (UpdateEvidence ev w)))
    as (_ & _ & Hr & Hev & _).
  destruct (UpdateEvidence_db ev w) as (Hev1 & Hr1 & _).
  rewrite Hr, Hev, Hr1, Hev1.
  split; [reflexivity|]. split; [|split; reflexivity].
  eexists. subst ev. cbn [Evidence.OrganizationID Evidence.ID
    Evidence.set_RequirementIDs Evidence.set_Description Evidence.set_Title].
  rewrite Horg, Hid, lookup_insert_eq. repeat split.
Qed.

Lemma handleUpdateEvidence_keeps_counts_witness :
  let w' := snd (handleUpdateEvidence (Sample.request Sample.claimsA "e1")
                   (Some (UpdateEvidenceRequest.mk "Ack 2025" EmptyString []))
                   (Sample.world (Sample.db1 1 "active" ["r1"]))) in
  requirements (db w') = requirements (Sample.db1 1 "active" ["r1"])
  /\ (exists e', evidence (db w') !! ("org-a", "e1") = Some e'
                 /\ Evidence.RequirementIDs e' = []).
Proof.
  destruct (handleUpdateEvidence_keeps_counts
              (Sample.request Sample.claimsA "e1") Sample.claimsA
              (UpdateEvidenceRequest.mk "Ack 2025" EmptyString [])
              (Sample.evidence1 "active" ["r1"])
              (Sample.world (Sample.db1 1 "active" ["r1"]))
              eq_refl eq_refl eq_refl eq_refl)
    as (_ & (e' & He' & Hids & _) & Hreq & _).
  split; [exact Hreq|].
  exists e'. split; [exact He' | exact Hids].
Defined.

Lemma handleCreateEvidence_run ParseRFC3339 r claims req date e w :
  Claims r = Some claims ->
  ParseRFC3339 (CreateEvidenceRequest.EvidenceDate req) = Some date ->
  evidence (db w)
    !! (UserClaims.OrganizationID claims, CreateEvidenceRequest.EvidenceID req)
    = Some e ->
  let ev :=
    Evidence.set_Status "active"
      (Evidence.set_Source SourceManualUpload
         (Evidence.set_RequirementIDs (CreateEvidenceRequest.RequirementIDs req)
            (Evidence.set_EvidenceDate date
               (Evidence.set_Description (CreateEvidenceRequest.Description req)
                  (Evidence.set_Title (CreateEvidenceRequest.Title req) e))))) in
  handleCreateEvidence ParseRFC3339 r (Some req) w =
  (mkResponse http.StatusCreated
     (jsonEvidence (Evidence.set_UpdatedAt (clock w 0%nat) ev)),
   snd (CreateAuditLog
          (newAuditLog r claims (UserClaims.OrganizationID claims)
             ActionEvidenceCreated "evidence" (Evidence.ID e)
             ("Uploaded evidence: " +:+ CreateEvidenceRequest.Title req) [] [])
          (snd (UpdateEvidence ev w)))).
Proof.
  intros Hc Hd He ev. unfold handleCreateEvidence. rewrite Hc, Hd.
  unfold bind at 1. rewrite GetEvidence_run, He. cbn [fst snd].
  cbv zeta. fold ev.
  unfold bind at 1. rewrite UpdateEvidence_run. cbn [fst snd].
  reflexivity.
Qed.

(** C1 (what the code does). Completing the upload of an evidence item
    through [handleCreateEvidence] sets its status to [active] and stores
    the requirement ids of the request, and leaves the [requirements]
    collection as it was: no [evidence_count] is incremented. *)
Theorem handleCreateEvidence_counts_unchanged ParseRFC3339 r claims req date e w :
  Claims r = Some claims ->
  ParseRFC3339 (CreateEvidenceRequest.EvidenceDate req) = Some date ->
  evidence (db w)
    !! (UserClaims.OrganizationID claims, CreateEvidenceRequest.EvidenceID req)
    = Some e ->
  Evidence.OrganizationID e = UserClaims.OrganizationID claims ->
  Evidence.ID e = CreateEvidenceRequest.EvidenceID req ->
  let w' := snd (handleCreateEvidence ParseRFC3339 r (Some req) w) in
  StatusCode (fst (handleCreateEvidence ParseRFC3339 r (Some req) w))
    = http.StatusCreated
  /\ (exists e',
        evidence (db w')
          !! (UserClaims.OrganizationID claims, CreateEvidenceRequest.EvidenceID req)
          = Some e'
        /\ Evidence.Status e' = "active"
        /\ Evidence.RequirementIDs e' = CreateEvidenceRequest.RequirementIDs req)
  /\ requirements (db w') = requirements (db w).
Proof.
  intros Hc Hd He Horg Hid w'. subst w'.
  rewrite (handleCreateEvidence_run ParseRFC3339 r claims req date e w Hc Hd He).
  cbn [fst snd].
  set (ev := Evidence.set_Status _ _).
  set (log := newAuditLog _ _ _ _ _ _ _ _ _).
  destruct (CreateAuditLog_frame log (snd (UpdateEvidence ev w)))
    as (_ & _ & Hr & Hev & _).
  destruct (UpdateEvidence_db ev w) as (Hev1 & Hr1 & _).
  rewrite Hr, Hev, Hr1, Hev1.
  split; [reflexivity|]. split; [|reflexivity].
  eexists. subst ev. cbn [Evidence.OrganizationID Evidence.ID
    Evidence.set_RequirementIDs Evidence.set_Description Evidence.set_Title
    Evidence.set_Status Evidence.set_Source Evidence.set_EvidenceDate].
  rewrite Horg, Hid, lookup_insert_eq. repeat split.
Qed.

Lemma handleCreateEvidence_counts_unchanged_witness :
  let w' := snd (handleCreateEvidence Sample.parse
                   (Sample.request Sample.claimsA EmptyString)
                   (Some Sample.completeUpload)
                   (Sample.world (Sample.db1 0 "uploading" []))) in
  (exists e', evidence (db w') !! ("org-a", "e1") = Some e'
              /\ Evidence.Status e' = "active"
              /\ Evidence.RequirementIDs e' = ["r1"])
  /\ requirements (db w') !! ("org-a", "r1") = Some (Sample.requirement "r1" 0 None).
Proof.
  destruct (handleCreateEvidence_counts_unchanged Sample.parse
              (Sample.request Sample.claimsA EmptyString) Sample.claimsA
              Sample.completeUpload Sample.t0
              (Sample.evidence1 "uploading" [])
              (Sample.world (Sample.db1 0 "uploading" []))
              eq_refl eq_refl eq_refl eq_refl eq_refl)
    as (_ & (e' & He' & Hst & Hids) & Hreq).
  split.
  - exists e'. split; [exact He' | split; [exact Hst | exact Hids]].
  - cbv zeta. rewrite Hreq. reflexivity.
Defined.

(** The sibling path: [CreateEvidence] does increment the counter of each
    requirement the new item names. *)
Lemma CreateEvidence_increments ev w rid :
  Requirement.EvidenceCount
    <$> requirements (db (snd (CreateEvidence ev w)))
          !! (Evidence.OrganizationID ev, rid)
  = (fun c => c + 1 * occurrences rid (Evidence.RequirementIDs ev))
    <$> (Requirement.EvidenceCount
           <$> requirements (db w) !! (Evidence.OrganizationID ev, rid)).
Proof.
  unfold CreateEvidence.
  unfold bind at 1. unfold bind at 1. unfold bind at 1. unfold bind at 1.
  cbn [uuid_New time_Now modify_db fst snd].
  unfold bind at 1. cbn [ret snd].
  change (forEach ?l _) with
    (adjustCounts 1 (Evidence.OrganizationID ev) (Evidence.RequirementIDs ev)).
  rewrite adjustCounts_count. reflexivity.
Qed.

End EvidenceLifecycle.


(* ===================================================================== *)
(** * Requirements                                                       *)
(* ===================================================================== *)

Section Requirements.

Import store api.

Lemma GetRequirement_run org id w :
  GetRequirement org id w =
  (match requirements (db w) !! (org, id) with
   | Some q => Ok q
   | None => Err (Errorf "failed to get requirement" errNotFound)
   end, w).
Proof.
  unfold GetRequirement, bind, get_db. cbn.
  destruct (requirements (db w) !! (org, id)); reflexivity.
Qed.

Lemma UpdateRequirement_db q w :
  requirements (db (snd (UpdateRequirement q w)))
  = <[(Requirement.OrganizationID q, Requirement.ID q) :=
        Requirement.set_UpdatedAt (clock w 0%nat) q]> (requirements (db w))
  /\ evidence (db (snd (UpdateRequirement q w))) = evidence (db w)
  /\ audit_logs (db (snd (UpdateRequirement q w))) = audit_logs (db w)
  /\ uuids (snd (UpdateRequirement q w)) = uuids w.
Proof. repeat split. Qed.

Lemma handleUpdateRequirement_run r claims req q w :
  Claims r = Some claims ->
  requirements (db w) !! (UserClaims.OrganizationID claims, URLParam r "requirementID")
    = Some q ->
  let q' := Requirement.set_UpdatedBy (UserClaims.UID claims)
              (Requirement.set_Notes (UpdateRequirementRequest.Notes req) q) in
  handleUpdateRequirement r (Some req) w =
  (mkResponse http.StatusOK
     (jsonRequirement (Requirement.set_UpdatedAt (clock w 0%nat) q')),
   snd (CreateAuditLog
          (newAuditLog r claims (UserClaims.OrganizationID claims)
             ActionRequirementUpdated "requirement" (Requirement.ID q)
             ("Updated requirement: " +:+ Requirement.Title q) [] [])
          (snd (UpdateRequirement q' w)))).
Proof.
  intros Hc Hq q'. unfold handleUpdateRequirement. rewrite Hc.
  unfold bind at 1. rewrite GetRequirement_run, Hq. reflexivity.
Qed.

(** C7 (what the code does). The update of an existing requirement stores
    the supplied notes and the caller as the updater, and nothing else of
    the request: whatever due date the request supplies, the stored next
    due date stays what it was, as do the template-derived fields and the
    evidence count. *)
Theorem handleUpdateRequirement_ignores_due_date r claims req q w :
  Claims r = Some claims ->
  requirements (db w) !! (UserClaims.OrganizationID claims, URLParam r "requirementID")
    = Some q ->
  Requirement.OrganizationID q = UserClaims.OrganizationID claims ->
  Requirement.ID q = URLParam r "requirementID" ->
  let w' := snd (handleUpdateRequirement r (Some req) w) in
  StatusCode (fst (handleUpdateRequirement r (Some req) w)) = http.StatusOK
  /\ requirements (db w')
       !! (UserClaims.OrganizationID claims, URLParam r "requirementID")
     = Some (Requirement.set_UpdatedAt (clock w 0%nat)
               (Requirement.set_UpdatedBy (UserClaims.UID claims)
                  (Requirement.set_Notes (UpdateRequirementRequest.Notes req) q)))
  /\ (forall q',
        requirements (db w')
          !! (UserClaims.OrganizationID claims, URLParam r "requirementID") = Some q' ->
        Requirement.Notes q' = UpdateRequirementRequest.Notes req
        /\ Requirement.NextDueDate q' = Requirement.NextDueDate q
        /\ Requirement.Title q' = Requirement.Title q
        /\ Requirement.Description q' = Requirement.Description q
        /\ Requirement.Category q' = Requirement.Category q
        /\ Requirement.Authority q' = Requirement.Authority q
        /\ Requirement.EvidenceTypes q' = Requirement.EvidenceTypes q
        /\ Requirement.Frequency q' = Requirement.Frequency q
        /\ Requirement.EvidenceCount q' = Requirement.EvidenceCount q).
Proof.
  intros Hc Hq Horg Hid w'. subst w'.
  rewrite (handleUpdateRequirement_run r claims req q w Hc Hq). cbn [fst snd].
  set (q1 := Requirement.set_UpdatedBy _ _).
  set (log := newAuditLog _ _ _ _ _ _ _ _ _).
  destruct (CreateAuditLog_frame log (snd (UpdateRequirement q1 w)))
    as (_ & _ & Hr & _).
  destruct (UpdateRequirement_db q1 w) as (Hr1 & _).
  rewrite Hr, Hr1. subst q1.
  cbn [Requirement.OrganizationID Requirement.ID Requirement.set_UpdatedBy
       Requirement.set_Notes].
  rewrite Horg, Hid, lookup_insert_eq.
  split; [reflexivity|]. split; [reflexivity|].
  intros q' [= <-]. repeat split.
Qed.

Lemma handleUpdateRequirement_ignores_due_date_witness :
  let w' := snd (handleUpdateRequirement (Sample.request Sample.claimsA "r1")
                   (Some Sample.updateWithDueDate) (Sample.world Sample.db2)) in
  UpdateRequirementRequest.NextDueDate Sample.updateWithDueDate
    = Some "2024-01-01T00:00:00Z"
  /\ exists q', requirements (db w') !! ("org-a", "r1") = Some q'
                /\ Requirement.Notes q' = "reviewed"
                /\ Requirement.NextDueDate q' = None.
Proof.
  split; [reflexivity|].
  destruct (handleUpdateRequirement_ignores_due_date
              (Sample.request Sample.claimsA "r1") Sample.claimsA
              Sample.updateWithDueDate (Sample.requirement "r1" 0 None)
              (Sample.world Sample.db2) eq_refl eq_refl eq_refl eq_refl)
    as (_ & Hq' & Hfields).
  eexists. split; [exact Hq'|].
  destruct (Hfields _ Hq') as (Hn & Hd & _).
  split; [exact Hn | exact Hd].
Defined.

End Requirements.


(* ===================================================================== *)
(** * Users and seats                                                    *)
(* ===================================================================== *)

Section Users.

Import store api.

Lemma GetOrganization_run org w :
  GetOrganization org w =
  (match organizations (db w) !! org with
   | Some o => Ok o
   | None => Err (Errorf "failed to get organization" errNotFound)
   end, w).
Proof.
  unfold GetOrganization, bind, get_db. cbn.
  destruct (organizations (db w) !! org); reflexivity.
Qed.

Lemma GetUser_run uid w :
  GetUser uid w =
  (match users (db w) !! uid with
   | Some u => Ok u
   | None => Err (Errorf "failed to get user" errNotFound)
   end, w).
Proof.
  unfold GetUser, bind, get_db. cbn.
  destruct (users (db w) !! uid); reflexivity.
Qed.

Lemma filter_length_Permutation {A} (f : A -> bool) (l l' : list A) :
  l ≡ₚ l' -> length (List.filter f l) = length (List.filter f l').
Proof.
  induction 1 as [|x l l' _ IH|x y l|l l' l'' _ IH1 _ IH2]; cbn.
  - reflexivity.
  - destruct (f x); cbn; congruence.
  - destruct (f x), (f y); reflexivity.
  - congruence.
Qed.

(** The users [ListUsersByOrganization] returns are as many as the user
    documents whose [organization_id] is the organization's, whatever their
    status. *)
Lemma ListUsersByOrganization_length org (m : gmap string User.t) :
  length (List.filter (fun u => String.eqb (User.OrganizationID u) org)
            (snd <$> map_to_list m))
  = size (filter (fun kv : string * User.t => User.OrganizationID (snd kv) = org) m).
Proof.
  induction m as [|i x m Hi IH] using map_ind.
  - rewrite map_to_list_empty, map_filter_empty, map_size_empty. reflexivity.
  - rewrite (filter_length_Permutation _ _ (x :: (snd <$> map_to_list m))).
    2:{ rewrite map_to_list_insert by assumption. reflexivity. }
    cbn [List.filter].
    destruct (String.eqb_spec (User.OrganizationID x) org) as [He|Hne].
    + rewrite map_filter_insert_True by exact He.
      rewrite map_size_insert_None by (rewrite map_lookup_filter_None; auto).
      cbn. rewrite IH. reflexivity.
    + rewrite map_filter_insert_not' by (cbn; congruence).
      exact IH.
Qed.

Lemma handleInviteUser_run r claims req org w :
  Claims r = Some claims ->
  organizations (db w) !! UserClaims.OrganizationID claims = Some org ->
  let max := Subscription.MaxUsers (Organization.Subscription org) in
  let n := size (filter (fun kv : string * User.t =>
                           User.OrganizationID (snd kv) = UserClaims.OrganizationID claims)
                        (users (db w))) in
  handleInviteUser r (Some req) w =
  (if max <=? Z.of_nat n
   then mkResponse http.StatusForbidden
          (jsonError
             ("user limit reached. Please upgrade to add more users (current limit: "
                +:+ pretty max +:+ ")"))
   else mkResponse http.StatusOK
          (jsonMessage ("Invitation sent to " +:+ InviteUserRequest.Email req)),
   w).
Proof.
  intros Hc Ho max n. unfold handleInviteUser. rewrite Hc.
  unfold bind at 1. rewrite GetOrganization_run, Ho. cbn [fst snd].
  unfold bind at 1. unfold ListUsersByOrganization at 1 2.
  unfold bind at 1 2. cbn [get_db ret fst snd].
  rewrite ListUsersByOrganization_length. fold n. fold max.
  destruct (max <=? Z.of_nat n); reflexivity.
Qed.

(** C6 (what the code does). With [n] the number of user documents of the
    tenant, whatever their status, the removed ([inactive]) users
    included: an invitation when [max_users <= n] fails with a 403 whose
    message names the limit; an invitation when [n < max_users] succeeds;
    either way the database is left as it was, so that an invitation that
    was sent is not counted by a later one. *)
Theorem handleInviteUser_seat_limit r claims req org w :
  Claims r = Some claims ->
  organizations (db w) !! UserClaims.OrganizationID claims = Some org ->
  let max := Subscription.MaxUsers (Organization.Subscription org) in
  let n := Z.of_nat
             (size (filter (fun kv : string * User.t =>
                              User.OrganizationID (snd kv)
                              = UserClaims.OrganizationID claims)
                           (users (db w)))) in
  snd (handleInviteUser r (Some req) w) = w
  /\ (max <= n ->
      fst (handleInviteUser r (Some req) w)
      = mkResponse http.StatusForbidden
          (jsonError
             ("user limit reached. Please upgrade to add more users (current limit: "
                +:+ pretty max +:+ ")")))
  /\ (n < max ->
      fst (handleInviteUser r (Some req) w)
      = mkResponse http.StatusOK
          (jsonMessage ("Invitation sent to " +:+ InviteUserRequest.Email req))).
Proof.
  intros Hc Ho max n.
  rewrite (handleInviteUser_run r claims req org w Hc Ho). cbn [fst snd].
  fold max. fold n.
  split; [reflexivity|].
  destruct (Z.leb_spec max n); split; intros; try reflexivity; lia.
Qed.

Lemma handleInviteUser_seat_limit_witness :
  fst (handleInviteUser (Sample.request Sample.claimsB EmptyString) (Some Sample.invite)
         (Sample.world Sample.db3))
  = mkResponse http.StatusOK (jsonMessage "Invitation sent to new@acme.example")
  /\ fst (handleInviteUser (Sample.request Sample.claimsA EmptyString) (Some Sample.invite)
            (Sample.world Sample.db3))
     = mkResponse http.StatusForbidden
         (jsonError
            "user limit reached. Please upgrade to add more users (current limit: 2)").
Proof.
  split.
  - apply (proj2 (proj2 (handleInviteUser_seat_limit
                           (Sample.request Sample.claimsB EmptyString) Sample.claimsB
                           Sample.invite (Sample.organization "org-b" 10)
                           (Sample.world Sample.db3) eq_refl eq_refl))).
    vm_compute. reflexivity.
  - apply (proj1 (proj2 (handleInviteUser_seat_limit
                           (Sample.request Sample.claimsA EmptyString) Sample.claimsA
                           Sample.invite (Sample.organization "org-a" 2)
                           (Sample.world Sample.db3) eq_refl eq_refl))).
    vm_compute. discriminate.
Defined.

(** The failing input of C6: tenant [org-a] has a limit of 2 and one
    active user (the other user document is inactive), and the invitation
    is refused. *)
Lemma handleInviteUser_inactive_counterexample :
  let w := Sample.world Sample.db3 in
  Subscription.MaxUsers (Organization.Subscription (Sample.organization "org-a" 2)) = 2
  /\ List.filter (fun u => String.eqb (User.OrganizationID u) "org-a"
                           && String.eqb (User.Status u) "active")
       (snd <$> map_to_list (users (db w)))
     = [Sample.user "u-admin" "org-a" RoleAdmin "active"]
  /\ StatusCode (fst (handleInviteUser (Sample.request Sample.claimsA EmptyString)
                        (Some Sample.invite) w)) = http.StatusForbidden.
Proof. vm_compute. repeat split. Qed.

(** The same through the handlers: with a limit of 2 and two active users,
    the administrator removes one ("user deleted successfully", the
    document marked [inactive]), and the invitation that follows is still
    refused. *)
Lemma handleInviteUser_after_delete :
  let w0 := Sample.world Fixture.seats in
  let w1 := snd (handleDeleteUser Sample.authDeleteUser
                   (Sample.request Sample.claimsA "u-old") w0) in
  fst (handleDeleteUser Sample.authDeleteUser (Sample.request Sample.claimsA "u-old") w0)
  = mkResponse http.StatusOK (jsonMessage "user deleted successfully")
  /\ User.Status <$> users (db w1) !! "u-old" = Some "inactive"
  /\ fst (handleInviteUser (Sample.request Sample.claimsA EmptyString)
            (Some Sample.invite) w1)
     = mkResponse http.StatusForbidden
         (jsonError
            "user limit reached. Please upgrade to add more users (current limit: 2)").
Proof. vm_compute. repeat split. Qed.

End Users.


(* ===================================================================== *)
(** * The audit trail                                                    *)
(* ===================================================================== *)

Section AuditTrail.

Import store api.

(** The entry [CreateAuditLog] stores for [log] in world [w]. *)
Lemma CreateAuditLog_entry log w :
  audit_logs (db (snd (CreateAuditLog log w)))
  = <[(AuditLog.OrganizationID log, uuids w 0%nat) :=
        AuditLog.set_Timestamp (clock w 0%nat) (AuditLog.set_ID (uuids w 0%nat) log)]>
      (audit_logs (db w)).
Proof. reflexivity. Qed.

(** One entry under a fresh id is one more document. *)
Lemma audit_logs_one_more (logs : gmap (string * string) AuditLog.t) key entry :
  logs !! key = None -> size (<[key := entry]> logs) = S (size logs).
Proof. apply map_size_insert_None. Qed.

Lemma UpdateUser_db u w :
  users (db (snd (UpdateUser u w)))
  = <[User.UID u := User.set_UpdatedAt (clock w 0%nat) u]> (users (db w))
  /\ audit_logs (db (snd (UpdateUser u w))) = audit_logs (db w).
Proof. repeat split. Qed.

Lemma handleUpdateUserRole_run r claims req u w :
  Claims r = Some claims ->
  users (db w) !! URLParam r "userID" = Some u ->
  handleUpdateUserRole r (Some req) w =
  if negb (String.eqb (User.OrganizationID u) (UserClaims.OrganizationID claims))
  then (mkResponse http.StatusForbidden (jsonError "user not in your organization"), w)
  else (mkResponse http.StatusOK
          (jsonUser (User.set_UpdatedAt (clock w 0%nat)
                       (User.set_Role (UpdateUserRoleRequest.Role req) u))),
        snd (UpdateUser (User.set_Role (UpdateUserRoleRequest.Role req) u) w)).
Proof.
  intros Hc Hu. unfold handleUpdateUserRole. rewrite Hc.
  unfold bind at 1. rewrite GetUser_run, Hu. cbn [fst snd].
  destruct (negb _); reflexivity.
Qed.

Lemma handleDeleteUser_run authDeleteUser r claims u w :
  Claims r = Some claims ->
  URLParam r "userID" <> UserClaims.UID claims ->
  users (db w) !! URLParam r "userID" = Some u ->
  handleDeleteUser authDeleteUser r w =
  if negb (String.eqb (User.OrganizationID u) (UserClaims.OrganizationID claims))
  then (mkResponse http.StatusForbidden (jsonError "user not in your organization"), w)
  else match authDeleteUser (URLParam r "userID") with
       | Some _ =>
           (mkResponse http.StatusInternalServerError (jsonError "failed to delete user"), w)
       | None =>
           (mkResponse http.StatusOK (jsonMessage "user deleted successfully"),
            snd (UpdateUser (User.set_Status "inactive" u) w))
       end.
Proof.
  intros Hc Hself Hu. unfold handleDeleteUser. rewrite Hc.
  destruct (String.eqb_spec (URLParam r "userID") (UserClaims.UID claims));
    [contradiction|].
  unfold bind at 1. rewrite GetUser_run, Hu. cbn [fst snd].
  destruct (negb _); [reflexivity|].
  destruct (authDeleteUser _); reflexivity.
Qed.

Lemma handleUpdateProfile_run r claims req u w :
  Claims r = Some claims ->
  users (db w) !! UserClaims.UID claims = Some u ->
  handleUpdateProfile r (Some req) w =
  (mkResponse http.StatusOK
     (jsonUser (User.set_UpdatedAt (clock w 0%nat)
                  (User.set_FullName (UpdateProfileRequest.FullName req) u))),
   snd (UpdateUser (User.set_FullName (UpdateProfileRequest.FullName req) u) w)).
Proof.
  intros Hc Hu. unfold handleUpdateProfile. rewrite Hc.
  unfold bind at 1. rewrite GetUser_run, Hu. reflexivity.
Qed.

(** C4 (what the code does). The role change, the deletion of a user and
    the profile update succeed, write the user document, and leave the
    audit log as it was: none of the three produces an audit entry. *)
Theorem user_changes_not_audited authDeleteUser r claims u w :
  Claims r = Some claims ->
  URLParam r "userID" <> UserClaims.UID claims ->
  users (db w) !! URLParam r "userID" = Some u ->
  User.OrganizationID u = UserClaims.OrganizationID claims ->
  User.UID u = URLParam r "userID" ->
  authDeleteUser (URLParam r "userID") = None ->
  (forall req,
     let res := handleUpdateUserRole r (Some req) w in
     StatusCode (fst res) = http.StatusOK
     /\ (exists u', users (db (snd res)) !! URLParam r "userID" = Some u'
                    /\ User.Role u' = UpdateUserRoleRequest.Role req)
     /\ audit_logs (db (snd res)) = audit_logs (db w))
  /\ (let res := handleDeleteUser authDeleteUser r w in
      StatusCode (fst res) = http.StatusOK
      /\ (exists u', users (db (snd res)) !! URLParam r "userID" = Some u'
                     /\ User.Status u' = "inactive")
      /\ audit_logs (db (snd res)) = audit_logs (db w))
  /\ (forall req me,
       users (db w) !! UserClaims.UID claims = Some me ->
       User.UID me = UserClaims.UID claims ->
       let res := handleUpdateProfile r (Some req) w in
       StatusCode (fst res) = http.StatusOK
       /\ (exists u', users (db (snd res)) !! UserClaims.UID claims = Some u'
                      /\ User.FullName u' = UpdateProfileRequest.FullName req)
       /\ audit_logs (db (snd res)) = audit_logs (db w)).
Proof.
  intros Hc Hself Hu Horg Huid Hauth.
  assert (Hsame : negb (String.eqb (User.OrganizationID u)
                          (UserClaims.OrganizationID claims)) = false).
  { rewrite Horg, String.eqb_refl. reflexivity. }
  split; [|split].
  - intros req res. subst res.
    rewrite (handleUpdateUserRole_run r claims req u w Hc Hu), Hsame. cbn [fst snd].
    destruct (UpdateUser_db (User.set_Role (UpdateUserRoleRequest.Role req) u) w)
      as [Hus Hlog].
    rewrite Hus, Hlog. cbn [User.UID User.set_Role]. rewrite Huid, lookup_insert_eq.
    split; [reflexivity|]. split; [|reflexivity].
    eexists. split; reflexivity.
  - intros res. subst res.
    rewrite (handleDeleteUser_run authDeleteUser r claims u w Hc Hself Hu), Hsame, Hauth.
    cbn [fst snd].
    destruct (UpdateUser_db (User.set_Status "inactive" u) w) as [Hus Hlog].
    rewrite Hus, Hlog. cbn [User.UID User.set_Status]. rewrite Huid, lookup_insert_eq.
    split; [reflexivity|]. split; [|reflexivity].
    eexists. split; reflexivity.
  - intros req me Hme Hmeid res. subst res.
    rewrite (handleUpdateProfile_run r claims req me w Hc Hme). cbn [fst snd].
    destruct (UpdateUser_db (User.set_FullName (UpdateProfileRequest.FullName req) me) w)
      as [Hus Hlog].
    rewrite Hus, Hlog. cbn [User.UID User.set_FullName].
    rewrite Hmeid, lookup_insert_eq.
    split; [reflexivity|]. split; [|reflexivity].
    eexists. split; reflexivity.
Qed.

Lemma user_changes_not_audited_witness :
  let r := Sample.request Sample.claimsA "u-old" in
  let res := handleUpdateUserRole r (Some (UpdateUserRoleRequest.mk RoleComplianceOfficer))
               (Sample.world Sample.db3) in
  StatusCode (fst res) = http.StatusOK
  /\ (exists u', users (db (snd res)) !! "u-old" = Some u'
                 /\ User.Role u' = RoleComplianceOfficer)
  /\ audit_logs (db (snd res)) = ∅.
Proof.
  exact (proj1 (user_changes_not_audited Sample.authDeleteUser
                  (Sample.request Sample.claimsA "u-old") Sample.claimsA
                  (Sample.user "u-old" "org-a" RoleViewer "inactive")
                  (Sample.world Sample.db3)
                  eq_refl ltac:(discriminate) eq_refl eq_refl eq_refl eq_refl)
           (UpdateUserRoleRequest.mk RoleComplianceOfficer)).
Defined.

(** The sibling paths.  Each of the following handlers, on its success
    path, stores exactly one audit entry, under the next uuid, with the
    action and the resource of the operation. *)

Lemma handleUpdateEvidence_audited r claims req e w :
  Claims r = Some claims ->
  evidence (db w) !! (UserClaims.OrganizationID claims, URLParam r "evidenceID")
    = Some e ->
  exists entry,
    audit_logs (db (snd (handleUpdateEvidence r (Some req) w)))
    = <[(UserClaims.OrganizationID claims, uuids w 0%nat) := entry]> (audit_logs (db w))
    /\ AuditLog.Action entry = ActionEvidenceUpdated
    /\ AuditLog.ResourceType entry = "evidence"
    /\ AuditLog.ResourceID entry = Evidence.ID e.
Proof.
  intros Hc He.
  rewrite (handleUpdateEvidence_run r claims req e w Hc He). cbn [fst snd].
  rewrite CreateAuditLog_entry. eexists. split; [reflexivity|]. repeat split.
Qed.

Lemma handleCreateEvidence_audited ParseRFC3339 r claims req date e w :
  Claims r = Some claims ->
  ParseRFC3339 (CreateEvidenceRequest.EvidenceDate req) = Some date ->
  evidence (db w)
    !! (UserClaims.OrganizationID claims, CreateEvidenceRequest.EvidenceID req)
    = Some e ->
  exists entry,
    audit_logs (db (snd (handleCreateEvidence ParseRFC3339 r (Some req) w)))
    = <[(UserClaims.OrganizationID claims, uuids w 0%nat) := entry]> (audit_logs (db w))
    /\ AuditLog.Action entry = ActionEvidenceCreated
    /\ AuditLog.ResourceType entry = "evidence"
    /\ AuditLog.ResourceID entry = Evidence.ID e.
Proof.
  intros Hc Hd He.
  rewrite (handleCreateEvidence_run ParseRFC3339 r claims req date e w Hc Hd He).
  cbn [fst snd].
  rewrite CreateAuditLog_entry. eexists. split; [reflexivity|]. repeat split.
Qed.

Lemma handleDeleteEvidence_audited r claims e w :
  Claims r = Some claims ->
  evidence (db w) !! (UserClaims.OrganizationID claims, URLParam r "evidenceID")
    = Some e ->
  exists entry,
    audit_logs (db (snd (handleDeleteEvidence r w)))
    = <[(UserClaims.OrganizationID claims, uuids w 0%nat) := entry]> (audit_logs (db w))
    /\ AuditLog.Action entry = ActionEvidenceDeleted
    /\ AuditLog.ResourceType entry = "evidence"
    /\ AuditLog.ResourceID entry = Evidence.ID e.
Proof.
  intros Hc He.
  rewrite (handleDeleteEvidence_run r claims e w Hc He). cbn [fst snd].
  rewrite CreateAuditLog_entry.
  set (w1 := with_db _ (advance_clock w)).
  destruct (adjustCounts_frame (-1) (UserClaims.OrganizationID claims)
              (Evidence.RequirementIDs e) w1) as [(_ & _ & _ & Hlog & _) Hid].
  rewrite Hlog, Hid. eexists. split; [reflexivity|]. repeat split.
Qed.

Lemma handleUpdateRequirement_audited r claims req q w :
  Claims r = Some claims ->
  requirements (db w) !! (UserClaims.OrganizationID claims, URLParam r "requirementID")
    = Some q ->
  exists entry,
    audit_logs (db (snd (handleUpdateRequirement r (Some req) w)))
    = <[(UserClaims.OrganizationID claims, uuids w 0%nat) := entry]> (audit_logs (db w))
    /\ AuditLog.Action entry = ActionRequirementUpdated
    /\ AuditLog.ResourceType entry = "requirement"
    /\ AuditLog.ResourceID entry = Requirement.ID q.
Proof.
  intros Hc Hq.
  rewrite (handleUpdateRequirement_run r claims req q w Hc Hq). cbn [fst snd].
  rewrite CreateAuditLog_entry. eexists. split; [reflexivity|]. repeat split.
Qed.

Lemma handleDeactivateRequirement_audited r claims q w :
  Claims r = Some claims ->
  requirements (db w) !! (UserClaims.OrganizationID claims, URLParam r "requirementID")
    = Some q ->
  exists entry,
    audit_logs (db (snd (handleDeactivateRequirement r w)))
    = <[(UserClaims.OrganizationID claims, uuids w 0%nat) := entry]> (audit_logs (db w))
    /\ AuditLog.Action entry = ActionRequirementDeactivated
    /\ AuditLog.ResourceType entry = "requirement"
    /\ AuditLog.ResourceID entry = Requirement.ID q.
Proof.
  intros Hc Hq. unfold handleDeactivateRequirement. rewrite Hc.
  unfold bind at 1. rewrite GetRequirement_run, Hq. cbn [fst snd].
  unfold bind at 1. cbn [fst snd UpdateRequirement].
  eexists. split; [reflexivity|]. repeat split.
Qed.

Lemma GetRequirementTemplate_run id w :
  GetRequirementTemplate id w =
  (match requirement_templates (db w) !! id with
   | Some t => Ok t
   | None => Err (Errorf "failed to get requirement template" errNotFound)
   end, w).
Proof.
  unfold GetRequirementTemplate, bind, get_db. cbn.
  destruct (requirement_templates (db w) !! id); reflexivity.
Qed.

Lemma CreateRequirement_run q w :
  CreateRequirement q w =
  ((Requirement.mk (uuids w 0%nat) (Requirement.OrganizationID q)
      (Requirement.TemplateID q) (Requirement.Title q) (Requirement.Description q)
      (Requirement.Category q) (Requirement.Authority q) (Requirement.EvidenceTypes q)
      (Requirement.Frequency q) StatusNotStarted (Requirement.NextDueDate q)
      (Requirement.LastCompletedDate q) 0 (Requirement.Notes q) (clock w 0%nat)
      (Requirement.ActivatedBy q) (clock w 1%nat) (Requirement.UpdatedBy q) true,
    None),
   snd (CreateRequirement q w)).
Proof. reflexivity. Qed.

Lemma CreateRequirement_db q w :
  audit_logs (db (snd (CreateRequirement q w))) = audit_logs (db w)
  /\ uuids (snd (CreateRequirement q w)) 0%nat = uuids w 1%nat.
Proof. split; reflexivity. Qed.

Lemma handleCreateRequirement_audited r claims req t w :
  Claims r = Some claims ->
  requirement_templates (db w) !! CreateRequirementRequest.TemplateID req = Some t ->
  exists entry,
    audit_logs (db (snd (handleCreateRequirement r (Some req) w)))
    = <[(UserClaims.OrganizationID claims, uuids w 1%nat) := entry]> (audit_logs (db w))
    /\ AuditLog.Action entry = ActionRequirementActivated
    /\ AuditLog.ResourceType entry = "requirement"
    /\ AuditLog.ResourceID entry = uuids w 0%nat.
Proof.
  intros Hc Ht. unfold handleCreateRequirement. rewrite Hc.
  unfold bind at 1. rewrite GetRequirementTemplate_run, Ht. cbn [fst snd].
  unfold bind at 1. rewrite CreateRequirement_run. cbn [fst snd].
  unfold bind at 1. cbn [respondJSON ret snd].
  rewrite CreateAuditLog_entry.
  match goal with |- context [CreateRequirement ?q w] =>
    destruct (CreateRequirement_db q w) as [Hlog Hid]; rewrite Hlog, Hid end.
  eexists. split; [reflexivity|]. repeat split.
Qed.

Lemma handleUpdateOrganization_audited r claims req o w :
  Claims r = Some claims ->
  organizations (db w) !! UserClaims.OrganizationID claims = Some o ->
  exists entry,
    audit_logs (db (snd (handleUpdateOrganization r (Some req) w)))
    = <[(Organization.ID o, uuids w 0%nat) := entry]> (audit_logs (db w))
    /\ AuditLog.Action entry = ActionOrgUpdated
    /\ AuditLog.ResourceType entry = "organization"
    /\ AuditLog.ResourceID entry = Organization.ID o.
Proof.
  intros Hc Ho. unfold handleUpdateOrganization. rewrite Hc.
  unfold bind at 1. rewrite GetOrganization_run, Ho. cbn [fst snd].
  eexists. split; [reflexivity|]. repeat split.
Qed.

Lemma handleGenerateReport_audited r claims req w :
  Claims r = Some claims ->
  GenerateReportRequest.Type_ req = "requirement_detail"
  \/ GenerateReportRequest.Type_ req = "comprehensive" ->
  exists entry,
    audit_logs (db (snd (handleGenerateReport r (Some req) w)))
    = <[(UserClaims.OrganizationID claims, uuids w 1%nat) := entry]> (audit_logs (db w))
    /\ AuditLog.Action entry = ActionReportGenerated
    /\ AuditLog.ResourceType entry = "report"
    /\ AuditLog.ResourceID entry = uuids w 0%nat.
Proof.
  intros Hc Ht. unfold handleGenerateReport. rewrite Hc.
  assert (Hv : negb (String.eqb (GenerateReportRequest.Type_ req) "requirement_detail")
               && negb (String.eqb (GenerateReportRequest.Type_ req) "comprehensive")
               = false).
  { destruct Ht as [-> | ->]; reflexivity. }
  rewrite Hv. eexists. split; [reflexivity|]. repeat split.
Qed.

End AuditTrail.


(* ===================================================================== *)
(** * Tenant isolation                                                   *)
(* ===================================================================== *)

Section TenantIsolation.

Import store api.

Lemma GetReport_run org id w :
  GetReport org id w =
  (match reports (db w) !! (org, id) with
   | Some p => Ok p
   | None => Err (Errorf "failed to get report" errNotFound)
   end, w).
Proof.
  unfold GetReport, bind, get_db. cbn.
  destruct (reports (db w) !! (org, id)); reflexivity.
Qed.

(** Every handler that takes an evidence id answers 404 and changes
    nothing when the caller's organization has no document under the id. *)
Lemma evidence_not_found StorageBucket SignedURL r claims w :
  Claims r = Some claims ->
  evidence (db w) !! (UserClaims.OrganizationID claims, URLParam r "evidenceID") = None ->
  handleGetEvidence r w = (evidenceNotFound, w)
  /\ (forall req, handleUpdateEvidence r (Some req) w = (evidenceNotFound, w))
  /\ handleDeleteEvidence r w = (evidenceNotFound, w)
  /\ handleGenerateDownloadURL StorageBucket SignedURL r w = (evidenceNotFound, w).
Proof.
  intros Hc He. repeat split; intros;
    unfold handleGetEvidence, handleUpdateEvidence, handleDeleteEvidence,
      handleGenerateDownloadURL;
    rewrite Hc; unfold bind at 1; rewrite GetEvidence_run, He; reflexivity.
Qed.

Lemma handleCreateEvidence_not_found ParseRFC3339 r claims req date w :
  Claims r = Some claims ->
  ParseRFC3339 (CreateEvidenceRequest.EvidenceDate req) = Some date ->
  evidence (db w)
    !! (UserClaims.OrganizationID claims, CreateEvidenceRequest.EvidenceID req) = None ->
  handleCreateEvidence ParseRFC3339 r (Some req) w = (evidenceNotFound, w).
Proof.
  intros Hc Hd He. unfold handleCreateEvidence. rewrite Hc, Hd.
  unfold bind at 1. rewrite GetEvidence_run, He. reflexivity.
Qed.

Lemma requirement_not_found r claims w :
  Claims r = Some claims ->
  requirements (db w) !! (UserClaims.OrganizationID claims, URLParam r "requirementID")
    = None ->
  handleGetRequirement r w = (requirementNotFound, w)
  /\ (forall req, handleUpdateRequirement r (Some req) w = (requirementNotFound, w))
  /\ handleDeactivateRequirement r w = (requirementNotFound, w).
Proof.
  intros Hc Hq. repeat split; intros;
    unfold handleGetRequirement, handleUpdateRequirement, handleDeactivateRequirement;
    rewrite Hc; unfold bind at 1; rewrite GetRequirement_run, Hq; reflexivity.
Qed.

Lemma report_not_found StorageBucket SignedURL r claims w :
  Claims r = Some claims ->
  reports (db w) !! (UserClaims.OrganizationID claims, URLParam r "reportID") = None ->
  handleGetReport r w = (reportNotFound, w)
  /\ handleGetReportDownloadURL StorageBucket SignedURL r w = (reportNotFound, w).
Proof.
  intros Hc Hp. repeat split;
    unfold handleGetReport, handleGetReportDownloadURL;
    rewrite Hc; unfold bind at 1; rewrite GetReport_run, Hp; reflexivity.
Qed.

Lemma user_not_found authDeleteUser r claims w :
  Claims r = Some claims ->
  URLParam r "userID" <> UserClaims.UID claims ->
  users (db w) !! URLParam r "userID" = None ->
  (forall req, handleUpdateUserRole r (Some req) w = (userNotFound, w))
  /\ handleDeleteUser authDeleteUser r w = (userNotFound, w).
Proof.
  intros Hc Hself Hu. split; intros.
  - unfold handleUpdateUserRole. rewrite Hc.
    unfold bind at 1. rewrite GetUser_run, Hu. reflexivity.
  - unfold handleDeleteUser. rewrite Hc.
    destruct (String.eqb_spec (URLParam r "userID") (UserClaims.UID claims));
      [contradiction|].
    unfold bind at 1. rewrite GetUser_run, Hu. reflexivity.
Qed.

(** C3 (as amended). A request of tenant [B] that names an evidence item,
    a requirement or a report created under another tenant, so that [B]
    itself holds no document under the id, is answered 404 and changes
    nothing; the answer depends on nothing the other tenants hold, and so
    is the answer to an id that does not exist at all.  A role change or a
    deletion that names a user of another tenant is answered 403 "user not
    in your organization" and changes nothing, where a user id that does
    not exist is answered 404 "user not found". *)
Theorem tenant_isolation StorageBucket SignedURL ParseRFC3339 authDeleteUser r claims w :
  Claims r = Some claims ->
  let B := UserClaims.OrganizationID claims in
  (evidence (db w) !! (B, URLParam r "evidenceID") = None ->
     handleGetEvidence r w = (evidenceNotFound, w)
     /\ (forall req, handleUpdateEvidence r (Some req) w = (evidenceNotFound, w))
     /\ handleDeleteEvidence r w = (evidenceNotFound, w)
     /\ handleGenerateDownloadURL StorageBucket SignedURL r w = (evidenceNotFound, w))
  /\ (forall req date,
        ParseRFC3339 (CreateEvidenceRequest.EvidenceDate req) = Some date ->
        evidence (db w) !! (B, CreateEvidenceRequest.EvidenceID req) = None ->
        handleCreateEvidence ParseRFC3339 r (Some req) w = (evidenceNotFound, w))
  /\ (requirements (db w) !! (B, URLParam r "requirementID") = None ->
        handleGetRequirement r w = (requirementNotFound, w)
        /\ (forall req, handleUpdateRequirement r (Some req) w = (requirementNotFound, w))
        /\ handleDeactivateRequirement r w = (requirementNotFound, w))
  /\ (reports (db w) !! (B, URLParam r "reportID") = None ->
        handleGetReport r w = (reportNotFound, w)
        /\ handleGetReportDownloadURL StorageBucket SignedURL r w = (reportNotFound, w))
  /\ (forall u,
        users (db w) !! URLParam r "userID" = Some u ->
        User.OrganizationID u <> B ->
        URLParam r "userID" <> UserClaims.UID claims ->
        (forall req, handleUpdateUserRole r (Some req) w = (userForbidden, w))
        /\ handleDeleteUser authDeleteUser r w = (userForbidden, w))
  /\ (users (db w) !! URLParam r "userID" = None ->
        URLParam r "userID" <> UserClaims.UID claims ->
        (forall req, handleUpdateUserRole r (Some req) w = (userNotFound, w))
        /\ handleDeleteUser authDeleteUser r w = (userNotFound, w)).
Proof.
  intros Hc B. subst B.
  split; [intros; eapply evidence_not_found; eassumption|].
  split; [intros; eapply handleCreateEvidence_not_found; eassumption|].
  split; [intros; eapply requirement_not_found; eassumption|].
  split; [intros; eapply report_not_found; eassumption|].
  split; [|intros; eapply user_not_found; eassumption].
  intros u Hu Hne Hself.
  assert (Hother : negb (String.eqb (User.OrganizationID u)
                           (UserClaims.OrganizationID claims)) = true).
  { destruct (String.eqb_spec (User.OrganizationID u) (UserClaims.OrganizationID claims));
      [contradiction | reflexivity]. }
  split.
  - intros req. rewrite (handleUpdateUserRole_run r claims req u w Hc Hu), Hother.
    reflexivity.
  - rewrite (handleDeleteUser_run authDeleteUser r claims u w Hc Hself Hu), Hother.
    reflexivity.
Qed.

Lemma tenant_isolation_witness :
  let w := Sample.world Sample.db4 in
  handleGetEvidence (Sample.request Sample.claimsB "e1") w = (evidenceNotFound, w)
  /\ handleGetEvidence (Sample.request Sample.claimsB "no-such-id") w
     = (evidenceNotFound, w)
  /\ handleDeactivateRequirement (Sample.request Sample.claimsB "r1") w
     = (requirementNotFound, w)
  /\ handleGetReport (Sample.request Sample.claimsB "p1") w = (reportNotFound, w).
Proof.
  pose proof (fun id => tenant_isolation "bucket" (fun _ _ _ _ _ => Err errNotFound)
                Sample.parse Sample.authDeleteUser
                (Sample.request Sample.claimsB id) Sample.claimsB
                (Sample.world Sample.db4) eq_refl) as H.
  split; [|split; [|split]].
  - exact (proj1 (proj1 (H "e1") eq_refl)).
  - exact (proj1 (proj1 (H "no-such-id") eq_refl)).
  - destruct (H "r1") as (_ & _ & Hq & _).
    exact (proj2 (proj2 (Hq eq_refl))).
  - destruct (H "p1") as (_ & _ & _ & Hp & _).
    exact (proj1 (Hp eq_refl)).
Defined.

(** C3 (as stated) fails for users: with the credentials of tenant
    [org-b], a role change or a deletion aimed at [u-old], a user of
    [org-a], is answered 403, and the same request for an id that does not
    exist is answered 404. *)
Lemma tenant_isolation_users_counterexample :
  let w := Sample.world Sample.db4 in
  let body := Some (UpdateUserRoleRequest.mk RoleViewer) in
  (User.OrganizationID <$> users (db w) !! "u-old" = Some "org-a"
   /\ UserClaims.OrganizationID Sample.claimsB = "org-b"
   /\ users (db w) !! "no-such-id" = None)
  /\ fst (handleUpdateUserRole (Sample.request Sample.claimsB "u-old") body w)
     = userForbidden
  /\ fst (handleUpdateUserRole (Sample.request Sample.claimsB "no-such-id") body w)
     = userNotFound
  /\ fst (handleDeleteUser Sample.authDeleteUser (Sample.request Sample.claimsB "u-old") w)
     = userForbidden
  /\ fst (handleDeleteUser Sample.authDeleteUser
            (Sample.request Sample.claimsB "no-such-id") w)
     = userNotFound
  /\ userForbidden <> userNotFound.
Proof.
  vm_compute. repeat split; discriminate.
Qed.

End TenantIsolation.


(* ===================================================================== *)
(** * Invariants of the handlers                                         *)
(* ===================================================================== *)

Section KeepsRules.

Import store.

Context {I : World -> World -> Prop}.

(** The relation looks at the database only. *)
Hypothesis I_db : forall w0 w w', db w' = db w -> I w0 w -> I w0 w'.

Lemma keeps_ret {A} (a : A) (Q : A -> Prop) : Q a -> keeps I (ret a) Q.
Proof. intros Ha w0 w Hw. split; [exact Hw | exact Ha]. Qed.

Lemma keeps_bind {A B} (m : M A) (k : A -> M B) (Q : A -> Prop) (R : B -> Prop) :
  keeps I m Q -> (forall a, Q a -> keeps I (k a) R) -> keeps I (bind m k) R.
Proof.
  intros Hm Hk w0 w Hw. unfold bind.
  destruct (Hm w0 w Hw) as [Hw' Ha].
  exact (Hk _ Ha w0 _ Hw').
Qed.

Lemma keeps_weaken {A} (m : M A) (Q Q' : A -> Prop) :
  (forall a, Q a -> Q' a) -> keeps I m Q -> keeps I m Q'.
Proof.
  intros HQ Hm w0 w Hw. destruct (Hm w0 w Hw) as [Hw' Ha]. split; auto.
Qed.

(** A computation that leaves the database alone. *)
Lemma keeps_same_db {A} (m : M A) (Q : A -> Prop) :
  (forall w, db (snd (m w)) = db w) ->
  (forall w0 w, I w0 w -> Q (fst (m w))) ->
  keeps I m Q.
Proof.
  intros Hdb HQ w0 w Hw. split; [|eauto].
  apply (I_db w0 w); [apply Hdb | exact Hw].
Qed.

Lemma keeps_time_Now : keeps I time_Now (fun _ => True).
Proof. apply keeps_same_db; [reflexivity | auto]. Qed.

Lemma keeps_uuid_New : keeps I uuid_New (fun _ => True).
Proof. apply keeps_same_db; [reflexivity | auto]. Qed.

Lemma keeps_forEach {A} (l : list A) (f : A -> M unit) :
  (forall x, keeps I (f x) (fun _ => True)) -> keeps I (forEach l f) (fun _ => True).
Proof.
  intros Hf. induction l as [|x l IH]; cbn [forEach].
  - apply keeps_ret. exact Logic.I.
  - eapply keeps_bind; [apply Hf | intros _ _; exact IH].
Qed.

End KeepsRules.

(** Tactics of the invariant proofs. *)

Ltac inv_goal :=
  split; cbn; repeat split;
  unfold store.set_organizations, store.set_users, store.set_requirements,
    store.set_evidence, store.set_audit_logs, store.set_reports;
  cbn [store.organizations store.users store.requirements store.evidence
       store.audit_logs store.reports store.requirement_templates];
  try assumption.

Ltac split_inv :=
  intros w0 w [(Ho & Hu & Hrq & Hev & Hlog & Hrep) (Ho' & Hrq' & Hev' & Hlog' & Hrep' & Ht')].

Ltac side :=
  first
    [ assumption
    | reflexivity
    | cbn; first [ assumption | reflexivity | congruence ]
    | cbn in *; first [ assumption | reflexivity | congruence | intuition congruence ] ].

Ltac use_result :=
  repeat match goal with
    | H : forall x, store.Ok ?a = store.Ok x -> @?P x |- _ => specialize (H _ eq_refl)
    | H : forall x, Some ?a = Some x -> @?P x |- _ => specialize (H _ eq_refl)
    | H : forall x, store.Err _ = store.Ok x -> @?P x |- _ => clear H
    | H : forall x, None = Some x -> @?P x |- _ => clear H
    | H : forall c, api.Claims ?r = Some c -> @?P c, E : api.Claims ?r = Some ?c |- _ =>
        specialize (H c E)
    | H : _ /\ _ |- _ => destruct H
    | H : True |- _ => clear H
    end.

Ltac keeps_go prim :=
  repeat (cbv zeta; use_result;
    match goal with
    | |- keeps _ (store.ret _) _ => apply keeps_ret; exact Logic.I
    | |- keeps _ (store.bind _ _) _ => eapply keeps_bind; [prim | intros ? ?]
    | |- keeps _ (match ?x with _ => _ end) _ => destruct x eqn:?
    end).

Ltac open_handler :=
  unfold api.requireAdmin, api.requireWrite, api.requireAdminReply,
    api.requireWriteReply, api.reply, api.respondError, api.respondJSON,
    api.replyError, api.replyJSON.

Section TenantWrites.

Import store api.

Lemma keyed_insert {K V} `{Countable K} (key : V -> K) (m : gmap K V) (x : V) :
  keyed key m -> keyed key (<[key x := x]> m).
Proof.
  intros Hm k v Hk. apply lookup_insert_Some in Hk as [[<- <-]|[_ Hk]]; eauto.
Qed.

Lemma keyed_replace {K V} `{Countable K} (key : V -> K) (m : gmap K V) k (v x : V) :
  keyed key m -> m !! k = Some v -> key x = key v -> keyed key (<[k := x]> m).
Proof.
  intros Hm Hk Hx. rewrite (Hm k v Hk), <- Hx. apply keyed_insert, Hm.
Qed.

Lemma same_off_insert {V} (B : string) (m0 m : gmap (string * string) V) (id : string) (x : V) :
  same_off B m0 m -> same_off B m0 (<[(B, id) := x]> m).
Proof.
  intros Hm A id' Hne. rewrite lookup_insert_ne by congruence. apply Hm, Hne.
Qed.

Lemma tenant_inv_db (B : string) w0 w w' : db w' = db w -> tenant_inv B w0 w -> tenant_inv B w0 w'.
Proof. unfold tenant_inv. intros ->. auto. Qed.

(** The reads return documents whose fields name the key they were read
    under. *)
Lemma GetEvidence_keeps (B : string) org id :
  keeps (tenant_inv B) (GetEvidence org id)
    (fun res => forall e, res = Ok e ->
       Evidence.OrganizationID e = org /\ Evidence.ID e = id).
Proof.
  apply (keeps_same_db (tenant_inv_db B)).
  - intros w. rewrite GetEvidence_run. reflexivity.
  - intros w0 w [(_ & _ & _ & Hev & _) _] e. rewrite GetEvidence_run. cbn.
    destruct (evidence (db w) !! (org, id)) as [e'|] eqn:He; [|discriminate].
    intros [= ->]. specialize (Hev _ _ He). injection Hev as -> ->. auto.
Qed.

Lemma GetRequirement_keeps (B : string) org id :
  keeps (tenant_inv B) (GetRequirement org id)
    (fun res => forall q, res = Ok q ->
       Requirement.OrganizationID q = org /\ Requirement.ID q = id).
Proof.
  apply (keeps_same_db (tenant_inv_db B)).
  - intros w. rewrite GetRequirement_run. reflexivity.
  - intros w0 w [(_ & _ & Hrq & _) _] q. rewrite GetRequirement_run. cbn.
    destruct (requirements (db w) !! (org, id)) as [q'|] eqn:Hq; [|discriminate].
    intros [= ->]. specialize (Hrq _ _ Hq). injection Hrq as -> ->. auto.
Qed.

Lemma GetOrganization_keeps (B : string) org :
  keeps (tenant_inv B) (GetOrganization org)
    (fun res => forall o, res = Ok o -> Organization.ID o = org).
Proof.
  apply (keeps_same_db (tenant_inv_db B)).
  - intros w. rewrite GetOrganization_run. reflexivity.
  - intros w0 w [(Ho & _) _] o. rewrite GetOrganization_run. cbn.
    destruct (organizations (db w) !! org) as [o'|] eqn:Hl; [|discriminate].
    intros [= ->]. symmetry. exact (Ho _ _ Hl).
Qed.

(** A computation that only reads. *)
Lemma reads_keep {A} (B : string) (m : M A) :
  (forall w, snd (m w) = w) -> keeps (tenant_inv B) m (fun _ => True).
Proof.
  intros Hm. apply (keeps_same_db (tenant_inv_db B)); [|auto].
  intros w. rewrite Hm. reflexivity.
Qed.

Lemma UpdateEvidence_keeps (B : string) ev :
  Evidence.OrganizationID ev = B ->
  keeps (tenant_inv B) (UpdateEvidence ev)
    (fun p => Evidence.ID (fst p) = Evidence.ID ev /\ snd p = None).
Proof.
  intros HB. split_inv. split; [|split; reflexivity].
  inv_goal.
  - apply (keyed_insert (fun e => (Evidence.OrganizationID e, Evidence.ID e))
             _ (Evidence.set_UpdatedAt (clock w 0%nat) ev)), Hev.
  - rewrite HB. apply same_off_insert, Hev'.
Qed.

Lemma addRequirementEvidenceCount_keeps (B : string) n reqID :
  keeps (tenant_inv B) (addRequirementEvidenceCount n B reqID) (fun _ => True).
Proof.
  split_inv. rewrite addRequirementEvidenceCount_run.
  destruct (requirements (db w) !! (B, reqID)) as [q|] eqn:Hq;
    (split; [|exact Logic.I]).
  - inv_goal.
    + eapply (keyed_replace _ _ _ q); [exact Hrq | exact Hq | reflexivity].
    + apply same_off_insert, Hrq'.
  - split; cbn; repeat split; assumption.
Qed.

Lemma adjustCounts_keeps (B : string) n ids :
  keeps (tenant_inv B) (adjustCounts n B ids) (fun _ => True).
Proof.
  apply (keeps_forEach (I := tenant_inv B)). intros reqID.
  eapply keeps_bind; [apply addRequirementEvidenceCount_keeps|].
  intros _ _. apply keeps_ret. exact Logic.I.
Qed.

Lemma CreateEvidence_keeps (B : string) ev :
  Evidence.OrganizationID ev = B ->
  keeps (tenant_inv B) (CreateEvidence ev) (fun p => snd p = None).
Proof.
  intros HB w0 w Hw.
  assert (Hstep : tenant_inv B w0
            (with_db (fun s =>
                        set_evidence
                          (<[(B, uuids w 0%nat) :=
                               Evidence.set_UpdatedAt (clock w 1%nat)
                                 (Evidence.set_CreatedAt (clock w 0%nat)
                                    (Evidence.set_ID (uuids w 0%nat) ev))]>
                             (evidence s)) s)
               (advance_clock (advance_clock (advance_uuids w))))).
  { revert Hw. unfold tenant_inv.
    intros [(Ho & Hu & Hrq & Hev & Hlog & Hrep) (Ho' & Hrq' & Hev' & Hlog' & Hrep' & Ht')].
    inv_goal.
    - rewrite <- HB.
      apply (keyed_insert (fun e => (Evidence.OrganizationID e, Evidence.ID e)) _
               (Evidence.set_UpdatedAt (clock w 1%nat)
                  (Evidence.set_CreatedAt (clock w 0%nat)
                     (Evidence.set_ID (uuids w 0%nat) ev)))), Hev.
    - apply same_off_insert, Hev'. }
  destruct (adjustCounts_keeps B 1 (Evidence.RequirementIDs ev) w0 _ Hstep) as [Hend _].
  split; [|reflexivity].
  revert Hend. unfold CreateEvidence, bind. cbn. rewrite HB. exact (fun H => H).
Qed.

Lemma DeleteEvidence_keeps (B : string) org id :
  org = B ->
  keeps (tenant_inv B) (DeleteEvidence org id) (fun _ => True).
Proof.
  intros -> w0 w Hw. split; [|exact Logic.I].
  destruct (evidence (db w) !! (B, id)) as [e|] eqn:He.
  - rewrite (DeleteEvidence_run B id e w He). cbn [snd].
    apply adjustCounts_keeps. revert Hw. unfold tenant_inv.
    intros [(Ho & Hu & Hrq & Hev & Hlog & Hrep) (Ho' & Hrq' & Hev' & Hlog' & Hrep' & Ht')].
    inv_goal.
    + eapply (keyed_replace _ _ _ e); [exact Hev | exact He | reflexivity].
    + apply same_off_insert, Hev'.
  - unfold DeleteEvidence, bind. rewrite GetEvidence_run, He. exact Hw.
Qed.

Lemma UpdateRequirement_keeps (B : string) q :
  Requirement.OrganizationID q = B ->
  keeps (tenant_inv B) (UpdateRequirement q)
    (fun p => Requirement.ID (fst p) = Requirement.ID q /\ snd p = None).
Proof.
  intros HB. split_inv. split; [|split; reflexivity].
  inv_goal.
  - apply (keyed_insert (fun q => (Requirement.OrganizationID q, Requirement.ID q))
             _ (Requirement.set_UpdatedAt (clock w 0%nat) q)), Hrq.
  - rewrite HB. apply same_off_insert, Hrq'.
Qed.

Lemma CreateRequirement_keeps (B : string) q :
  Requirement.OrganizationID q = B ->
  keeps (tenant_inv B) (CreateRequirement q) (fun p => snd p = None).
Proof.
  intros HB. split_inv. split; [|reflexivity].
  inv_goal.
  - match goal with |- keyed _ (<[_ := ?x]> _) =>
      apply (keyed_insert (fun q => (Requirement.OrganizationID q, Requirement.ID q)) _ x)
    end. exact Hrq.
  - rewrite HB. apply same_off_insert, Hrq'.
Qed.

Lemma CreateAuditLog_keeps (B : string) log :
  AuditLog.OrganizationID log = B ->
  keeps (tenant_inv B) (CreateAuditLog log) (fun _ => True).
Proof.
  intros HB. split_inv. split; [|exact Logic.I].
  inv_goal.
  - match goal with |- keyed _ (<[_ := ?x]> _) =>
      apply (keyed_insert (fun l => (AuditLog.OrganizationID l, AuditLog.ID l)) _ x)
    end. exact Hlog.
  - rewrite HB. apply same_off_insert, Hlog'.
Qed.

Lemma CreateReport_keeps (B : string) report :
  Report.OrganizationID report = B ->
  keeps (tenant_inv B) (CreateReport report) (fun p => snd p = None).
Proof.
  intros HB. split_inv. split; [|reflexivity].
  inv_goal.
  - match goal with |- keyed _ (<[_ := ?x]> _) =>
      apply (keyed_insert (fun p => (Report.OrganizationID p, Report.ID p)) _ x)
    end. exact Hrep.
  - rewrite HB. apply same_off_insert, Hrep'.
Qed.

Lemma UpdateOrganization_keeps (B : string) org :
  Organization.ID org = B ->
  keeps (tenant_inv B) (UpdateOrganization org)
    (fun p => Organization.ID (fst p) = Organization.ID org /\ snd p = None).
Proof.
  intros HB. split_inv. split; [|split; reflexivity].
  inv_goal.
  - apply (keyed_insert Organization.ID _
             (Organization.set_UpdatedAt (clock w 0%nat) org)), Ho.
  - intros A Hne. rewrite lookup_insert_ne by congruence. apply Ho', Hne.
Qed.

Lemma UpdateUser_keeps (B : string) user :
  keeps (tenant_inv B) (UpdateUser user) (fun p => snd p = None).
Proof.
  split_inv. split; [|reflexivity].
  inv_goal.
  apply (keyed_insert User.UID _ (User.set_UpdatedAt (clock w 0%nat) user)), Hu.
Qed.

Lemma UpdateLastLogin_keeps (B : string) uid :
  keeps (tenant_inv B) (UpdateLastLogin uid) (fun _ => True).
Proof.
  split_inv. split; [|exact Logic.I].
  unfold UpdateLastLogin, bind. cbn.
  destruct (users (db w) !! uid) as [u|] eqn:Hl; cbn.
  - inv_goal.
    eapply (keyed_replace _ _ _ u); [exact Hu | exact Hl | reflexivity].
  - split; repeat split; assumption.
Qed.

Lemma CalculateStatus_keeps (B : string) q :
  keeps (tenant_inv B) (api.CalculateStatus q) (fun _ => True).
Proof.
  apply (keeps_same_db (tenant_inv_db B)); [|auto].
  intros w. unfold api.CalculateStatus.
  destruct (Requirement.EvidenceCount q =? 0); [reflexivity|].
  destruct (Requirement.NextDueDate q); reflexivity.
Qed.

Lemma calculateAll_keeps (B : string) l :
  keeps (tenant_inv B) (calculateAll l) (fun _ => True).
Proof.
  induction l as [|q l IH]; cbn [calculateAll].
  - apply keeps_ret. exact Logic.I.
  - eapply keeps_bind; [apply CalculateStatus_keeps|]. intros st _.
    eapply keeps_bind; [exact IH|]. intros rest _. apply keeps_ret. exact Logic.I.
Qed.

End TenantWrites.

(** * Every handler keeps the keys and stays inside its tenant *)

Section TenantHandlers.

Import store api.

Variable StorageBucket : string.
Variable SignedURL : string -> string -> string -> time.Time -> string -> result string.
Variable ParseRFC3339 : string -> option time.Time.
Variable authDeleteUser : string -> error.
Variable VerifyIDToken : string -> result Token.t.
Variable authCreateUser : string -> string -> string -> result string.
Variable AddDate : time.Time -> Z -> Z -> Z -> time.Time.
Variable Atoi : string -> option Z.
Variable FormatRFC3339 : time.Time -> string.
Variable FormatDate : time.Time -> string.

Ltac tenant_prim B :=
  idtac; lazymatch goal with
  | |- keeps _ time_Now _ => apply (keeps_time_Now (tenant_inv_db B))
  | |- keeps _ uuid_New _ => apply (keeps_uuid_New (tenant_inv_db B))
  | |- keeps _ (GetEvidence _ _) _ => apply GetEvidence_keeps
  | |- keeps _ (GetRequirement _ _) _ => apply GetRequirement_keeps
  | |- keeps _ (GetOrganization _) _ => apply GetOrganization_keeps
  | |- keeps _ (api.CalculateStatus _) _ => apply CalculateStatus_keeps
  | |- keeps _ (calculateAll _) _ => apply calculateAll_keeps
  | |- keeps _ (DeleteEvidence _ _) _ => apply DeleteEvidence_keeps; side
  | |- keeps _ (UpdateLastLogin _) _ => apply UpdateLastLogin_keeps
  | |- keeps _ (UpdateUser _) _ => apply UpdateUser_keeps
  | |- keeps _ (UpdateEvidence _) _ => apply UpdateEvidence_keeps; side
  | |- keeps _ (CreateEvidence _) _ => apply CreateEvidence_keeps; side
  | |- keeps _ (UpdateRequirement _) _ => apply UpdateRequirement_keeps; side
  | |- keeps _ (CreateRequirement _) _ => apply CreateRequirement_keeps; side
  | |- keeps _ (CreateAuditLog _) _ => apply CreateAuditLog_keeps; side
  | |- keeps _ (CreateReport _) _ => apply CreateReport_keeps; side
  | |- keeps _ (UpdateOrganization _) _ => apply UpdateOrganization_keeps; side
  | |- _ => apply reads_keep; intros; reflexivity
  end.

Lemma GetUser_keeps (B : string) uid :
  keeps (tenant_inv B) (GetUser uid)
    (fun res => forall u, res = Ok u -> User.UID u = uid).
Proof.
  apply (keeps_same_db (tenant_inv_db B)).
  - intros w. rewrite GetUser_run. reflexivity.
  - intros w0 w [(_ & Hu & _) _] u. rewrite GetUser_run. cbn.
    destruct (users (db w) !! uid) as [u'|] eqn:Hl; [|discriminate].
    intros [= ->]. symmetry. exact (Hu _ _ Hl).
Qed.

Lemma GetReport_keeps (B : string) org id :
  keeps (tenant_inv B) (GetReport org id) (fun _ => True).
Proof. apply reads_keep. intros w. rewrite GetReport_run. reflexivity. Qed.

Lemma GetRequirementTemplate_keeps (B : string) id :
  keeps (tenant_inv B) (GetRequirementTemplate id) (fun _ => True).
Proof.
  apply reads_keep. intros w. rewrite GetRequirementTemplate_run. reflexivity.
Qed.

Lemma dashboardLoop_keeps (B : string) now soon l metrics :
  keeps (tenant_inv B) (dashboardLoop now soon l metrics) (fun _ => True).
Proof.
  revert metrics. induction l as [|q l IH]; intros metrics; cbn [dashboardLoop].
  - apply keeps_ret. exact Logic.I.
  - eapply keeps_bind; [apply CalculateStatus_keeps|]. intros st _. apply IH.
Qed.

Ltac tenant_all B :=
  idtac; lazymatch goal with
  | |- keeps _ (GetUser _) _ => apply GetUser_keeps
  | |- keeps _ (GetReport _ _) _ => apply GetReport_keeps
  | |- keeps _ (GetRequirementTemplate _) _ => apply GetRequirementTemplate_keeps
  | |- keeps _ (dashboardLoop _ _ _ _) _ => apply dashboardLoop_keeps
  | |- _ => tenant_prim B
  end.

Ltac tenant_handler B :=
  let HB := fresh "HB" in
  intros HB; open_handler; keeps_go ltac:(tenant_all B).

Section Handlers.

Context (B : string) (r : Request).
Hypothesis claims_of :
  forall c, Claims r = Some c -> UserClaims.OrganizationID c = B.

Local Abbreviation tenant m := (keeps (tenant_inv B) m (fun _ => True)).

Lemma handleGenerateUploadURL_keeps body :
  tenant (handleGenerateUploadURL StorageBucket SignedURL r body).
Proof. revert claims_of. unfold handleGenerateUploadURL. tenant_handler B. Qed.

Lemma handleCreateEvidence_keeps body :
  tenant (handleCreateEvidence ParseRFC3339 r body).
Proof. revert claims_of. unfold handleCreateEvidence. tenant_handler B. Qed.

Lemma handleListEvidence_keeps : tenant (handleListEvidence r).
Proof. revert claims_of. unfold handleListEvidence. tenant_handler B. Qed.

Lemma handleGetEvidence_keeps : tenant (handleGetEvidence r).
Proof. revert claims_of. unfold handleGetEvidence. tenant_handler B. Qed.

Lemma handleUpdateEvidence_keeps body : tenant (handleUpdateEvidence r body).
Proof. revert claims_of. unfold handleUpdateEvidence. tenant_handler B. Qed.

Lemma handleDeleteEvidence_keeps : tenant (handleDeleteEvidence r).
Proof. revert claims_of. unfold handleDeleteEvidence. tenant_handler B. Qed.

Lemma handleGenerateDownloadURL_keeps :
  tenant (handleGenerateDownloadURL StorageBucket SignedURL r).
Proof. revert claims_of. unfold handleGenerateDownloadURL. tenant_handler B. Qed.

Lemma handleCreateRequirement_keeps body : tenant (handleCreateRequirement r body).
Proof. revert claims_of. unfold handleCreateRequirement. tenant_handler B. Qed.

Lemma handleListRequirements_keeps : tenant (handleListRequirements r).
Proof. revert claims_of. unfold handleListRequirements. tenant_handler B. Qed.

Lemma handleGetRequirement_keeps : tenant (handleGetRequirement r).
Proof. revert claims_of. unfold handleGetRequirement. tenant_handler B. Qed.

Lemma handleUpdateRequirement_keeps body : tenant (handleUpdateRequirement r body).
Proof. revert claims_of. unfold handleUpdateRequirement. tenant_handler B. Qed.

Lemma handleDeactivateRequirement_keeps : tenant (handleDeactivateRequirement r).
Proof. revert claims_of. unfold handleDeactivateRequirement. tenant_handler B. Qed.

Lemma handleUpdateProfile_keeps body : tenant (handleUpdateProfile r body).
Proof. revert claims_of. unfold handleUpdateProfile. tenant_handler B. Qed.

Lemma handleUpdateOrganization_keeps body : tenant (handleUpdateOrganization r body).
Proof. revert claims_of. unfold handleUpdateOrganization. tenant_handler B. Qed.

Lemma handleInviteUser_keeps body : tenant (handleInviteUser r body).
Proof. revert claims_of. unfold handleInviteUser. tenant_handler B. Qed.

Lemma handleUpdateUserRole_keeps body : tenant (handleUpdateUserRole r body).
Proof. revert claims_of. unfold handleUpdateUserRole. tenant_handler B. Qed.

Lemma handleDeleteUser_keeps : tenant (handleDeleteUser authDeleteUser r).
Proof. revert claims_of. unfold handleDeleteUser. tenant_handler B. Qed.

Lemma handleGenerateReport_keeps body : tenant (handleGenerateReport r body).
Proof. revert claims_of. unfold handleGenerateReport. tenant_handler B. Qed.

Lemma handleGetReport_keeps : tenant (handleGetReport r).
Proof. revert claims_of. unfold handleGetReport. tenant_handler B. Qed.

Lemma handleGetReportDownloadURL_keeps :
  tenant (handleGetReportDownloadURL StorageBucket SignedURL r).
Proof. revert claims_of. unfold handleGetReportDownloadURL. tenant_handler B. Qed.

Lemma handlePasswordReset_keeps body : tenant (handlePasswordReset r body).
Proof. revert claims_of. unfold handlePasswordReset. tenant_handler B. Qed.

Lemma handleGetProfile_keeps : tenant (handleGetProfile r).
Proof. revert claims_of. unfold handleGetProfile. tenant_handler B. Qed.

Lemma handleGetOrganization_keeps : tenant (handleGetOrganization r).
Proof. revert claims_of. unfold handleGetOrganization. tenant_handler B. Qed.

Lemma handleGetDashboard_keeps : tenant (handleGetDashboard AddDate r).
Proof. revert claims_of. unfold handleGetDashboard. tenant_handler B. Qed.

Lemma handleListUsers_keeps : tenant (handleListUsers r).
Proof. revert claims_of. unfold handleListUsers. tenant_handler B. Qed.

Lemma handleListRequirementTemplates_keeps : tenant (handleListRequirementTemplates r).
Proof. revert claims_of. unfold handleListRequirementTemplates. tenant_handler B. Qed.

Lemma handleListAuditLogs_keeps : tenant (handleListAuditLogs Atoi r).
Proof. revert claims_of. unfold handleListAuditLogs. tenant_handler B. Qed.

Lemma handleExportAuditLogs_keeps :
  tenant (handleExportAuditLogs FormatRFC3339 FormatDate r).
Proof. revert claims_of. unfold handleExportAuditLogs. tenant_handler B. Qed.

Lemma handleListReports_keeps : tenant (handleListReports r).
Proof. revert claims_of. unfold handleListReports. tenant_handler B. Qed.

Lemma handleGetSubscription_keeps : tenant (handleGetSubscription r).
Proof. revert claims_of. unfold handleGetSubscription. tenant_handler B. Qed.

Lemma handleCreateSubscription_keeps body : tenant (handleCreateSubscription r body).
Proof. revert claims_of. unfold handleCreateSubscription. tenant_handler B. Qed.

Lemma handleUpdateSubscription_keeps body : tenant (handleUpdateSubscription r body).
Proof. revert claims_of. unfold handleUpdateSubscription. tenant_handler B. Qed.

Lemma handleCancelSubscription_keeps body : tenant (handleCancelSubscription r body).
Proof. revert claims_of. unfold handleCancelSubscription. tenant_handler B. Qed.

Lemma handleListIntegrations_keeps : tenant (handleListIntegrations r).
Proof. revert claims_of. unfold handleListIntegrations. tenant_handler B. Qed.

Lemma handleConnectGoogle_keeps body : tenant (handleConnectGoogle r body).
Proof. revert claims_of. unfold handleConnectGoogle. tenant_handler B. Qed.

Lemma handleDisconnectGoogle_keeps : tenant (handleDisconnectGoogle r).
Proof. revert claims_of. unfold handleDisconnectGoogle. tenant_handler B. Qed.

Lemma handleStripeWebhook_keeps : tenant (handleStripeWebhook r).
Proof. revert claims_of. unfold handleStripeWebhook. tenant_handler B. Qed.

Lemma handleGmailPoll_keeps : tenant (handleGmailPoll r).
Proof. revert claims_of. unfold handleGmailPoll. tenant_handler B. Qed.

Lemma handlePDFGenerate_keeps : tenant (handlePDFGenerate r).
Proof. revert claims_of. unfold handlePDFGenerate. tenant_handler B. Qed.

Lemma handleHealth_keeps : tenant (handleHealth r).
Proof. revert claims_of. unfold handleHealth. tenant_handler B. Qed.

Lemma reply_keeps m : tenant m -> tenant (reply m).
Proof.
  intros Hm. unfold reply. eapply keeps_bind; [exact Hm|].
  intros p _. apply keeps_ret. exact Logic.I.
Qed.

Lemma requireAdmin_keeps next : tenant next -> tenant (requireAdmin r next).
Proof. intros Hn. open_handler. keeps_go fail; exact Hn. Qed.

Lemma requireWrite_keeps next : tenant next -> tenant (requireWrite r next).
Proof. intros Hn. open_handler. keeps_go fail; exact Hn. Qed.

Lemma requireAdminReply_keeps next : tenant next -> tenant (requireAdminReply r next).
Proof. intros Hn. open_handler. keeps_go fail; exact Hn. Qed.

Lemma RequireOrganization_keeps next : tenant next -> tenant (RequireOrganization r next).
Proof. intros Hn. unfold RequireOrganization. open_handler. keeps_go fail; exact Hn. Qed.

Lemma organizationRoute_keeps route :
  tenant (organizationRoute StorageBucket SignedURL ParseRFC3339 authDeleteUser
            AddDate Atoi FormatRFC3339 FormatDate route r).
Proof.
  destruct route; cbn [organizationRoute];
    repeat match goal with
      | |- keeps _ (reply _) _ => apply reply_keeps
      | |- keeps _ (requireAdmin _ _) _ => apply requireAdmin_keeps
      | |- keeps _ (requireWrite _ _) _ => apply requireWrite_keeps
      | |- keeps _ (requireAdminReply _ _) _ => apply requireAdminReply_keeps
      end;
    eauto using handleGenerateUploadURL_keeps, handleCreateEvidence_keeps,
      handleListEvidence_keeps, handleGetEvidence_keeps, handleUpdateEvidence_keeps,
      handleDeleteEvidence_keeps, handleGenerateDownloadURL_keeps,
      handleCreateRequirement_keeps, handleListRequirements_keeps,
      handleGetRequirement_keeps, handleUpdateRequirement_keeps,
      handleDeactivateRequirement_keeps, handleUpdateOrganization_keeps,
      handleInviteUser_keeps, handleUpdateUserRole_keeps, handleDeleteUser_keeps,
      handleGenerateReport_keeps, handleGetReport_keeps,
      handleGetReportDownloadURL_keeps, handleGetOrganization_keeps,
      handleGetDashboard_keeps, handleListUsers_keeps,
      handleListRequirementTemplates_keeps, handleListAuditLogs_keeps,
      handleExportAuditLogs_keeps, handleListReports_keeps,
      handleGetSubscription_keeps, handleCreateSubscription_keeps,
      handleUpdateSubscription_keeps, handleCancelSubscription_keeps,
      handleListIntegrations_keeps, handleConnectGoogle_keeps,
      handleDisconnectGoogle_keeps;
    open_handler; apply keeps_ret; exact Logic.I.
Qed.

End Handlers.

Lemma others_untouched_refl (B : string) s : others_untouched B s s.
Proof. repeat split. Qed.

Lemma tenant_keeps_keys {A} (B : string) (m : M A) Q :
  keeps (tenant_inv B) m Q -> keeps keys_inv m Q.
Proof.
  intros Hm w0 w Hw.
  destruct (Hm w w (conj Hw (others_untouched_refl B (db w)))) as [[Hk _] HQ].
  split; assumption.
Qed.

(** [Authenticate] runs the next handler only with the claims of a token
    the verifier accepted. *)
Lemma Authenticate_keeps (I : World -> World -> Prop) h next :
  (forall bearer token tok email verified,
     splitSpace (Authorization h) = [bearer; token] ->
     VerifyIDToken token = Ok tok ->
     Token.email tok = Some email ->
     Token.email_verified tok = Some verified ->
     keeps I
       (next (withClaims
                (Some (UserClaims.mk (Token.UID tok) email verified
                         (default EmptyString (Token.organizationId tok))
                         (default EmptyString (Token.role tok)))) h))
       (fun _ => True)) ->
  keeps I (Authenticate VerifyIDToken h next) (fun _ => True).
Proof.
  intros Hnext. unfold Authenticate. open_handler.
  repeat match goal with
    | |- keeps _ (ret _) _ => apply keeps_ret; exact Logic.I
    | |- keeps _ (match ?x with _ => _ end) _ => destruct x eqn:?
    end.
  eapply Hnext; first [reflexivity | eassumption].
Qed.

Local Abbreviation server :=
  (serve StorageBucket SignedURL ParseRFC3339 authDeleteUser VerifyIDToken
     authCreateUser AddDate Atoi FormatRFC3339 FormatDate).

Lemma serve_keeps (B : string) route h :
  (forall body, route <> POST_auth_register body) ->
  (forall bearer token tok,
     splitSpace (Authorization h) = [bearer; token] ->
     VerifyIDToken token = Ok tok ->
     default EmptyString (Token.organizationId tok) = B) ->
  keeps (tenant_inv B) (server route h) (fun _ => True).
Proof.
  intros Hroute HB.
  assert (Hc : forall bearer token tok email verified,
             splitSpace (Authorization h) = [bearer; token] ->
             VerifyIDToken token = Ok tok ->
             forall c,
               Claims (withClaims
                         (Some (UserClaims.mk (Token.UID tok) email verified
                                  (default EmptyString (Token.organizationId tok))
                                  (default EmptyString (Token.role tok)))) h) = Some c ->
               UserClaims.OrganizationID c = B).
  { intros bearer token tok email verified Hs Hv c [= <-]. cbn. eauto. }
  assert (Hn : forall c, Claims (withClaims None h) = Some c ->
                         UserClaims.OrganizationID c = B) by (intros c [=]).
  destruct route; cbn [serve];
    try (apply Authenticate_keeps; intros bearer token tok email verified Hs Hv _ _;
         specialize (Hc bearer token tok email verified Hs Hv));
    lazymatch goal with
    | |- keeps _ (RequireOrganization _ _) _ =>
        apply RequireOrganization_keeps;
          [exact Hc | apply organizationRoute_keeps; exact Hc]
    | |- keeps _ (reply (handleUpdateProfile _ _)) _ =>
        apply reply_keeps, handleUpdateProfile_keeps; exact Hc
    | |- keeps _ (handleGetProfile _) _ => apply handleGetProfile_keeps; exact Hc
    | |- keeps _ (handleRegister _ _ _) _ => exfalso; eapply Hroute; reflexivity
    | |- keeps _ (handleHealth _) _ => apply handleHealth_keeps; exact Hn
    | |- keeps _ (handlePasswordReset _ _) _ => apply handlePasswordReset_keeps; exact Hn
    | |- keeps _ (handleStripeWebhook _) _ => apply handleStripeWebhook_keeps; exact Hn
    | |- keeps _ (handleGmailPoll _) _ => apply handleGmailPoll_keeps; exact Hn
    | |- keeps _ (handlePDFGenerate _) _ => apply handlePDFGenerate_keeps; exact Hn
    end.
Qed.

Lemma classic_route route :
  (exists body, route = POST_auth_register body)
  \/ (forall body, route <> POST_auth_register body).
Proof. destruct route; (left; eexists; reflexivity) || (right; discriminate). Qed.

Lemma keys_inv_db w0 w w' : db w' = db w -> keys_inv w0 w -> keys_inv w0 w'.
Proof. unfold keys_inv. intros ->. auto. Qed.

Lemma GetUserByEmail_keys email :
  keeps keys_inv (GetUserByEmail email) (fun _ => True).
Proof.
  apply (keeps_same_db keys_inv_db); [|auto].
  intros w. unfold GetUserByEmail, bind, get_db. cbn.
  destruct (List.filter _ _); reflexivity.
Qed.

Lemma CreateOrganization_keys org :
  keeps keys_inv (CreateOrganization org) (fun _ => True).
Proof.
  intros w0 w (Ho & Hu & Hrq & Hev & Hlog & Hrep). split; [|exact Logic.I].
  unfold keys_inv. cbn. repeat split; try assumption.
  unfold set_organizations; cbn [organizations].
  match goal with |- keyed _ (<[_ := ?x]> _) =>
    apply (keyed_insert Organization.ID _ x)
  end. exact Ho.
Qed.

Lemma CreateUser_keys user :
  keeps keys_inv (CreateUser user) (fun _ => True).
Proof.
  intros w0 w (Ho & Hu & Hrq & Hev & Hlog & Hrep). split; [|exact Logic.I].
  unfold keys_inv. cbn. repeat split; try assumption.
  unfold set_users; cbn [users].
  match goal with |- keyed _ (<[_ := ?x]> _) =>
    apply (keyed_insert User.UID _ x)
  end. exact Hu.
Qed.

Lemma CreateAuditLog_keys log :
  keeps keys_inv (CreateAuditLog log) (fun _ => True).
Proof.
  apply (tenant_keeps_keys (AuditLog.OrganizationID log)), CreateAuditLog_keeps.
  reflexivity.
Qed.

Lemma handleRegister_keys r body :
  keeps keys_inv (handleRegister authCreateUser r body) (fun _ => True).
Proof.
  unfold handleRegister. open_handler.
  keeps_go ltac:(first [ apply GetUserByEmail_keys | apply CreateOrganization_keys
                       | apply CreateUser_keys | apply CreateAuditLog_keys ]).
Qed.

Lemma keyedb_keyed {K V} `{Countable K} (key : V -> K) (m : gmap K V) :
  keyedb key m = true -> keyed key m.
Proof.
  unfold keyedb. rewrite forallb_forall. intros Hall k v Hk.
  apply elem_of_map_to_list, list_elem_of_In in Hk.
  specialize (Hall _ Hk). exact (bool_decide_eq_true_1 _ Hall).
Qed.

Lemma well_keyedb_well_keyed s : well_keyedb s = true -> well_keyed s.
Proof.
  unfold well_keyedb. rewrite !andb_true_iff.
  intros [[[[[Ho Hu] Hrq] Hev] Hlog] Hrep].
  repeat split; apply keyedb_keyed; assumption.
Qed.

(** X1. A request on any route but the registration, made with a token of
    tenant [B] (or with no valid token at all), leaves the organization
    document, the requirements, the evidence, the audit log and the
    reports of every other tenant, and the requirement templates, exactly
    as they were, provided every stored document carries the ids of the
    path it is stored under. *)
Theorem serve_other_tenants_untouched (B : string) route h w :
  (forall body, route <> POST_auth_register body) ->
  (forall bearer token tok,
     splitSpace (Authorization h) = [bearer; token] ->
     VerifyIDToken token = Ok tok ->
     default EmptyString (Token.organizationId tok) = B) ->
  well_keyed (db w) ->
  others_untouched B (db w) (db (snd (server route h w))).
Proof.
  intros Hroute HB Hw.
  destruct (serve_keeps B route h Hroute HB w w
              (conj Hw (others_untouched_refl B (db w)))) as [[_ Hframe] _].
  exact Hframe.
Qed.

(** X2. Every route keeps the database well keyed: after any request each
    organization, user, requirement, evidence item, audit entry and report
    is still stored under the ids its own fields carry. *)
Theorem serve_well_keyed route h w :
  well_keyed (db w) -> well_keyed (db (snd (server route h w))).
Proof.
  intros Hw.
  destruct (classic_route route) as [[body ->]|Hroute].
  - exact (proj1 (handleRegister_keys (withClaims None h) body w w Hw)).
  - set (B := match splitSpace (Authorization h) with
              | [_; token] =>
                  match VerifyIDToken token with
                  | Ok tok => default EmptyString (Token.organizationId tok)
                  | Err _ => EmptyString
                  end
              | _ => EmptyString
              end).
    refine (proj1 (tenant_keeps_keys B _ _ (serve_keeps B route h Hroute _) w w Hw)).
    intros bearer token tok Hs Hv. subst B. rewrite Hs, Hv. reflexivity.
Qed.

End TenantHandlers.

Lemma serve_other_tenants_untouched_witness :
  others_untouched "org-a" Sample.db4
    (store.db (snd (Fixture.serve api.DELETE_evidence (Fixture.request "token-a" "e1")
                      (Sample.world Sample.db4)))).
Proof.
  apply (serve_other_tenants_untouched
           Fixture.StorageBucket Fixture.SignedURL Sample.parse Sample.authDeleteUser
           Fixture.VerifyIDToken Fixture.authCreateUser Fixture.AddDate Fixture.Atoi
           Fixture.Format Fixture.Format
           "org-a" api.DELETE_evidence (Fixture.request "token-a" "e1")
           (Sample.world Sample.db4)).
  - intros body. discriminate.
  - intros bearer token tok Hs Hv. vm_compute in Hs. injection Hs as <- <-.
    vm_compute in Hv. injection Hv as <-. reflexivity.
  - apply well_keyedb_well_keyed. vm_compute. reflexivity.
Defined.

Lemma serve_well_keyed_witness :
  well_keyed
    (store.db (snd (Fixture.serve api.DELETE_evidence (Fixture.request "token-a" "e1")
                      (Sample.world Sample.db4)))).
Proof.
  apply (serve_well_keyed
           Fixture.StorageBucket Fixture.SignedURL Sample.parse Sample.authDeleteUser
           Fixture.VerifyIDToken Fixture.authCreateUser Fixture.AddDate Fixture.Atoi
           Fixture.Format Fixture.Format
           api.DELETE_evidence (Fixture.request "token-a" "e1")
           (Sample.world Sample.db4)).
  apply well_keyedb_well_keyed. vm_compute. reflexivity.
Defined.


(** * A request without write permission *)

Section ReaderHandlers.

Import store api.

Variable StorageBucket : string.
Variable SignedURL : string -> string -> string -> time.Time -> string -> result string.
Variable ParseRFC3339 : string -> option time.Time.
Variable authDeleteUser : string -> error.
Variable VerifyIDToken : string -> result Token.t.
Variable authCreateUser : string -> string -> string -> result string.
Variable AddDate : time.Time -> Z -> Z -> Z -> time.Time.
Variable Atoi : string -> option Z.
Variable FormatRFC3339 : time.Time -> string.
Variable FormatDate : time.Time -> string.

Variable uid : string.

Local Abbreviation reader m := (keeps (reader_inv uid) m (fun _ => True)).

Lemma reader_inv_db w0 w w' : db w' = db w -> reader_inv uid w0 w -> reader_inv uid w0 w'.
Proof. unfold reader_inv. intros ->. auto. Qed.

Lemma records_untouched_refl s : records_untouched uid s s.
Proof. repeat split. Qed.

Lemma reads_reader {A} (m : M A) : (forall w, snd (m w) = w) -> reader m.
Proof.
  intros Hm. apply (keeps_same_db reader_inv_db); [|auto].
  intros w. rewrite Hm. reflexivity.
Qed.

Lemma GetUser_reader k :
  keeps (reader_inv uid) (GetUser k) (fun res => forall u, res = Ok u -> User.UID u = k).
Proof.
  apply (keeps_same_db reader_inv_db).
  - intros w. rewrite GetUser_run. reflexivity.
  - intros w0 w [(_ & Hu & _) _] u. rewrite GetUser_run. cbn.
    destruct (users (db w) !! k) as [u'|] eqn:Hl; [|discriminate].
    intros [= ->]. symmetry. exact (Hu _ _ Hl).
Qed.

Lemma GetEvidence_reader org id : reader (GetEvidence org id).
Proof. apply reads_reader. intros w. rewrite GetEvidence_run. reflexivity. Qed.

Lemma GetRequirement_reader org id : reader (GetRequirement org id).
Proof. apply reads_reader. intros w. rewrite GetRequirement_run. reflexivity. Qed.

Lemma GetOrganization_reader org : reader (GetOrganization org).
Proof. apply reads_reader. intros w. rewrite GetOrganization_run. reflexivity. Qed.

Lemma GetReport_reader org id : reader (GetReport org id).
Proof. apply reads_reader. intros w. rewrite GetReport_run. reflexivity. Qed.

Lemma CalculateStatus_reader q : reader (api.CalculateStatus q).
Proof.
  apply (keeps_same_db reader_inv_db); [|auto].
  intros w. unfold api.CalculateStatus.
  destruct (Requirement.EvidenceCount q =? 0); [reflexivity|].
  destruct (Requirement.NextDueDate q); reflexivity.
Qed.

Lemma calculateAll_reader l : reader (calculateAll l).
Proof.
  induction l as [|q l IH]; cbn [calculateAll].
  - apply keeps_ret. exact Logic.I.
  - eapply keeps_bind; [apply CalculateStatus_reader|]. intros st _.
    eapply keeps_bind; [exact IH|]. intros rest _. apply keeps_ret. exact Logic.I.
Qed.

Lemma dashboardLoop_reader now soon l metrics :
  reader (dashboardLoop now soon l metrics).
Proof.
  revert metrics. induction l as [|q l IH]; intros metrics; cbn [dashboardLoop].
  - apply keeps_ret. exact Logic.I.
  - eapply keeps_bind; [apply CalculateStatus_reader|]. intros st _. apply IH.
Qed.

Ltac split_reader :=
  intros w0 w [(Ho & Hu & Hrq & Hev & Hlog & Hrep) (Ho' & Hrq' & Hev' & Ht' & Hu')].

Lemma CreateAuditLog_reader log : reader (CreateAuditLog log).
Proof.
  split_reader. split; [|exact Logic.I]. inv_goal.
  match goal with |- keyed _ (<[_ := ?x]> _) =>
    apply (keyed_insert (fun l => (AuditLog.OrganizationID l, AuditLog.ID l)) _ x)
  end. exact Hlog.
Qed.

Lemma CreateReport_reader report : reader (CreateReport report).
Proof.
  split_reader. split; [|exact Logic.I]. inv_goal.
  match goal with |- keyed _ (<[_ := ?x]> _) =>
    apply (keyed_insert (fun p => (Report.OrganizationID p, Report.ID p)) _ x)
  end. exact Hrep.
Qed.

Lemma UpdateUser_reader user : User.UID user = uid -> reader (UpdateUser user).
Proof.
  intros Huid. split_reader. split; [|exact Logic.I]. inv_goal.
  - apply (keyed_insert User.UID _ (User.set_UpdatedAt (clock w 0%nat) user)), Hu.
  - intros k Hk. cbn. rewrite lookup_insert_ne by congruence. apply Hu', Hk.
Qed.

Lemma UpdateLastLogin_reader k : k = uid -> reader (UpdateLastLogin k).
Proof.
  intros ->. split_reader. split; [|exact Logic.I].
  unfold UpdateLastLogin, bind. cbn.
  destruct (users (db w) !! uid) as [u|] eqn:Hl; cbn.
  - inv_goal.
    + eapply (keyed_replace _ _ _ u); [exact Hu | exact Hl | reflexivity].
    + intros k Hk. rewrite lookup_insert_ne by congruence. apply Hu', Hk.
  - split; repeat split; assumption.
Qed.

Ltac reader_prim :=
  idtac; lazymatch goal with
  | |- keeps _ time_Now _ => apply (keeps_time_Now reader_inv_db)
  | |- keeps _ uuid_New _ => apply (keeps_uuid_New reader_inv_db)
  | |- keeps _ (GetUser _) _ => apply GetUser_reader
  | |- keeps _ (GetEvidence _ _) _ => apply GetEvidence_reader
  | |- keeps _ (GetRequirement _ _) _ => apply GetRequirement_reader
  | |- keeps _ (GetOrganization _) _ => apply GetOrganization_reader
  | |- keeps _ (GetReport _ _) _ => apply GetReport_reader
  | |- keeps _ (api.CalculateStatus _) _ => apply CalculateStatus_reader
  | |- keeps _ (calculateAll _) _ => apply calculateAll_reader
  | |- keeps _ (dashboardLoop _ _ _ _) _ => apply dashboardLoop_reader
  | |- keeps _ (CreateAuditLog _) _ => apply CreateAuditLog_reader
  | |- keeps _ (CreateReport _) _ => apply CreateReport_reader
  | |- keeps _ (UpdateLastLogin _) _ => apply UpdateLastLogin_reader; side
  | |- keeps _ (UpdateUser _) _ => apply UpdateUser_reader; side
  | |- _ => apply reads_reader; intros; reflexivity
  end.

Ltac reader_handler :=
  let Hc := fresh "Hc" in
  intros Hc; open_handler; keeps_go reader_prim.

Section Handlers.

Context (r : Request).
Hypothesis claims_of :
  forall c, Claims r = Some c ->
    UserClaims.UID c = uid
    /\ UserClaims.Role c <> "admin"
    /\ UserClaims.Role c <> "compliance_officer".

Lemma handleGetProfile_reader : reader (handleGetProfile r).
Proof. revert claims_of. unfold handleGetProfile. reader_handler. Qed.

Lemma handleUpdateProfile_reader body : reader (handleUpdateProfile r body).
Proof. revert claims_of. unfold handleUpdateProfile. reader_handler. Qed.

Lemma handleGetOrganization_reader : reader (handleGetOrganization r).
Proof. revert claims_of. unfold handleGetOrganization. reader_handler. Qed.

Lemma handleGetDashboard_reader : reader (handleGetDashboard AddDate r).
Proof. revert claims_of. unfold handleGetDashboard. reader_handler. Qed.

Lemma handleListUsers_reader : reader (handleListUsers r).
Proof. revert claims_of. unfold handleListUsers. reader_handler. Qed.

Lemma handleListRequirements_reader : reader (handleListRequirements r).
Proof. revert claims_of. unfold handleListRequirements. reader_handler. Qed.

Lemma handleListRequirementTemplates_reader :
  reader (handleListRequirementTemplates r).
Proof. revert claims_of. unfold handleListRequirementTemplates. reader_handler. Qed.

Lemma handleGetRequirement_reader : reader (handleGetRequirement r).
Proof. revert claims_of. unfold handleGetRequirement. reader_handler. Qed.

Lemma handleListEvidence_reader : reader (handleListEvidence r).
Proof. revert claims_of. unfold handleListEvidence. reader_handler. Qed.

Lemma handleGetEvidence_reader : reader (handleGetEvidence r).
Proof. revert claims_of. unfold handleGetEvidence. reader_handler. Qed.

Lemma handleGenerateDownloadURL_reader :
  reader (handleGenerateDownloadURL StorageBucket SignedURL r).
Proof. revert claims_of. unfold handleGenerateDownloadURL. reader_handler. Qed.

Lemma handleListAuditLogs_reader : reader (handleListAuditLogs Atoi r).
Proof. revert claims_of. unfold handleListAuditLogs. reader_handler. Qed.

Lemma handleExportAuditLogs_reader :
  reader (handleExportAuditLogs FormatRFC3339 FormatDate r).
Proof. revert claims_of. unfold handleExportAuditLogs. reader_handler. Qed.

Lemma handleListReports_reader : reader (handleListReports r).
Proof. revert claims_of. unfold handleListReports. reader_handler. Qed.

Lemma handleGenerateReport_reader body : reader (handleGenerateReport r body).
Proof. revert claims_of. unfold handleGenerateReport. reader_handler. Qed.

Lemma handleGetReport_reader : reader (handleGetReport r).
Proof. revert claims_of. unfold handleGetReport. reader_handler. Qed.

Lemma handleGetReportDownloadURL_reader :
  reader (handleGetReportDownloadURL StorageBucket SignedURL r).
Proof. revert claims_of. unfold handleGetReportDownloadURL. reader_handler. Qed.

Lemma handleListIntegrations_reader : reader (handleListIntegrations r).
Proof. revert claims_of. unfold handleListIntegrations. reader_handler. Qed.

Lemma handleGetSubscription_reader : reader (handleGetSubscription r).
Proof. revert claims_of. unfold handleGetSubscription. reader_handler. Qed.

Lemma reply_reader m : reader m -> reader (reply m).
Proof.
  intros Hm. unfold reply. eapply keeps_bind; [exact Hm|].
  intros p _. apply keeps_ret. exact Logic.I.
Qed.

(** The role checks stop the request before the handler runs. *)
Lemma role_not_admin c :
  UserClaims.Role c <> "admin" -> negb (String.eqb (UserClaims.Role c) "admin") = true.
Proof.
  intros Hr. apply negb_true_iff, String.eqb_neq, Hr.
Qed.

Lemma requireAdmin_reader next : reader (requireAdmin r next).
Proof.
  unfold requireAdmin. open_handler.
  destruct (Claims r) as [c|] eqn:Hc; [|apply keeps_ret; exact Logic.I].
  destruct (claims_of c eq_refl) as (_ & Ha & _).
  rewrite (role_not_admin c Ha). apply keeps_ret. exact Logic.I.
Qed.

Lemma requireAdminReply_reader next : reader (requireAdminReply r next).
Proof.
  unfold requireAdminReply. open_handler.
  destruct (Claims r) as [c|] eqn:Hc; [|apply keeps_ret; exact Logic.I].
  destruct (claims_of c eq_refl) as (_ & Ha & _).
  rewrite (role_not_admin c Ha). apply keeps_ret. exact Logic.I.
Qed.

Lemma requireWrite_reader next : reader (requireWrite r next).
Proof.
  unfold requireWrite. open_handler.
  destruct (Claims r) as [c|] eqn:Hc; [|apply keeps_ret; exact Logic.I].
  destruct (claims_of c eq_refl) as (_ & Ha & Hco).
  rewrite (role_not_admin c Ha).
  replace (negb (String.eqb (UserClaims.Role c) "compliance_officer")) with true
    by (symmetry; apply negb_true_iff, String.eqb_neq, Hco).
  apply keeps_ret. exact Logic.I.
Qed.

Lemma RequireOrganization_reader next : reader next -> reader (RequireOrganization r next).
Proof. intros Hn. unfold RequireOrganization. open_handler. keeps_go fail; exact Hn. Qed.

Lemma organizationRoute_reader route :
  reader (organizationRoute StorageBucket SignedURL ParseRFC3339 authDeleteUser
            AddDate Atoi FormatRFC3339 FormatDate route r).
Proof.
  destruct route; cbn [organizationRoute];
    repeat match goal with
      | |- keeps _ (reply _) _ => apply reply_reader
      end;
    lazymatch goal with
    | |- keeps _ (requireAdmin _ _) _ => apply requireAdmin_reader
    | |- keeps _ (requireWrite _ _) _ => apply requireWrite_reader
    | |- keeps _ (requireAdminReply _ _) _ => apply requireAdminReply_reader
    | |- keeps _ (replyJSON _ _) _ => open_handler; apply keeps_ret; exact Logic.I
    | |- _ =>
        eauto using handleGetOrganization_reader, handleGetDashboard_reader,
          handleListUsers_reader, handleListRequirements_reader,
          handleListRequirementTemplates_reader, handleGetRequirement_reader,
          handleListEvidence_reader, handleGetEvidence_reader,
          handleGenerateDownloadURL_reader, handleListAuditLogs_reader,
          handleExportAuditLogs_reader, handleListReports_reader,
          handleGenerateReport_reader, handleGetReport_reader,
          handleGetReportDownloadURL_reader, handleListIntegrations_reader,
          handleGetSubscription_reader
    end.
Qed.

End Handlers.

Local Abbreviation server :=
  (serve StorageBucket SignedURL ParseRFC3339 authDeleteUser VerifyIDToken
     authCreateUser AddDate Atoi FormatRFC3339 FormatDate).

Lemma serve_reader route h :
  (forall body, route <> POST_auth_register body) ->
  (forall bearer token tok,
     splitSpace (Authorization h) = [bearer; token] ->
     VerifyIDToken token = Ok tok ->
     Token.UID tok = uid
     /\ default EmptyString (Token.role tok) <> "admin"
     /\ default EmptyString (Token.role tok) <> "compliance_officer") ->
  keeps (reader_inv uid) (server route h) (fun _ => True).
Proof.
  intros Hroute HB.
  assert (Hc : forall bearer token tok email verified,
             splitSpace (Authorization h) = [bearer; token] ->
             VerifyIDToken token = Ok tok ->
             forall c,
               Claims (withClaims
                         (Some (UserClaims.mk (Token.UID tok) email verified
                                  (default EmptyString (Token.organizationId tok))
                                  (default EmptyString (Token.role tok)))) h) = Some c ->
               UserClaims.UID c = uid
               /\ UserClaims.Role c <> "admin"
               /\ UserClaims.Role c <> "compliance_officer").
  { intros bearer token tok email verified Hs Hv c [= <-]. cbn. eauto. }
  assert (Hn : forall c, Claims (withClaims None h) = Some c ->
                 UserClaims.UID c = uid
                 /\ UserClaims.Role c <> "admin"
                 /\ UserClaims.Role c <> "compliance_officer") by (intros c [=]).
  destruct route; cbn [serve];
    try (apply (Authenticate_keeps VerifyIDToken);
         intros bearer token tok email verified Hs Hv _ _;
         specialize (Hc bearer token tok email verified Hs Hv));
    lazymatch goal with
    | |- keeps _ (RequireOrganization _ _) _ =>
        apply RequireOrganization_reader, organizationRoute_reader; exact Hc
    | |- keeps _ (reply (handleUpdateProfile _ _)) _ =>
        apply reply_reader, handleUpdateProfile_reader; exact Hc
    | |- keeps _ (handleGetProfile _) _ => apply handleGetProfile_reader; exact Hc
    | |- keeps _ (handleRegister _ _ _) _ => exfalso; eapply Hroute; reflexivity
    | |- _ =>
        unfold handleHealth, handlePasswordReset, handleStripeWebhook,
          handleGmailPoll, handlePDFGenerate;
        open_handler; keeps_go fail
    end.
Qed.

(** X3. A request made with a token whose role is neither [admin] nor
    [compliance_officer], on any route but the registration, changes no
    organization, requirement, evidence item or requirement template, and
    no user document but the caller's own. *)
Theorem serve_without_write_role route h w :
  (forall body, route <> POST_auth_register body) ->
  (forall bearer token tok,
     splitSpace (Authorization h) = [bearer; token] ->
     VerifyIDToken token = Ok tok ->
     Token.UID tok = uid
     /\ default EmptyString (Token.role tok) <> "admin"
     /\ default EmptyString (Token.role tok) <> "compliance_officer") ->
  well_keyed (db w) ->
  records_untouched uid (db w) (db (snd (server route h w))).
Proof.
  intros Hroute HB Hw.
  destruct (serve_reader route h Hroute HB w w
              (conj Hw (records_untouched_refl (db w)))) as [[_ Hframe] _].
  exact Hframe.
Qed.

End ReaderHandlers.

Lemma serve_without_write_role_witness :
  records_untouched "u-view" Sample.db4
    (store.db (snd (Fixture.serve api.DELETE_evidence (Fixture.request "token-v" "e1")
                      (Sample.world Sample.db4)))).
Proof.
  apply (serve_without_write_role
           Fixture.StorageBucket Fixture.SignedURL Sample.parse Sample.authDeleteUser
           Fixture.VerifyIDToken Fixture.authCreateUser Fixture.AddDate Fixture.Atoi
           Fixture.Format Fixture.Format
           "u-view" api.DELETE_evidence (Fixture.request "token-v" "e1")
           (Sample.world Sample.db4)).
  - intros body. discriminate.
  - intros bearer token tok Hs Hv. vm_compute in Hs. injection Hs as <- <-.
    vm_compute in Hv. injection Hv as <-. cbn. repeat split; discriminate.
  - apply well_keyedb_well_keyed. vm_compute. reflexivity.
Defined.

(* ===================================================================== *)
(** * Evidence: upload, listing and removal                              *)
(* ===================================================================== *)

Section EvidenceUpload.

Import store api.

Variable StorageBucket : string.
Variable SignedURL : string -> string -> string -> time.Time -> string -> result string.
Variable ParseRFC3339 : string -> option time.Time.

Lemma CreateEvidence_run ev w :
  let ev' := Evidence.set_UpdatedAt (clock w 1%nat)
               (Evidence.set_CreatedAt (clock w 0%nat)
                  (Evidence.set_ID (uuids w 0%nat) ev)) in
  CreateEvidence ev w =
  ((ev', None),
   snd (adjustCounts 1 (Evidence.OrganizationID ev) (Evidence.RequirementIDs ev)
          (with_db (fun s =>
                      set_evidence
                        (<[(Evidence.OrganizationID ev, uuids w 0%nat) := ev']>
                           (evidence s)) s)
             (advance_clock (advance_clock (advance_uuids w)))))).
Proof. reflexivity. Qed.

Lemma allowedTypes_In fileType :
  allowedTypes fileType = true <->
  In fileType
    ["application/pdf"; "application/msword";
     "application/vnd.openxmlformats-officedocument.wordprocessingml.document";
     "application/vnd.ms-excel";
     "application/vnd.openxmlformats-officedocument.spreadsheetml.sheet";
     "image/png"; "image/jpeg"].
Proof.
  clear StorageBucket SignedURL ParseRFC3339.
  unfold allowedTypes. rewrite !orb_true_iff, !String.eqb_eq. cbn [In].
  intuition congruence.
Qed.


(** X5. An upload request for a file of more than 25 MiB, or of a type
    outside the seven allowed ones, is refused with 400 and changes
    nothing: no record is created and no id or time is drawn. *)
Theorem handleGenerateUploadURL_rejects r claims req w :
  Claims r = Some claims ->
  25 * 1024 * 1024 < UploadURLRequest.FileSize req
  \/ ~ In (UploadURLRequest.FileType req)
        ["application/pdf"; "application/msword";
         "application/vnd.openxmlformats-officedocument.wordprocessingml.document";
         "application/vnd.ms-excel";
         "application/vnd.openxmlformats-officedocument.spreadsheetml.sheet";
         "image/png"; "image/jpeg"] ->
  StatusCode (fst (handleGenerateUploadURL StorageBucket SignedURL r (Some req) w))
    = http.StatusBadRequest
  /\ snd (handleGenerateUploadURL StorageBucket SignedURL r (Some req) w) = w.
Proof.
  clear ParseRFC3339.
  intros Hc Hbad. unfold handleGenerateUploadURL. rewrite Hc.
  destruct (25 * 1024 * 1024 <? UploadURLRequest.FileSize req) eqn:Hsize;
    [split; reflexivity|].
  destruct Hbad as [Hbig|Htype].
  - apply Z.ltb_ge in Hsize. lia.
  - destruct (allowedTypes (UploadURLRequest.FileType req)) eqn:Ha.
    + apply allowedTypes_In in Ha. contradiction.
    + split; reflexivity.
Qed.

(** X6. [handleListEvidence] changes nothing and lists exactly the active
    evidence of the caller's tenant, restricted to the items whose source
    is the [source] query parameter when that parameter is not empty. *)
Theorem handleListEvidence_lists_exactly r claims w :
  Claims r = Some claims ->
  snd (handleListEvidence r w) = w
  /\ exists l,
       fst (handleListEvidence r w) = mkResponse http.StatusOK (jsonEvidenceList l)
       /\ forall x,
            x ∈ l <->
            (exists id,
               evidence (db w) !! (UserClaims.OrganizationID claims, id) = Some x)
            /\ Evidence.Status x = "active"
            /\ (Query r "source" = EmptyString \/ Evidence.Source x = Query r "source").
Proof.
  clear StorageBucket SignedURL ParseRFC3339.
  intros Hc. unfold handleListEvidence. rewrite Hc.
  split; [reflexivity|]. eexists. split; [reflexivity|].
  intros x. rewrite list_elem_of_In, filter_In, andb_true_iff, String.eqb_eq.
  rewrite <- list_elem_of_In, list_elem_of_fmap.
  split.
  - intros [([[o id] y] & -> & Hy) [Hact Hf]].
    apply list_elem_of_In, filter_In in Hy as [Hy Ho]. cbn in Ho.
    apply String.eqb_eq in Ho as ->.
    apply list_elem_of_In, elem_of_map_to_list in Hy.
    split; [exists id; exact Hy|]. split; [exact Hact|].
    destruct (String.eqb (Query r "source") EmptyString) eqn:Hq.
    + left. apply String.eqb_eq, Hq.
    + right. cbn in Hf. rewrite andb_true_r in Hf. apply String.eqb_eq, Hf.
  - intros ([id Hx] & Hact & Hsrc). split; [|split; [exact Hact|]].
    + exists (UserClaims.OrganizationID claims, id, x). split; [reflexivity|].
      apply list_elem_of_In, filter_In. split.
      * apply list_elem_of_In, elem_of_map_to_list, Hx.
      * cbn. apply String.eqb_refl.
    + destruct (String.eqb (Query r "source") EmptyString) eqn:Hq; [reflexivity|].
      destruct Hsrc as [He|Hs]; [apply String.eqb_neq in Hq; contradiction|].
      cbn. rewrite andb_true_r. apply String.eqb_eq, Hs.
Qed.


(** X8. Creating an evidence item and then deleting it gives every
    requirement of the tenant its evidence count back, whatever ids the
    item names and however often, and changes no other field of a
    requirement but the modification time; the item stays in the store
    with status [deleted]. *)
Theorem CreateEvidence_DeleteEvidence_round_trip ev w :
  let org := Evidence.OrganizationID ev in
  let w1 := snd (CreateEvidence ev w) in
  let id := Evidence.ID (fst (fst (CreateEvidence ev w))) in
  let w2 := snd (DeleteEvidence org id w1) in
  fst (DeleteEvidence org id w1) = None
  /\ (forall rid,
        Requirement.EvidenceCount <$> requirements (db w2) !! (org, rid)
        = Requirement.EvidenceCount <$> requirements (db w) !! (org, rid))
  /\ (forall key,
        without_counter <$> requirements (db w2) !! key
        = without_counter <$> requirements (db w) !! key)
  /\ Evidence.Status <$> evidence (db w2) !! (org, id) = Some "deleted".
Proof.
  clear StorageBucket SignedURL ParseRFC3339.
  intros org w1 id w2.
  set (ev' := Evidence.set_UpdatedAt (clock w 1%nat)
                (Evidence.set_CreatedAt (clock w 0%nat)
                   (Evidence.set_ID (uuids w 0%nat) ev))).
  assert (Hw1 : w1 = snd (adjustCounts 1 org (Evidence.RequirementIDs ev)
                            (with_db (fun s =>
                                        set_evidence
                                          (<[(org, uuids w 0%nat) := ev']> (evidence s)) s)
                               (advance_clock (advance_clock (advance_uuids w))))))
    by reflexivity.
  assert (Hid : id = uuids w 0%nat) by reflexivity.
  set (w0 := with_db _ (advance_clock (advance_clock (advance_uuids w)))) in Hw1.
  assert (Hev1 : evidence (db w1) !! (org, id) = Some ev').
  { rewrite Hw1, Hid.
    destruct (adjustCounts_frame 1 org (Evidence.RequirementIDs ev) w0)
      as [(_ & _ & Hev & _) _].
    rewrite Hev. apply lookup_insert_eq. }
  subst w2. rewrite (DeleteEvidence_run org id ev' w1 Hev1). cbn [fst snd].
  change (Evidence.RequirementIDs ev') with (Evidence.RequirementIDs ev).
  set (w1' := with_db _ (advance_clock w1)).
  split; [reflexivity|]. split; [|split].
  - intros rid. rewrite adjustCounts_count.
    change (requirements (db w1')) with (requirements (db w1)).
    rewrite Hw1, adjustCounts_count.
    change (requirements (db w0)) with (requirements (db w)).
    destruct (requirements (db w) !! (org, rid)) as [q|]; cbn; [|reflexivity].
    f_equal. lia.
  - intros key. rewrite adjustCounts_fields.
    change (requirements (db w1')) with (requirements (db w1)).
    rewrite Hw1, adjustCounts_fields. reflexivity.
  - destruct (adjustCounts_frame (-1) org (Evidence.RequirementIDs ev) w1')
      as [(_ & _ & Hev & _) _].
    rewrite Hev. subst w1'. cbn. rewrite lookup_insert_eq. reflexivity.
Qed.

(** X9. [CreateEvidence] does not check the requirement ids it is given:
    with an id under which the tenant holds no requirement it still
    succeeds and stores the item with that id in its list, and it creates
    no requirement. *)
Theorem CreateEvidence_unknown_requirement ev w rid :
  requirements (db w) !! (Evidence.OrganizationID ev, rid) = None ->
  rid ∈ Evidence.RequirementIDs ev ->
  let org := Evidence.OrganizationID ev in
  let w' := snd (CreateEvidence ev w) in
  snd (fst (CreateEvidence ev w)) = None
  /\ (exists e, evidence (db w') !! (org, uuids w 0%nat) = Some e
                /\ rid ∈ Evidence.RequirementIDs e)
  /\ requirements (db w') !! (org, rid) = None.
Proof.
  clear StorageBucket SignedURL ParseRFC3339.
  intros Hnone Hin org w'. split; [reflexivity|]. split.
  - subst w'. rewrite CreateEvidence_run. cbn [snd].
    set (w0 := with_db _ _).
    destruct (adjustCounts_frame 1 org (Evidence.RequirementIDs ev) w0)
      as [(_ & _ & Hev & _) _].
    fold org. rewrite Hev. subst w0. cbn. rewrite lookup_insert_eq.
    eexists. split; [reflexivity|]. exact Hin.
  - pose proof (CreateEvidence_increments ev w rid) as Hc.
    rewrite Hnone in Hc. exact (proj1 (fmap_None _ _) Hc).
Qed.

End EvidenceUpload.


Lemma handleGenerateUploadURL_rejects_witness :
  let r := Sample.request Sample.claimsA EmptyString in
  let w := Sample.world Sample.db4 in
  let req := api.UploadURLRequest.mk "setup.exe" "application/x-msdownload" 1024 in
  api.StatusCode
    (fst (api.handleGenerateUploadURL Fixture.StorageBucket Fixture.SignedURL r
            (Some req) w)) = http.StatusBadRequest
  /\ snd (api.handleGenerateUploadURL Fixture.StorageBucket Fixture.SignedURL r
            (Some req) w) = w.
Proof.
  intros r w req.
  apply (handleGenerateUploadURL_rejects Fixture.StorageBucket Fixture.SignedURL
           r Sample.claimsA req w eq_refl).
  right. cbn. intuition discriminate.
Defined.

Lemma handleListEvidence_lists_exactly_witness :
  let r := Sample.request Sample.claimsA EmptyString in
  let w := Sample.world Sample.db4 in
  snd (api.handleListEvidence r w) = w
  /\ exists l,
       fst (api.handleListEvidence r w)
       = api.mkResponse http.StatusOK (api.jsonEvidenceList l)
       /\ forall x,
            x ∈ l <->
            (exists id, store.evidence (store.db w) !! ("org-a", id) = Some x)
            /\ Evidence.Status x = "active"
            /\ (api.Query r "source" = EmptyString
                \/ Evidence.Source x = api.Query r "source").
Proof.
  intros r w.
  exact (handleListEvidence_lists_exactly r Sample.claimsA w eq_refl).
Defined.


Lemma CreateEvidence_unknown_requirement_witness :
  let ev := Sample.evidence1 "active" ["r-none"] in
  let w := Sample.world Sample.db4 in
  snd (fst (store.CreateEvidence ev w)) = None
  /\ store.requirements (store.db (snd (store.CreateEvidence ev w)))
       !! ("org-a", "r-none") = None.
Proof.
  intros ev w.
  destruct (CreateEvidence_unknown_requirement ev w "r-none" eq_refl
              ltac:(apply list_elem_of_In; left; reflexivity)) as (H1 & _ & H3).
  split; [exact H1 | exact H3].
Defined.

(* ===================================================================== *)
(** * Registration                                                       *)
(* ===================================================================== *)

Section Registration.

Import store api.

Variable authCreateUser : string -> string -> string -> result string.

Lemma scanPassword_flags s hasUpper hasNumber hasSpecial :
  scanPassword s hasUpper hasNumber hasSpecial =
  (hasUpper || existsb (fun c => isUpper (rune c)) (String.list_ascii_of_string s),
   hasNumber
   || existsb (fun c => negb (isUpper (rune c)) && isDigit (rune c))
        (String.list_ascii_of_string s),
   hasSpecial
   || existsb (fun c => negb (isUpper (rune c)) && negb (isDigit (rune c))
                        && negb (isLower (rune c)))
        (String.list_ascii_of_string s)).
Proof.
  clear authCreateUser.
  revert hasUpper hasNumber hasSpecial.
  induction s as [|c s IH]; intros u n sp; cbn [scanPassword String.list_ascii_of_string existsb].
  - rewrite !orb_false_r. reflexivity.
  - cbv zeta.
    destruct (isUpper (rune c)) eqn:Hu; [|destruct (isDigit (rune c)) eqn:Hd];
      [| |destruct (isLower (rune c)) eqn:Hl]; cbn [negb andb orb];
      rewrite IH; cbn [orb]; rewrite ?orb_true_r, ?orb_false_r; reflexivity.
Qed.

Lemma isUpper_not_isDigit n : isUpper n = true -> isDigit n = false.
Proof.
  clear authCreateUser.
  unfold isUpper, isDigit. intros H. apply andb_prop in H as [H1 H2].
  apply Z.leb_le in H1. apply andb_false_iff. right. apply Z.leb_gt. lia.
Qed.

(** X10. [isValidPassword] accepts exactly the passwords of at least 8
    bytes that hold an upper-case ASCII letter, an ASCII digit, and a
    character that is neither an ASCII letter nor an ASCII digit; a
    lower-case letter is not required. *)
Theorem isValidPassword_iff password :
  isValidPassword password =
  (8 <=? Z.of_nat (String.length password))
  && existsb (fun c => isUpper (rune c)) (String.list_ascii_of_string password)
  && existsb (fun c => isDigit (rune c)) (String.list_ascii_of_string password)
  && existsb (fun c => negb (isUpper (rune c)) && negb (isDigit (rune c))
                       && negb (isLower (rune c)))
       (String.list_ascii_of_string password).
Proof.
  clear authCreateUser.
  unfold isValidPassword. rewrite scanPassword_flags. cbn [orb].
  rewrite Z.leb_antisym.
  destruct (Z.of_nat (String.length password) <? 8); cbn [negb andb]; [reflexivity|].
  f_equal. f_equal.
  induction (String.list_ascii_of_string password) as [|c l IH]; cbn [existsb]; [reflexivity|].
  rewrite IH. destruct (isUpper (rune c)) eqn:Hu; cbn [negb andb orb]; [|reflexivity].
  rewrite (isUpper_not_isDigit _ Hu). reflexivity.
Qed.

Lemma GetUserByEmail_run email w :
  GetUserByEmail email w =
  (match List.filter (fun u => String.eqb (User.Email u) email)
           (snd <$> map_to_list (users (db w))) with
   | [] => Err (errorString "user not found")
   | u :: _ => Ok u
   end, w).
Proof.
  clear authCreateUser.
  unfold GetUserByEmail, bind, get_db. cbn.
  destruct (List.filter _ _); reflexivity.
Qed.

(** X11. A registration with a valid password and an email that no user
    document carries, for which the identity provider creates the account
    [uid], answers 201 and creates a new tenant: an organization under a
    fresh id on the [starter] tier in status [trial] with a limit of 10
    users, the user [uid] of that organization as an active administrator
    with an unverified email, and one audit entry [organization_created]
    of the new organization.  Nothing else is written. *)
Theorem handleRegister_creates_tenant r req uid w :
  isValidPassword (RegisterRequest.Password req) = true ->
  List.filter (fun u => String.eqb (User.Email u) (RegisterRequest.Email req))
    (snd <$> map_to_list (users (db w))) = [] ->
  authCreateUser (RegisterRequest.Email req) (RegisterRequest.Password req)
    (RegisterRequest.FullName req) = Ok uid ->
  let res := handleRegister authCreateUser r (Some req) w in
  let orgID := uuids w 0%nat in
  fst res
  = mkReply http.StatusCreated
      (payloadRegistered
         "Registration successful. Please check your email to verify your account."
         uid orgID)
  /\ organizations (db (snd res))
     = <[orgID :=
           Organization.mk orgID (RegisterRequest.OrganizationName req)
             (RegisterRequest.Industry req) (RegisterRequest.EmployeeCount req)
             (RegisterRequest.RegulatoryFramework req) EmptyString EmptyString
             EmptyString
             (Subscription.mk TierStarter "trial" EmptyString EmptyString 0 0 false
                10 (GetMonthlyPrice TierStarter))
             (clock w 0%nat) (clock w 1%nat) EmptyString 1]>
         (organizations (db w))
  /\ users (db (snd res))
     = <[uid :=
           User.mk uid (RegisterRequest.Email req) (RegisterRequest.FullName req)
             orgID RoleAdmin "active" false (clock w 2%nat) (clock w 3%nat) None]>
         (users (db w))
  /\ audit_logs (db (snd res))
     = <[(orgID, uuids w 1%nat) :=
           AuditLog.mk (uuids w 1%nat) orgID (clock w 4%nat) uid
             (RegisterRequest.Email req) ActionOrgCreated "organization" orgID
             ("Organization '" +:+ RegisterRequest.OrganizationName req
                +:+ "' created by " +:+ RegisterRequest.FullName req)
             [] (RemoteAddr r) (UserAgent r) []]>
         (audit_logs (db w))
  /\ requirements (db (snd res)) = requirements (db w)
  /\ evidence (db (snd res)) = evidence (db w)
  /\ reports (db (snd res)) = reports (db w)
  /\ requirement_templates (db (snd res)) = requirement_templates (db w).
Proof.
  intros Hpw Hfree Hauth res orgID. subst res.
  unfold handleRegister. rewrite Hpw. cbn [negb].
  unfold bind. rewrite GetUserByEmail_run. cbn [fst snd]. rewrite Hfree, Hauth.
  repeat split.
Qed.

(** X12. A registration with a password that [isValidPassword] refuses is
    answered 400, and one with an email that a user document already
    carries is answered 409; neither changes anything, and the identity
    provider is not asked to create an account. *)
Theorem handleRegister_rejects r req w :
  (isValidPassword (RegisterRequest.Password req) = false ->
   ReplyStatus (fst (handleRegister authCreateUser r (Some req) w))
     = http.StatusBadRequest
   /\ snd (handleRegister authCreateUser r (Some req) w) = w)
  /\ (isValidPassword (RegisterRequest.Password req) = true ->
      (exists u k, users (db w) !! k = Some u
                   /\ User.Email u = RegisterRequest.Email req) ->
      fst (handleRegister authCreateUser r (Some req) w)
        = mkReply 409 (payloadJSON (jsonError "email already registered"))
      /\ snd (handleRegister authCreateUser r (Some req) w) = w).
Proof.
  split.
  - intros Hpw. unfold handleRegister. rewrite Hpw. split; reflexivity.
  - intros Hpw (u & k & Hk & Hemail). unfold handleRegister. rewrite Hpw. cbn [negb].
    unfold bind. rewrite GetUserByEmail_run. cbn [fst snd].
    destruct (List.filter _ _) as [|u' l] eqn:Hf; [|split; reflexivity].
    exfalso.
    assert (Hin : In u (List.filter
                          (fun u => String.eqb (User.Email u) (RegisterRequest.Email req))
                          (snd <$> map_to_list (users (db w))))).
    { apply filter_In. split.
      - apply list_elem_of_In, list_elem_of_fmap. exists (k, u). split; [reflexivity|].
        apply elem_of_map_to_list, Hk.
      - apply String.eqb_eq, Hemail. }
    rewrite Hf in Hin. exact Hin.
Qed.

End Registration.

Lemma handleRegister_creates_tenant_witness :
  let req :=
    api.RegisterRequest.mk "founder@firm.example" "N. Founder" "Firm LLC" "Secret1!x"
      "financial_services" "1-10" "sec_ria" in
  let res :=
    api.handleRegister Fixture.authCreateUser (Sample.request Sample.claimsA EmptyString)
      (Some req) (Sample.world Sample.db3) in
  api.ReplyStatus (fst res) = http.StatusCreated
  /\ User.Role <$> store.users (store.db (snd res)) !! "uid-founder@firm.example"
     = Some RoleAdmin
  /\ Subscription.MaxUsers
       <$> (Organization.Subscription
              <$> store.organizations (store.db (snd res)) !! "uuid-0")
     = Some 10.
Proof.
  intros req res.
  destruct (handleRegister_creates_tenant Fixture.authCreateUser
              (Sample.request Sample.claimsA EmptyString) req
              "uid-founder@firm.example" (Sample.world Sample.db3)
              ltac:(vm_compute; reflexivity) ltac:(vm_compute; reflexivity) eq_refl)
    as (H1 & H2 & H3 & _).
  fold res in H1, H2, H3.
  split; [exact (f_equal api.ReplyStatus H1)|]. split.
  - rewrite H3, lookup_insert_eq. reflexivity.
  - rewrite H2. change (store.uuids (Sample.world Sample.db3) 0%nat) with "uuid-0".
    rewrite lookup_insert_eq. reflexivity.
Defined.

Lemma handleRegister_rejects_witness :
  let r := Sample.request Sample.claimsA EmptyString in
  let w := Sample.world Sample.db3 in
  api.ReplyStatus
    (fst (api.handleRegister Fixture.authCreateUser r
            (Some (api.RegisterRequest.mk "founder@firm.example" "N. Founder"
                     "Firm LLC" "secret" "financial_services" "1-10" "sec_ria")) w))
  = http.StatusBadRequest
  /\ api.ReplyStatus
       (fst (api.handleRegister Fixture.authCreateUser r
               (Some (api.RegisterRequest.mk "u-admin@example.com" "N. Founder"
                        "Firm LLC" "Secret1!x" "financial_services" "1-10" "sec_ria"))
               w))
     = 409.
Proof.
  intros r w. split.
  - apply (proj1 (handleRegister_rejects Fixture.authCreateUser r
                    (api.RegisterRequest.mk "founder@firm.example" "N. Founder"
                       "Firm LLC" "secret" "financial_services" "1-10" "sec_ria") w)).
    vm_compute. reflexivity.
  - destruct (proj2 (handleRegister_rejects Fixture.authCreateUser r
                       (api.RegisterRequest.mk "u-admin@example.com" "N. Founder"
                          "Firm LLC" "Secret1!x" "financial_services" "1-10" "sec_ria")
                       w)
                ltac:(vm_compute; reflexivity)
                ltac:(exists (Sample.user "u-admin" "org-a" RoleAdmin "active"), "u-admin";
                      split; vm_compute; reflexivity)) as [H _].
    exact (f_equal api.ReplyStatus H).
Defined.

(* ===================================================================== *)
(** * Requirements: activation, status and deactivation                  *)
(* ===================================================================== *)

Section RequirementLifecycle.

Import store api.

Lemma api_CalculateStatus_run q w :
  fst (api.CalculateStatus q w) = Requirement.CalculateStatus q (clock w 0%nat)
  /\ db (snd (api.CalculateStatus q w)) = db w
  /\ uuids (snd (api.CalculateStatus q w)) = uuids w.
Proof.
  unfold api.CalculateStatus, Requirement.CalculateStatus.
  destruct (Requirement.EvidenceCount q =? 0); [repeat split|].
  destruct (Requirement.NextDueDate q); repeat split.
Qed.

Lemma handleGetRequirement_run r claims q w :
  Claims r = Some claims ->
  requirements (db w) !! (UserClaims.OrganizationID claims, URLParam r "requirementID")
    = Some q ->
  fst (handleGetRequirement r w)
  = mkResponse http.StatusOK
      (jsonRequirement
         (Requirement.set_Status (Requirement.CalculateStatus q (clock w 0%nat)) q))
  /\ db (snd (handleGetRequirement r w)) = db w.
Proof.
  intros Hc Hq. unfold handleGetRequirement. rewrite Hc.
  unfold bind. rewrite GetRequirement_run, Hq. cbn [fst snd].
  destruct (api_CalculateStatus_run q w) as (Hst & Hdb & _).
  unfold respondJSON, ret. cbn [fst snd]. rewrite Hst, Hdb. split; reflexivity.
Qed.

(** X13. [handleGetRequirement] answers with the status derived from the
    stored evidence count and due date at the time of the request,
    whatever status the document holds, and it stores nothing: the
    document keeps the status it had. *)
Theorem handleGetRequirement_derives_status r claims q w :
  Claims r = Some claims ->
  requirements (db w) !! (UserClaims.OrganizationID claims, URLParam r "requirementID")
    = Some q ->
  fst (handleGetRequirement r w)
  = mkResponse http.StatusOK
      (jsonRequirement
         (Requirement.set_Status (Requirement.CalculateStatus q (clock w 0%nat)) q))
  /\ db (snd (handleGetRequirement r w)) = db w.
Proof.
  intros Hc Hq. unfold handleGetRequirement. rewrite Hc.
  unfold bind. rewrite GetRequirement_run, Hq. cbn [fst snd].
  destruct (api_CalculateStatus_run q w) as (Hst & Hdb & _).
  unfold respondJSON, ret. cbn [fst snd]. rewrite Hst, Hdb. split; reflexivity.
Qed.

(** X14. Activating a requirement from a template that exists answers 201
    and stores one new requirement of the caller's tenant under a fresh
    id: the template's title, description, category, authority, evidence
    types and frequency, the notes of the request, status [not_started],
    no due date, an evidence count of 0, active, activated by the caller.
    Whether the tenant already holds a requirement of the same template
    is not checked.  A later [handleGetRequirement] for the new id
    answers with it. *)
Theorem handleCreateRequirement_from_template r claims req t w :
  Claims r = Some claims ->
  requirement_templates (db w) !! CreateRequirementRequest.TemplateID req = Some t ->
  let org := UserClaims.OrganizationID claims in
  let res := handleCreateRequirement r (Some req) w in
  let q :=
    Requirement.mk (uuids w 0%nat) org (RequirementTemplate.ID t)
      (RequirementTemplate.Title t) (RequirementTemplate.Description t)
      (RequirementTemplate.Category t) (RequirementTemplate.Authority t)
      (RequirementTemplate.EvidenceTypes t) (RequirementTemplate.Frequency t)
      StatusNotStarted None None 0 (CreateRequirementRequest.Notes req)
      (clock w 0%nat) (UserClaims.UID claims) (clock w 1%nat) EmptyString true in
  fst res = mkResponse http.StatusCreated (jsonRequirement q)
  /\ requirements (db (snd res)) = <[(org, uuids w 0%nat) := q]> (requirements (db w))
  /\ evidence (db (snd res)) = evidence (db w)
  /\ forall r' claims',
       Claims r' = Some claims' ->
       UserClaims.OrganizationID claims' = org ->
       URLParam r' "requirementID" = uuids w 0%nat ->
       fst (handleGetRequirement r' (snd res))
       = mkResponse http.StatusOK (jsonRequirement q).
Proof.
  intros Hc Ht org res q.
  assert (Hres : fst res = mkResponse http.StatusCreated (jsonRequirement q)
                 /\ requirements (db (snd res))
                    = <[(org, uuids w 0%nat) := q]> (requirements (db w))
                 /\ evidence (db (snd res)) = evidence (db w)).
  { subst res. unfold handleCreateRequirement. rewrite Hc.
    unfold bind. rewrite GetRequirementTemplate_run, Ht. cbn [fst snd].
    repeat split. }
  destruct Hres as (H1 & H2 & H3). repeat split; try assumption.
  intros r' claims' Hc' Horg Hid.
  assert (Hl : requirements (db (snd res))
                 !! (UserClaims.OrganizationID claims', URLParam r' "requirementID")
               = Some q).
  { rewrite H2, Horg, Hid. apply lookup_insert_eq. }
  rewrite (proj1 (handleGetRequirement_run r' claims' q (snd res) Hc' Hl)).
  reflexivity.
Qed.

Lemma ListRequirements_elem org w l x :
  fst (ListRequirements org w) = Ok l ->
  x ∈ l ->
  exists id, requirements (db w) !! (org, id) = Some x /\ Requirement.IsActive x = true.
Proof.
  unfold ListRequirements, bind, get_db, ret. cbn. intros [= <-] Hx.
  apply list_elem_of_In, filter_In in Hx as [Hx Hact].
  apply list_elem_of_In, list_elem_of_fmap in Hx as ([[o id] y] & -> & Hy).
  apply list_elem_of_In, filter_In in Hy as [Hy Ho]. cbn in Ho.
  apply String.eqb_eq in Ho as ->.
  apply list_elem_of_In, elem_of_map_to_list in Hy.
  exists id. split; assumption.
Qed.

(** X15. Deactivating a requirement is a soft delete: the request answers
    200; the document stays in the store, inactive, with every other
    field but the updater and the modification time as before, its
    evidence count included; the evidence is left as it was; a later
    [ListRequirements] returns only other documents of the tenant; and
    [handleGetRequirement] still answers 200 for the id. *)
Theorem handleDeactivateRequirement_soft r claims q w :
  Claims r = Some claims ->
  requirements (db w) !! (UserClaims.OrganizationID claims, URLParam r "requirementID")
    = Some q ->
  Requirement.OrganizationID q = UserClaims.OrganizationID claims ->
  Requirement.ID q = URLParam r "requirementID" ->
  let org := UserClaims.OrganizationID claims in
  let id := URLParam r "requirementID" in
  let w' := snd (handleDeactivateRequirement r w) in
  let q' :=
    Requirement.set_UpdatedAt (clock w 0%nat)
      (Requirement.set_UpdatedBy (UserClaims.UID claims)
         (Requirement.set_IsActive false q)) in
  fst (handleDeactivateRequirement r w)
  = mkResponse http.StatusOK (jsonMessage "requirement deactivated successfully")
  /\ requirements (db w') = <[(org, id) := q']> (requirements (db w))
  /\ evidence (db w') = evidence (db w)
  /\ (forall l x,
        fst (ListRequirements org w') = Ok l ->
        x ∈ l ->
        exists id', id' <> id /\ requirements (db w) !! (org, id') = Some x)
  /\ StatusCode (fst (handleGetRequirement r w')) = http.StatusOK.
Proof.
  intros Hc Hq Horg Hid org id w' q'.
  assert (Hres : fst (handleDeactivateRequirement r w)
                 = mkResponse http.StatusOK
                     (jsonMessage "requirement deactivated successfully")
                 /\ requirements (db w') = <[(org, id) := q']> (requirements (db w))
                 /\ evidence (db w') = evidence (db w)).
  { subst w'. unfold handleDeactivateRequirement. rewrite Hc.
    unfold bind. rewrite GetRequirement_run, Hq. cbn [fst snd].
    unfold UpdateRequirement, bind. cbn. fold org. fold id.
    rewrite Horg, Hid. fold org. fold id. repeat split. }
  destruct Hres as (H1 & H2 & H3). repeat split; try assumption.
  - intros l x Hl Hx.
    destruct (ListRequirements_elem org w' l x Hl Hx) as (id' & Hx' & Hact).
    rewrite H2 in Hx'. exists id'.
    destruct (decide (id' = id)) as [->|Hne].
    + rewrite lookup_insert_eq in Hx'. injection Hx' as <-. discriminate Hact.
    + rewrite lookup_insert_ne in Hx' by congruence. split; assumption.
  - assert (Hl : requirements (db w')
                   !! (UserClaims.OrganizationID claims, URLParam r "requirementID")
                 = Some q') by (rewrite H2; apply lookup_insert_eq).
    rewrite (proj1 (handleGetRequirement_run r claims q' w' Hc Hl)).
    reflexivity.
Qed.

End RequirementLifecycle.

Lemma handleGetRequirement_derives_status_witness :
  let q := Sample.requirement "r1" 1 (Some (Sample.t0 + 3 * day)) in
  let w := Sample.world
             (store.set_requirements {[ ("org-a", "r1") := q ]} Sample.db4) in
  Requirement.Status q = StatusNotStarted
  /\ fst (api.handleGetRequirement (Sample.request Sample.claimsA "r1") w)
     = api.mkResponse http.StatusOK
         (api.jsonRequirement (Requirement.set_Status StatusAtRisk q)).
Proof.
  intros q w. split; [reflexivity|].
  exact (proj1 (handleGetRequirement_derives_status
                  (Sample.request Sample.claimsA "r1") Sample.claimsA q w
                  eq_refl eq_refl)).
Defined.

Lemma handleCreateRequirement_from_template_witness :
  let r := Sample.request Sample.claimsA "uuid-0" in
  let res :=
    api.handleCreateRequirement r
      (Some (api.CreateRequirementRequest.mk "sec-ria-001" "for 2025"))
      (Sample.world Fixture.templates) in
  api.StatusCode (fst res) = http.StatusCreated
  /\ api.StatusCode (fst (api.handleGetRequirement r (snd res))) = http.StatusOK.
Proof.
  intros r res.
  destruct (handleCreateRequirement_from_template r Sample.claimsA
              (api.CreateRequirementRequest.mk "sec-ria-001" "for 2025")
              Fixture.template (Sample.world Fixture.templates) eq_refl eq_refl)
    as (H1 & _ & _ & H4).
  split; [exact (f_equal api.StatusCode H1)|].
  exact (f_equal api.StatusCode (H4 r Sample.claimsA eq_refl eq_refl eq_refl)).
Defined.

Lemma handleDeactivateRequirement_soft_witness :
  let r := Sample.request Sample.claimsA "r1" in
  let w' := snd (api.handleDeactivateRequirement r (Sample.world Sample.db4)) in
  Requirement.IsActive <$> store.requirements (store.db w') !! ("org-a", "r1")
  = Some false
  /\ Requirement.EvidenceCount <$> store.requirements (store.db w') !! ("org-a", "r1")
     = Some 1.
Proof.
  intros r w'.
  destruct (handleDeactivateRequirement_soft r Sample.claimsA
              (Sample.requirement "r1" 1 None) (Sample.world Sample.db4)
              eq_refl eq_refl eq_refl eq_refl) as (_ & H2 & _).
  fold w' in H2. rewrite H2, lookup_insert_eq. split; reflexivity.
Defined.

(* ===================================================================== *)
(** * Subscriptions and seats                                            *)
(* ===================================================================== *)

Section Subscriptions.

Import store api.

Lemma UpdateOrganization_run o w :
  UpdateOrganization o w =
  ((Organization.set_UpdatedAt (clock w 0%nat) o, None),
   with_db (fun s =>
              set_organizations
                (<[Organization.ID o := Organization.set_UpdatedAt (clock w 0%nat) o]>
                   (organizations s)) s)
     (advance_clock w)).
Proof. reflexivity. Qed.

(** X16. Changing the subscription tier stores the tier of the request
    with the user limit and the price that [GetMaxUsers] and
    [GetMonthlyPrice] give for it (10 users for a tier that is none of the
    three known ones), keeps every other field of the subscription and of
    the organization but the modification time, and leaves the users as
    they were; an invitation that follows is refused exactly when the new
    limit is at most the number of user documents of the tenant. *)
Theorem handleUpdateSubscription_sets_limit r claims req o w :
  Claims r = Some claims ->
  organizations (db w) !! UserClaims.OrganizationID claims = Some o ->
  Organization.ID o = UserClaims.OrganizationID claims ->
  let org := UserClaims.OrganizationID claims in
  let tier := UpdateSubscriptionRequest.Tier req in
  let old := Organization.Subscription o in
  let sub :=
    Subscription.mk tier (Subscription.Status old) (Subscription.StripeCustomerID old)
      (Subscription.StripeSubscriptionID old) (Subscription.CurrentPeriodStart old)
      (Subscription.CurrentPeriodEnd old) (Subscription.CancelAtPeriodEnd old)
      (GetMaxUsers tier) (GetMonthlyPrice tier) in
  let w' := snd (handleUpdateSubscription r (Some req) w) in
  let n := Z.of_nat
             (size (filter (fun kv : string * User.t =>
                              User.OrganizationID (snd kv) = org) (users (db w)))) in
  fst (handleUpdateSubscription r (Some req) w)
  = mkReply http.StatusOK (payloadSubscription sub)
  /\ organizations (db w')
     = <[org := Organization.set_UpdatedAt (clock w 0%nat) (withSubscription sub o)]>
         (organizations (db w))
  /\ users (db w') = users (db w)
  /\ forall invitation,
       StatusCode (fst (handleInviteUser r (Some invitation) w'))
       = if GetMaxUsers tier <=? n then http.StatusForbidden else http.StatusOK.
Proof.
  intros Hc Ho Hid org tier old sub w' n.
  assert (Hres : fst (handleUpdateSubscription r (Some req) w)
                 = mkReply http.StatusOK (payloadSubscription sub)
                 /\ organizations (db w')
                    = <[org := Organization.set_UpdatedAt (clock w 0%nat)
                                 (withSubscription sub o)]> (organizations (db w))
                 /\ users (db w') = users (db w)).
  { subst w'. unfold handleUpdateSubscription. rewrite Hc.
    unfold bind. rewrite GetOrganization_run, Ho. cbn [fst snd].
    unfold withSubscription at 1 2 3. rewrite UpdateOrganization_run. cbn.
    rewrite Hid. repeat split. }
  destruct Hres as (H1 & H2 & H3). repeat split; try assumption.
  intros invitation.
  assert (Ho' : organizations (db w') !! UserClaims.OrganizationID claims
                = Some (Organization.set_UpdatedAt (clock w 0%nat)
                          (withSubscription sub o)))
    by (rewrite H2; apply lookup_insert_eq).
  rewrite (handleInviteUser_run r claims invitation _ w' Hc Ho').
  cbn [fst]. rewrite H3. fold org. fold n.
  change (Subscription.MaxUsers _) with (GetMaxUsers tier).
  destruct (GetMaxUsers tier <=? n); reflexivity.
Qed.

(** X17. Cancelling the subscription needs the organization's name as
    confirmation: with another name the request is answered 400 and
    changes nothing; with the name it is answered 200, the subscription is
    marked to end with the period while its tier, status, limit and price
    stay, and no audit entry is written. *)
Theorem handleCancelSubscription_confirmation r claims req o w :
  Claims r = Some claims ->
  organizations (db w) !! UserClaims.OrganizationID claims = Some o ->
  Organization.ID o = UserClaims.OrganizationID claims ->
  let org := UserClaims.OrganizationID claims in
  let old := Organization.Subscription o in
  let res := handleCancelSubscription r (Some req) w in
  (CancelSubscriptionRequest.ConfirmOrganizationName req <> Organization.Name o ->
   ReplyStatus (fst res) = http.StatusBadRequest /\ snd res = w)
  /\ (CancelSubscriptionRequest.ConfirmOrganizationName req = Organization.Name o ->
      ReplyStatus (fst res) = http.StatusOK
      /\ organizations (db (snd res))
         = <[org :=
               Organization.set_UpdatedAt (clock w 0%nat)
                 (withSubscription
                    (Subscription.mk (Subscription.Tier old) (Subscription.Status old)
                       (Subscription.StripeCustomerID old)
                       (Subscription.StripeSubscriptionID old)
                       (Subscription.CurrentPeriodStart old)
                       (Subscription.CurrentPeriodEnd old) true
                       (Subscription.MaxUsers old) (Subscription.MonthlyPrice old))
                    o)]>
             (organizations (db w))
      /\ audit_logs (db (snd res)) = audit_logs (db w)).
Proof.
  intros Hc Ho Hid org old res. subst res.
  unfold handleCancelSubscription. rewrite Hc.
  unfold bind. rewrite GetOrganization_run, Ho. cbn [fst snd].
  split.
  - intros Hne. apply String.eqb_neq in Hne. rewrite Hne. split; reflexivity.
  - intros He. apply String.eqb_eq in He. rewrite He. cbn [negb].
    unfold withSubscription at 1 2 3. rewrite UpdateOrganization_run. cbn.
    rewrite Hid. repeat split.
Qed.

Lemma filter_size_replace (P : string * User.t -> Prop) `{!forall kv, Decision (P kv)}
    (m : gmap string User.t) k u u' :
  m !! k = Some u -> P (k, u) -> P (k, u') ->
  size (filter P (<[k := u']> m)) = size (filter P m).
Proof.
  intros Hk Hu Hu'.
  rewrite map_filter_insert_True by exact Hu'.
  apply map_size_insert_Some. exists u.
  apply map_lookup_filter_Some. split; assumption.
Qed.

(** X18. Removing a user frees no seat: after [handleDeleteUser] has
    answered 200 and marked the user's document [inactive], the tenant has
    as many user documents as before, and an invitation is answered as it
    would have been before the removal. *)
Theorem handleDeleteUser_keeps_seat authDeleteUser r claims u o invitation w :
  Claims r = Some claims ->
  URLParam r "userID" <> UserClaims.UID claims ->
  users (db w) !! URLParam r "userID" = Some u ->
  User.UID u = URLParam r "userID" ->
  User.OrganizationID u = UserClaims.OrganizationID claims ->
  authDeleteUser (URLParam r "userID") = None ->
  organizations (db w) !! UserClaims.OrganizationID claims = Some o ->
  let w' := snd (handleDeleteUser authDeleteUser r w) in
  let seats (s : FirestoreStore) :=
    size (filter (fun kv : string * User.t =>
                    User.OrganizationID (snd kv) = UserClaims.OrganizationID claims)
                 (users s)) in
  fst (handleDeleteUser authDeleteUser r w)
  = mkResponse http.StatusOK (jsonMessage "user deleted successfully")
  /\ User.Status <$> users (db w') !! URLParam r "userID" = Some "inactive"
  /\ seats (db w') = seats (db w)
  /\ fst (handleInviteUser r (Some invitation) w')
     = fst (handleInviteUser r (Some invitation) w).
Proof.
  intros Hc Hself Hu Huid Horg Hauth Ho w' seats.
  pose proof (handleDeleteUser_run authDeleteUser r claims u w Hc Hself Hu) as Hrun.
  rewrite Horg, String.eqb_refl, Hauth in Hrun. cbn [negb] in Hrun.
  assert (Husers : users (db w')
                   = <[URLParam r "userID" :=
                         User.set_UpdatedAt (clock w 0%nat)
                           (User.set_Status "inactive" u)]> (users (db w))).
  { subst w'. rewrite Hrun. cbn [snd].
    rewrite (proj1 (UpdateUser_db _ w)). cbn. rewrite Huid. reflexivity. }
  assert (Horgs : organizations (db w') = organizations (db w)).
  { subst w'. rewrite Hrun. reflexivity. }
  assert (Hseats : seats (db w') = seats (db w)).
  { subst seats. cbn beta. rewrite Husers.
    apply (filter_size_replace _ _ _ u); [exact Hu | exact Horg | exact Horg]. }
  split; [rewrite Hrun; reflexivity|]. split.
  - rewrite Husers, lookup_insert_eq. reflexivity.
  - split; [exact Hseats|].
    assert (Ho' : organizations (db w') !! UserClaims.OrganizationID claims = Some o)
      by (rewrite Horgs; exact Ho).
    rewrite (handleInviteUser_run r claims invitation o w' Hc Ho').
    rewrite (handleInviteUser_run r claims invitation o w Hc Ho).
    cbn [fst]. fold (seats (db w')). fold (seats (db w)). rewrite Hseats. reflexivity.
Qed.

End Subscriptions.

Lemma handleUpdateSubscription_sets_limit_witness :
  let r := Sample.request Sample.claimsA EmptyString in
  let w := Sample.world Sample.db3 in
  let w' := snd (api.handleUpdateSubscription r
                   (Some (api.UpdateSubscriptionRequest.mk TierProfessional)) w) in
  api.StatusCode (fst (api.handleInviteUser r (Some Sample.invite) w))
  = http.StatusForbidden
  /\ api.StatusCode (fst (api.handleInviteUser r (Some Sample.invite) w'))
     = http.StatusOK.
Proof.
  intros r w w'. split; [reflexivity|].
  destruct (handleUpdateSubscription_sets_limit r Sample.claimsA
              (api.UpdateSubscriptionRequest.mk TierProfessional)
              (Sample.organization "org-a" 2) w eq_refl eq_refl eq_refl)
    as (_ & _ & _ & H).
  exact (eq_trans (H Sample.invite) eq_refl).
Defined.

Lemma handleCancelSubscription_confirmation_witness :
  let r := Sample.request Sample.claimsA EmptyString in
  let w := Sample.world Sample.db3 in
  api.ReplyStatus
    (fst (api.handleCancelSubscription r
            (Some (api.CancelSubscriptionRequest.mk "Acme")) w))
  = http.StatusBadRequest
  /\ api.ReplyStatus
       (fst (api.handleCancelSubscription r
               (Some (api.CancelSubscriptionRequest.mk "Acme RIA")) w))
     = http.StatusOK.
Proof.
  intros r w. split.
  - apply (proj1 (handleCancelSubscription_confirmation r Sample.claimsA
                    (api.CancelSubscriptionRequest.mk "Acme")
                    (Sample.organization "org-a" 2) w eq_refl eq_refl eq_refl)).
    discriminate.
  - apply (proj2 (handleCancelSubscription_confirmation r Sample.claimsA
                    (api.CancelSubscriptionRequest.mk "Acme RIA")
                    (Sample.organization "org-a" 2) w eq_refl eq_refl eq_refl)).
    reflexivity.
Defined.

Lemma handleDeleteUser_keeps_seat_witness :
  let r := Sample.request Sample.claimsA "u-old" in
  let w := Sample.world Fixture.seats in
  let w' := snd (api.handleDeleteUser Sample.authDeleteUser r w) in
  User.Status <$> store.users (store.db w') !! "u-old" = Some "inactive"
  /\ fst (api.handleInviteUser r (Some Sample.invite) w')
     = fst (api.handleInviteUser r (Some Sample.invite) w).
Proof.
  intros r w w'.
  destruct (handleDeleteUser_keeps_seat Sample.authDeleteUser r Sample.claimsA
              (Sample.user "u-old" "org-a" RoleViewer "active")
              (Sample.organization "org-a" 2) Sample.invite w
              eq_refl ltac:(discriminate) eq_refl eq_refl eq_refl eq_refl eq_refl)
    as (_ & H2 & _ & H4).
  split; [exact H2 | exact H4].
Defined.

(* ===================================================================== *)
(** * Authentication and membership                                      *)
(* ===================================================================== *)

Section Authentication.

Import store api.

Variable StorageBucket : string.
Variable SignedURL : string -> string -> string -> time.Time -> string -> result string.
Variable ParseRFC3339 : string -> option time.Time.
Variable authDeleteUser : string -> error.
Variable VerifyIDToken : string -> result Token.t.
Variable authCreateUser : string -> string -> string -> result string.
Variable AddDate : time.Time -> Z -> Z -> Z -> time.Time.
Variable Atoi : string -> option Z.
Variable FormatRFC3339 : time.Time -> string.
Variable FormatDate : time.Time -> string.

Local Abbreviation server :=
  (serve StorageBucket SignedURL ParseRFC3339 authDeleteUser VerifyIDToken
     authCreateUser AddDate Atoi FormatRFC3339 FormatDate).

Lemma Authenticate_refuses h next w :
  (forall token tok,
     splitSpace (Authorization h) = ["Bearer"; token] ->
     VerifyIDToken token = Ok tok -> False) ->
  ReplyStatus (fst (Authenticate VerifyIDToken h next w)) = http.StatusUnauthorized
  /\ snd (Authenticate VerifyIDToken h next w) = w.
Proof.
  intros Hbad. unfold Authenticate.
  destruct (String.eqb (Authorization h) EmptyString); [split; reflexivity|].
  destruct (splitSpace (Authorization h)) as [|bearer [|token [|x l]]] eqn:Hs;
    try (split; reflexivity).
  destruct (String.eqb_spec bearer "Bearer") as [->|Hne]; cbn [negb];
    [|split; reflexivity].
  destruct (VerifyIDToken token) as [tok|e] eqn:Hv; [|split; reflexivity].
  exfalso. exact (Hbad token tok eq_refl Hv).
Qed.

(** X19. Every route but the six public ones (health, registration,
    password reset, the Stripe webhook and the two worker endpoints)
    answers 401 and changes nothing when the request carries no
    [Authorization] header of the form [Bearer <token>] with a token the
    verifier accepts. *)
Theorem serve_requires_token route h w :
  publicRoute route = false ->
  (forall token tok,
     splitSpace (Authorization h) = ["Bearer"; token] ->
     VerifyIDToken token = Ok tok -> False) ->
  ReplyStatus (fst (server route h w)) = http.StatusUnauthorized
  /\ snd (server route h w) = w.
Proof.
  intros Hroute Hbad.
  destruct route; try discriminate Hroute; cbn [serve];
    apply Authenticate_refuses; exact Hbad.
Qed.

(** X20. A verified token that carries no organization id (or an empty
    one) is refused with 403 and changes nothing on every route of the
    organization group, that is on every route that is neither public nor
    one of the two profile routes. *)
Theorem serve_requires_organization route h token tok email verified w :
  publicRoute route = false ->
  profileRoute route = false ->
  splitSpace (Authorization h) = ["Bearer"; token] ->
  VerifyIDToken token = Ok tok ->
  Token.email tok = Some email ->
  Token.email_verified tok = Some verified ->
  default EmptyString (Token.organizationId tok) = EmptyString ->
  fst (server route h w)
  = mkReply http.StatusForbidden
      (payloadJSON (jsonError "organization membership required"))
  /\ snd (server route h w) = w.
Proof.
  intros Hpub Hprof Hs Hv He Hev Horg.
  assert (Hauth : String.eqb (Authorization h) EmptyString = false).
  { destruct (String.eqb_spec (Authorization h) EmptyString) as [Hh|]; [|reflexivity].
    rewrite Hh in Hs. discriminate Hs. }
  destruct route; try discriminate Hpub; try discriminate Hprof; cbn [serve];
    unfold Authenticate; rewrite Hauth, Hs; cbn [String.eqb Ascii.eqb Bool.eqb negb];
    rewrite Hv, He, Hev; unfold RequireOrganization;
    cbn [Claims withClaims UserClaims.OrganizationID]; rewrite Horg;
    split; reflexivity.
Qed.

End Authentication.

Lemma serve_requires_token_witness :
  let w := Sample.world Sample.db4 in
  api.ReplyStatus
    (fst (Fixture.serve api.DELETE_evidence (Fixture.request "token-x" "e1") w))
  = http.StatusUnauthorized
  /\ snd (Fixture.serve api.DELETE_evidence (Fixture.request "token-x" "e1") w) = w.
Proof.
  intros w.
  apply (serve_requires_token
           Fixture.StorageBucket Fixture.SignedURL Sample.parse Sample.authDeleteUser
           Fixture.VerifyIDToken Fixture.authCreateUser Fixture.AddDate Fixture.Atoi
           Fixture.Format Fixture.Format
           api.DELETE_evidence (Fixture.request "token-x" "e1") w eq_refl).
  intros token tok Hs Hv. vm_compute in Hs. injection Hs as <-.
  vm_compute in Hv. discriminate Hv.
Defined.

Lemma serve_requires_organization_witness :
  let w := Sample.world Sample.db4 in
  api.ReplyStatus
    (fst (Fixture.serve api.GET_evidence_list (Fixture.request "token-n" EmptyString) w))
  = http.StatusForbidden
  /\ snd (Fixture.serve api.GET_evidence_list (Fixture.request "token-n" EmptyString) w)
     = w.
Proof.
  intros w.
  destruct (serve_requires_organization
              Fixture.StorageBucket Fixture.SignedURL Sample.parse Sample.authDeleteUser
              Fixture.VerifyIDToken Fixture.authCreateUser Fixture.AddDate Fixture.Atoi
              Fixture.Format Fixture.Format
              api.GET_evidence_list (Fixture.request "token-n" EmptyString) "token-n"
              (api.Token.mk "u-new" (Some "new@acme.example") (Some false) None None)
              "new@acme.example" false w
              eq_refl eq_refl eq_refl eq_refl eq_refl eq_refl eq_refl) as [H1 H2].
  split; [exact (f_equal api.ReplyStatus H1) | exact H2].
Defined.

(* ===================================================================== *)
(** * Reports and the audit log                                          *)
(* ===================================================================== *)

Section Reports.

Import store api.

Variable StorageBucket : string.
Variable SignedURL : string -> string -> string -> time.Time -> string -> result string.
Variable FormatRFC3339 : time.Time -> string.
Variable FormatDate : time.Time -> string.

(** X21. A report request of one of the two known types answers 202 and
    stores a report of the caller's tenant under a fresh id in status
    [pending] with no file; [handleGetReport] then answers with that
    report, the download of it is refused with 400 because it is not
    completed, and [handleListReports] still answers with an empty list.
    A request of any other type is refused with 400 and changes
    nothing. *)
Theorem handleGenerateReport_pending r claims req w :
  Claims r = Some claims ->
  let org := UserClaims.OrganizationID claims in
  let res := handleGenerateReport r (Some req) w in
  let p :=
    Report.mk (uuids w 0%nat) org (GenerateReportRequest.Title req)
      (GenerateReportRequest.Description req) (GenerateReportRequest.Type_ req)
      (GenerateReportRequest.RequirementIDs req) "pending" EmptyString
      (UserClaims.UID claims) (clock w 0%nat) None EmptyString in
  (GenerateReportRequest.Type_ req = "requirement_detail"
   \/ GenerateReportRequest.Type_ req = "comprehensive" ->
   fst res = mkResponse http.StatusAccepted (jsonReport p)
   /\ reports (db (snd res)) = <[(org, uuids w 0%nat) := p]> (reports (db w))
   /\ fst (handleListReports r (snd res)) = mkReply http.StatusOK payloadEmptyList
   /\ forall r' claims',
        Claims r' = Some claims' ->
        UserClaims.OrganizationID claims' = org ->
        URLParam r' "reportID" = uuids w 0%nat ->
        fst (handleGetReport r' (snd res)) = mkResponse http.StatusOK (jsonReport p)
        /\ handleGetReportDownloadURL StorageBucket SignedURL r' (snd res)
           = (mkResponse http.StatusBadRequest
                (jsonError "report is not ready for download"), snd res))
  /\ (GenerateReportRequest.Type_ req <> "requirement_detail" ->
      GenerateReportRequest.Type_ req <> "comprehensive" ->
      StatusCode (fst res) = http.StatusBadRequest /\ snd res = w).
Proof.
  clear FormatRFC3339 FormatDate.
  intros Hc org res p. split.
  - intros Htype.
    assert (Hb : negb (String.eqb (GenerateReportRequest.Type_ req) "requirement_detail")
                 && negb (String.eqb (GenerateReportRequest.Type_ req) "comprehensive")
                 = false).
    { destruct Htype as [-> | ->]; reflexivity. }
    assert (Hres : fst res = mkResponse http.StatusAccepted (jsonReport p)
                   /\ reports (db (snd res))
                      = <[(org, uuids w 0%nat) := p]> (reports (db w))).
    { subst res. unfold handleGenerateReport. rewrite Hc, Hb. split; reflexivity. }
    destruct Hres as [H1 H2]. split; [exact H1|]. split; [exact H2|]. split.
    + unfold handleListReports. rewrite Hc. reflexivity.
    + intros r' claims' Hc' Horg Hid.
      assert (Hl : reports (db (snd res))
                     !! (UserClaims.OrganizationID claims', URLParam r' "reportID")
                   = Some p) by (rewrite H2, Horg, Hid; apply lookup_insert_eq).
      split.
      * unfold handleGetReport. rewrite Hc'. unfold bind.
        rewrite GetReport_run, Hl. reflexivity.
      * unfold handleGetReportDownloadURL. rewrite Hc'. unfold bind.
        rewrite GetReport_run, Hl. reflexivity.
  - intros H1 H2. subst res. unfold handleGenerateReport. rewrite Hc.
    apply String.eqb_neq in H1, H2. rewrite H1, H2. split; reflexivity.
Qed.

#[local] Instance newerFirst_trans : Transitive newerFirst.
Proof. intros a b c. unfold newerFirst. lia. Qed.

#[local] Instance newerFirst_total : Total newerFirst.
Proof. intros a b. unfold newerFirst. lia. Qed.

(** X22. [ListAuditLogs] changes nothing and returns entries of the given
    organization that pass every filter, newest first, and at most
    [limit] of them when [limit] is positive: as many as pass when that
    is fewer. *)
Theorem ListAuditLogs_newest_first org filters limit w :
  snd (ListAuditLogs org filters limit w) = w
  /\ exists l,
       fst (ListAuditLogs org filters limit w) = Ok l
       /\ StronglySorted newerFirst l
       /\ (forall x, x ∈ l ->
             (exists id, audit_logs (db w) !! (org, id) = Some x)
             /\ auditMatches filters x = true)
       /\ length l
          = let n := length
                       (List.filter (auditMatches filters)
                          (snd <$> List.filter
                                     (fun kv => String.eqb (fst (fst kv)) org)
                                     (map_to_list (audit_logs (db w))))) in
            if 0 <? limit then Nat.min (Z.to_nat limit) n else n.
Proof.
  clear StorageBucket SignedURL FormatRFC3339 FormatDate.
  split; [reflexivity|].
  unfold ListAuditLogs, bind, get_db, ret. cbn [fst snd].
  set (matching := List.filter (auditMatches filters) _).
  eexists. split; [reflexivity|].
  assert (Hsorted : StronglySorted newerFirst (merge_sort newerFirst matching))
    by apply (StronglySorted_merge_sort newerFirst).
  assert (Hin : forall x, x ∈ merge_sort newerFirst matching ->
                  (exists id, audit_logs (db w) !! (org, id) = Some x)
                  /\ auditMatches filters x = true).
  { intros x Hx. rewrite merge_sort_Permutation in Hx. subst matching.
    apply list_elem_of_In, filter_In in Hx as [Hx Hm]. split; [|exact Hm].
    apply list_elem_of_In, list_elem_of_fmap in Hx as ([[o id] y] & -> & Hy).
    apply list_elem_of_In, filter_In in Hy as [Hy Ho]. cbn in Ho.
    apply String.eqb_eq in Ho as ->.
    apply list_elem_of_In, elem_of_map_to_list in Hy. exists id. exact Hy. }
  assert (Hlen : length (merge_sort newerFirst matching) = length matching)
    by (rewrite merge_sort_Permutation; reflexivity).
  destruct (0 <? limit).
  - split; [|split].
    + rewrite <- (take_drop (Z.to_nat limit) (merge_sort newerFirst matching)) in Hsorted.
      exact (StronglySorted_app_1_l _ _ _ Hsorted).
    + intros x Hx. apply Hin. exact (subseteq_take _ _ x Hx).
    + cbv zeta. rewrite length_take, Hlen. reflexivity.
  - split; [exact Hsorted|]. split; [exact Hin | exact Hlen].
Qed.

(** X23. The export of the audit log changes nothing and honours the
    [user_id] and [action] query parameters only; it is refused with 400
    as soon as 10000 entries or more pass them, exactly 10000 included,
    and otherwise answers 200 with the header and one row per entry that
    passes. *)
Theorem handleExportAuditLogs_ceiling r claims w :
  Claims r = Some claims ->
  let filters := (queryFilter r "user_id" ++ queryFilter r "action")%list in
  let n := length
             (List.filter (auditMatches filters)
                (snd <$> List.filter
                           (fun kv =>
                              String.eqb (fst (fst kv)) (UserClaims.OrganizationID claims))
                           (map_to_list (audit_logs (db w))))) in
  let res := handleExportAuditLogs FormatRFC3339 FormatDate r w in
  db (snd res) = db w
  /\ (10000 <= Z.of_nat n ->
      fst res = mkReply http.StatusBadRequest
                  (payloadJSON
                     (jsonError
                        "too many results. Please narrow your date range (max 10,000 entries)")))
  /\ (Z.of_nat n < 10000 ->
      exists name rows,
        fst res = mkReply http.StatusOK (payloadCSV name (exportHeader :: rows))
        /\ length rows = n).
Proof.
  clear StorageBucket SignedURL.
  intros Hc filters n res.
  destruct (ListAuditLogs_newest_first (UserClaims.OrganizationID claims) filters 10000 w)
    as (Hw & l & Hl & _ & _ & Hlen).
  fold filters in Hlen. cbv zeta in Hlen. fold n in Hlen.
  change (0 <? 10000) with true in Hlen. cbn match in Hlen.
  assert (Hres : res =
    if 10000 <=? Z.of_nat (length l)
    then (mkReply http.StatusBadRequest
            (payloadJSON
               (jsonError
                  "too many results. Please narrow your date range (max 10,000 entries)")),
          w)
    else (mkReply http.StatusOK
            (payloadCSV ("audit_log_" +:+ FormatDate (clock w 0%nat) +:+ ".csv")
               (exportHeader :: map (exportRow FormatRFC3339) l)),
          advance_clock w)).
  { subst res. unfold handleExportAuditLogs. rewrite Hc. unfold bind at 1.
    fold filters.
    rewrite (surjective_pairing (ListAuditLogs _ filters 10000 w)), Hl, Hw.
    cbn [fst snd]. destruct (10000 <=? Z.of_nat (length l)); reflexivity. }
  rewrite Hres. clear Hres. split; [|split].
  - destruct (10000 <=? Z.of_nat (length l)); reflexivity.
  - intros Hn. destruct (Z.leb_spec 10000 (Z.of_nat (length l))); [reflexivity | lia].
  - intros Hn. destruct (Z.leb_spec 10000 (Z.of_nat (length l))); [lia|].
    eexists _, _. split; [reflexivity|]. rewrite length_map. lia.
Qed.

End Reports.

Lemma handleGenerateReport_pending_witness :
  let r := Sample.request Sample.claimsA "uuid-0" in
  let res :=
    api.handleGenerateReport r
      (Some (api.GenerateReportRequest.mk "comprehensive" [] "Q1" EmptyString))
      (Sample.world Sample.db4) in
  api.StatusCode (fst res) = http.StatusAccepted
  /\ api.StatusCode
       (fst (api.handleGetReportDownloadURL Fixture.StorageBucket Fixture.SignedURL r
               (snd res)))
     = http.StatusBadRequest.
Proof.
  intros r res.
  destruct (proj1 (handleGenerateReport_pending Fixture.StorageBucket Fixture.SignedURL
                     r Sample.claimsA
                     (api.GenerateReportRequest.mk "comprehensive" [] "Q1" EmptyString)
                     (Sample.world Sample.db4) eq_refl)
              (or_intror eq_refl)) as (H1 & _ & _ & H4).
  split; [exact (f_equal api.StatusCode H1)|].
  destruct (H4 r Sample.claimsA eq_refl eq_refl eq_refl) as [_ H5].
  exact (f_equal (fun p => api.StatusCode (fst p)) H5).
Defined.

Lemma handleExportAuditLogs_ceiling_witness :
  let r := Sample.request Sample.claimsA "e1" in
  let w := snd (api.handleDeleteEvidence r (Sample.world Sample.db4)) in
  exists name rows,
    fst (api.handleExportAuditLogs Fixture.Format Fixture.Format r w)
    = api.mkReply http.StatusOK (api.payloadCSV name (api.exportHeader :: rows))
    /\ length rows = 1%nat.
Proof.
  intros r w.
  apply (proj2 (proj2 (handleExportAuditLogs_ceiling Fixture.Format Fixture.Format
                         r Sample.claimsA w eq_refl))).
  vm_compute. reflexivity.
Defined.

(* ===================================================================== *)
(** * The dashboard and the roles                                        *)
(* ===================================================================== *)

Section Dashboard.

Import store api.

Variable AddDate : time.Time -> Z -> Z -> Z -> time.Time.

Lemma dashboardLoop_counts now soon l m w :
  let m' := fst (dashboardLoop now soon l m w) in
  DashboardMetrics.TotalRequirements m' = DashboardMetrics.TotalRequirements m
  /\ DashboardMetrics.TotalEvidence m' = DashboardMetrics.TotalEvidence m
  /\ DashboardMetrics.CompliantRequirements m
     <= DashboardMetrics.CompliantRequirements m'
  /\ DashboardMetrics.AtRiskRequirements m <= DashboardMetrics.AtRiskRequirements m'
  /\ DashboardMetrics.NonCompliantRequirements m
     <= DashboardMetrics.NonCompliantRequirements m'
  /\ DashboardMetrics.CompliantRequirements m' + DashboardMetrics.AtRiskRequirements m'
     + DashboardMetrics.NonCompliantRequirements m'
     <= DashboardMetrics.CompliantRequirements m + DashboardMetrics.AtRiskRequirements m
        + DashboardMetrics.NonCompliantRequirements m + Z.of_nat (length l)
  /\ (length (DashboardMetrics.UpcomingDeadlines m')
      <= length (DashboardMetrics.UpcomingDeadlines m) + length l)%nat
  /\ db (snd (dashboardLoop now soon l m w)) = db w.
Proof.
  clear AddDate.
  revert m w. induction l as [|q l IH]; intros m w; cbn [dashboardLoop].
  - cbn. repeat split; lia.
  - unfold bind. cbv beta zeta.
    destruct (api_CalculateStatus_run q w) as (_ & Hdb & _).
    set (st := fst (api.CalculateStatus q w)).
    set (w1 := snd (api.CalculateStatus q w)) in *.
    match goal with |- context [dashboardLoop now soon l ?m1 w1] =>
      specialize (IH m1 w1); set (m2 := m1) in *
    end.
    cbv zeta in IH. destruct IH as (I1 & I2 & I3 & I4 & I5 & I6 & I7 & I8).
    assert (Hup : (length (DashboardMetrics.UpcomingDeadlines m2)
                   <= S (length (DashboardMetrics.UpcomingDeadlines m)))%nat).
    { subst m2. cbn [DashboardMetrics.UpcomingDeadlines].
      destruct (Requirement.NextDueDate (Requirement.set_Status st q)); [|lia].
      destruct (_ && _); [rewrite length_app; cbn; lia | lia]. }
    subst m2. cbn [DashboardMetrics.TotalRequirements DashboardMetrics.TotalEvidence
                   DashboardMetrics.CompliantRequirements
                   DashboardMetrics.AtRiskRequirements
                   DashboardMetrics.NonCompliantRequirements] in *.
    cbn [length].
    destruct (String.eqb_spec st StatusCompliant) as [E1|E1];
      destruct (String.eqb_spec st StatusAtRisk) as [E2|E2];
      destruct (String.eqb_spec st StatusNonCompliant) as [E3|E3];
      try (rewrite E1 in E2; discriminate E2);
      try (rewrite E1 in E3; discriminate E3);
      try (rewrite E2 in E3; discriminate E3);
      repeat split; try lia; congruence.
Qed.

(** X24. The dashboard changes nothing.  It reports the number of active
    requirements of the tenant as the total and the number of its active
    evidence items; the counts of compliant, at-risk and non-compliant
    requirements are not negative and add up to at most the total (a
    requirement that is not started or in progress is in none of them),
    and there are at most that many upcoming deadlines. *)
Theorem handleGetDashboard_counts r claims w :
  Claims r = Some claims ->
  let org := UserClaims.OrganizationID claims in
  db (snd (handleGetDashboard AddDate r w)) = db w
  /\ exists m,
       fst (handleGetDashboard AddDate r w) = mkReply http.StatusOK (payloadDashboard m)
       /\ (forall l, fst (ListRequirements org w) = Ok l ->
             DashboardMetrics.TotalRequirements m = Z.of_nat (length l))
       /\ (forall l, fst (ListEvidence org [] w) = Ok l ->
             DashboardMetrics.TotalEvidence m = Z.of_nat (length l))
       /\ 0 <= DashboardMetrics.CompliantRequirements m
       /\ 0 <= DashboardMetrics.AtRiskRequirements m
       /\ 0 <= DashboardMetrics.NonCompliantRequirements m
       /\ DashboardMetrics.CompliantRequirements m
          + DashboardMetrics.AtRiskRequirements m
          + DashboardMetrics.NonCompliantRequirements m
          <= DashboardMetrics.TotalRequirements m
       /\ Z.of_nat (length (DashboardMetrics.UpcomingDeadlines m))
          <= DashboardMetrics.TotalRequirements m.
Proof.
  intros Hc org.
  set (reqs := List.filter Requirement.IsActive
                 (snd <$> List.filter (fun kv => String.eqb (fst (fst kv)) org)
                            (map_to_list (requirements (db w))))).
  set (m0 := DashboardMetrics.mk (Z.of_nat (length reqs)) 0 0 0 0 []).
  set (loop := dashboardLoop (clock w 0%nat) (AddDate (clock w 0%nat) 0 0 30)
                 reqs m0 (advance_clock w)).
  assert (Hrun :
    handleGetDashboard AddDate r w =
    (mkReply http.StatusOK
       (payloadDashboard
          match fst (ListEvidence org [] (snd loop)) with
          | Ok evidence =>
              DashboardMetrics.mk
                (DashboardMetrics.TotalRequirements (fst loop))
                (DashboardMetrics.CompliantRequirements (fst loop))
                (DashboardMetrics.AtRiskRequirements (fst loop))
                (DashboardMetrics.NonCompliantRequirements (fst loop))
                (Z.of_nat (length evidence))
                (DashboardMetrics.UpcomingDeadlines (fst loop))
          | Err _ => fst loop
          end),
     snd loop)).
  { unfold handleGetDashboard. rewrite Hc. reflexivity. }
  destruct (dashboardLoop_counts (clock w 0%nat) (AddDate (clock w 0%nat) 0 0 30)
              reqs m0 (advance_clock w))
    as (I1 & I2 & I3 & I4 & I5 & I6 & I7 & I8).
  cbv zeta in I1, I2, I3, I4, I5, I6, I7. fold loop in I1, I2, I3, I4, I5, I6, I7, I8.
  subst m0.
  cbn [DashboardMetrics.TotalRequirements DashboardMetrics.TotalEvidence
       DashboardMetrics.CompliantRequirements DashboardMetrics.AtRiskRequirements
       DashboardMetrics.NonCompliantRequirements DashboardMetrics.UpcomingDeadlines
       length] in I1, I2, I3, I4, I5, I6, I7.
  assert (Hev : fst (ListEvidence org [] (snd loop)) = fst (ListEvidence org [] w)).
  { unfold ListEvidence, bind, get_db, ret. cbn [fst snd]. rewrite I8. reflexivity. }
  rewrite Hrun. cbn [fst snd]. split; [exact I8|].
  eexists. split; [reflexivity|]. rewrite Hev.
  change (fst (ListEvidence org [] w)) with
    (Ok (List.filter
           (fun e =>
              String.eqb (Evidence.Status e) "active"
              && forallb (fun kv : string * string =>
                            match Evidence.field e (fst kv) with
                            | Some v => String.eqb v (snd kv)
                            | None => false
                            end) [])
           (snd <$> List.filter (fun kv => String.eqb (fst (fst kv)) org)
                      (map_to_list (evidence (db w)))))).
  cbn [DashboardMetrics.TotalRequirements DashboardMetrics.TotalEvidence
       DashboardMetrics.CompliantRequirements DashboardMetrics.AtRiskRequirements
       DashboardMetrics.NonCompliantRequirements DashboardMetrics.UpcomingDeadlines].
  split; [|split].
  - intros l Hl. change (fst (ListRequirements org w)) with (Ok reqs) in Hl.
    injection Hl as <-. exact I1.
  - intros l [= <-]. reflexivity.
  - repeat split; lia.
Qed.

(** X25. The role checks of the server agree with the role model:
    [requireWrite] lets a request through exactly when a user with the
    role of the claims can write, and [requireAdmin] exactly when that
    user is an administrator. *)
Theorem requireWrite_CanWrite r claims u next :
  Claims r = Some claims ->
  User.Role u = UserClaims.Role claims ->
  requireWrite r next
  = (if User.CanWrite u then next
     else respondError http.StatusForbidden "write permission required")
  /\ requireAdmin r next
     = (if User.IsAdmin u then next
        else respondError http.StatusForbidden "admin role required").
Proof.
  clear AddDate.
  intros Hc Hrole. unfold requireWrite, requireAdmin, User.CanWrite, User.IsAdmin.
  rewrite Hc, Hrole. unfold RoleAdmin, RoleComplianceOfficer.
  destruct (String.eqb (UserClaims.Role claims) "admin");
    destruct (String.eqb (UserClaims.Role claims) "compliance_officer");
    split; reflexivity.
Qed.

(** X26. The permissions are ordered by role: what a viewer may do a
    compliance officer may do, what a compliance officer may do an
    administrator may do, and a user with any other role may do
    nothing. *)
Theorem HasPermission_hierarchy viewer officer admin other action :
  User.Role viewer = RoleViewer ->
  User.Role officer = RoleComplianceOfficer ->
  User.Role admin = RoleAdmin ->
  User.Role other <> RoleViewer ->
  User.Role other <> RoleComplianceOfficer ->
  User.Role other <> RoleAdmin ->
  (User.HasPermission viewer action = true -> User.HasPermission officer action = true)
  /\ (User.HasPermission officer action = true ->
      User.HasPermission admin action = true)
  /\ User.HasPermission other action = false.
Proof.
  clear AddDate.
  intros Hv Ho Ha H1 H2 H3. unfold User.HasPermission.
  rewrite Hv, Ho, Ha. cbn [String.eqb Ascii.eqb Bool.eqb RoleViewer RoleComplianceOfficer
                           RoleAdmin andb].
  apply String.eqb_neq in H1, H2, H3. rewrite H1, H2, H3.
  split; [|split; reflexivity].
  rewrite !orb_true_iff, !String.eqb_eq.
  intros [[[[-> | ->] | ->] | ->] | ->]; reflexivity.
Qed.

End Dashboard.

Lemma handleGetDashboard_counts_witness :
  let r := Sample.request Sample.claimsA EmptyString in
  let w := Sample.world Sample.db4 in
  store.db (snd (api.handleGetDashboard Fixture.AddDate r w)) = Sample.db4
  /\ exists m,
       fst (api.handleGetDashboard Fixture.AddDate r w)
       = api.mkReply http.StatusOK (api.payloadDashboard m)
       /\ api.DashboardMetrics.TotalRequirements m = 1
       /\ api.DashboardMetrics.TotalEvidence m = 1.
Proof.
  intros r w.
  destruct (handleGetDashboard_counts Fixture.AddDate r Sample.claimsA w eq_refl)
    as (Hdb & m & Hm & Hreq & Hev & _).
  split; [exact Hdb|]. exists m. split; [exact Hm|]. split.
  - exact (Hreq _ eq_refl).
  - exact (Hev _ eq_refl).
Defined.

Lemma requireWrite_CanWrite_witness :
  let r := Sample.request
             (UserClaims.mk "u-view" "view@acme.example" true "org-a" "viewer")
             EmptyString in
  api.requireWrite r (api.handleDeleteEvidence r)
  = api.respondError http.StatusForbidden "write permission required".
Proof.
  intros r.
  exact (proj1 (requireWrite_CanWrite r
                  (UserClaims.mk "u-view" "view@acme.example" true "org-a" "viewer")
                  (Sample.user "u-view" "org-a" RoleViewer "active")
                  (api.handleDeleteEvidence r) eq_refl eq_refl)).
Defined.

Lemma HasPermission_hierarchy_witness :
  User.HasPermission (Sample.user "u1" "org-a" RoleViewer "active") "upload_evidence"
  = false
  /\ User.HasPermission (Sample.user "u4" "org-a" "auditor" "active") "view_dashboard"
     = false.
Proof.
  split; [reflexivity|].
  exact (proj2 (proj2 (HasPermission_hierarchy
                         (Sample.user "u1" "org-a" RoleViewer "active")
                         (Sample.user "u2" "org-a" RoleComplianceOfficer "active")
                         (Sample.user "u3" "org-a" RoleAdmin "active")
                         (Sample.user "u4" "org-a" "auditor" "active")
                         "view_dashboard" eq_refl eq_refl eq_refl
                         ltac:(discriminate) ltac:(discriminate) ltac:(discriminate)))).
Defined.

(* ===================================================================== *)
(** * Where an update is written                                         *)
(* ===================================================================== *)

Section StoredKeys.

Import store api.

(** X27. [handleUpdateEvidence] reads the item under the caller's
    organization and the id of the URL, and writes it back under the
    organization id and the id that the document itself carries.  When
    the document carries the organization id of another tenant, the
    update lands in that tenant's collection and the document that was
    read stays as it was: the tenant scoping of the writes rests on the
    ids stored in the documents. *)
Theorem handleUpdateEvidence_follows_stored_ids r claims req e w :
  Claims r = Some claims ->
  evidence (db w) !! (UserClaims.OrganizationID claims, URLParam r "evidenceID")
    = Some e ->
  let w' := snd (handleUpdateEvidence r (Some req) w) in
  let e' :=
    Evidence.set_UpdatedAt (clock w 0%nat)
      (Evidence.set_RequirementIDs (UpdateEvidenceRequest.RequirementIDs req)
         (Evidence.set_Description (UpdateEvidenceRequest.Description req)
            (Evidence.set_Title (UpdateEvidenceRequest.Title req) e))) in
  evidence (db w')
  = <[(Evidence.OrganizationID e, Evidence.ID e) := e']> (evidence (db w))
  /\ (Evidence.OrganizationID e <> UserClaims.OrganizationID claims ->
      evidence (db w') !! (Evidence.OrganizationID e, Evidence.ID e) = Some e'
      /\ evidence (db w')
           !! (UserClaims.OrganizationID claims, URLParam r "evidenceID") = Some e).
Proof.
  intros Hc He w' e'.
  assert (Hev : evidence (db w')
                = <[(Evidence.OrganizationID e, Evidence.ID e) := e']> (evidence (db w))).
  { subst w'. rewrite (handleUpdateEvidence_run r claims req e w Hc He).
    cbv zeta. cbn [snd].
    rewrite (proj1 (proj2 (proj2 (proj2 (CreateAuditLog_frame _ _))))).
    rewrite (proj1 (UpdateEvidence_db _ w)). reflexivity. }
  split; [exact Hev|]. intros Hne. rewrite Hev. split.
  - apply lookup_insert_eq.
  - rewrite lookup_insert_ne by congruence. exact He.
Qed.

End StoredKeys.

Lemma handleUpdateEvidence_follows_stored_ids_witness :
  let stray := Evidence.set_RequirementIDs [] (Sample.evidence1 "active" []) in
  let w := Sample.world
             (store.set_evidence {[ ("org-b", "e9") := stray ]} Sample.db4) in
  let r := Sample.request Sample.claimsB "e9" in
  let w' := snd (api.handleUpdateEvidence r
                   (Some (api.UpdateEvidenceRequest.mk "taken over" EmptyString [])) w) in
  Evidence.Title <$> store.evidence (store.db w') !! ("org-a", "e1") = Some "taken over"
  /\ store.evidence (store.db w') !! ("org-b", "e9") = Some stray.
Proof.
  intros stray w r w'.
  destruct (handleUpdateEvidence_follows_stored_ids r Sample.claimsB
              (api.UpdateEvidenceRequest.mk "taken over" EmptyString []) stray w
              eq_refl eq_refl) as [_ H].
  destruct (H ltac:(discriminate)) as [H1 H2].
  split; [|exact H2].
  exact (f_equal (fmap Evidence.Title) H1).
Defined.
